(** * BuildVeritas backend: bid lifecycle and project matching

    A shallow embedding of the bid model ([models/bid.model.js]), the
    project model ([models/project.model.js]) and the bid service
    ([services/bid.service.js]) together with the properties the design
    document states about them.

    Conventions of the embedding.
    - A MongoDB [ObjectId] and a user id are strings.
    - [Date] values are integers (milliseconds since the epoch); the clock
      ([new Date()], [Date.now()]) is the parameter [now] of an operation.
    - A JavaScript [Number] stored in a document is an exact rational
      ([Q]).  The cost breakdown of [submitBid] and the averages of
      [_calculateBidStatistics] are in addition written over an abstract
      arithmetic ([Arith]) so that they can also be run on IEEE 754
      binary64 values, which is what the interpreter really computes.
    - A JavaScript string is the sequence of its UTF-16 code units, and
      every code unit is below 256: a [string] of Rocq, byte for code
      unit.
    - A thrown exception is the [inl] of a [result]; a method that mutates
      [this] or the database returns the state it leaves behind together
      with its [result].
    - The persistence layer (Mongoose on MongoDB) can reject a write
      (schema validation, a server error); which writes it rejects is the
      parameter [Persistence] of every operation that writes.  The
      validator of the schema that depends on the clock, the one of
      [timeline.proposedStartDate], is the layer [validating].
    - Fields of the documents that no modelled operation reads or writes
      (team composition, previous work, risks, attachments, ...) are left
      out of the records. *)

From Stdlib Require Import ZArith QArith Qminmax Qabs Qround List String Ascii Bool Lia.
From Stdlib Require Import DecimalString.
From Stdlib Require Import Sorting.Sorted Sorting.Permutation.
From Stdlib Require Import Floats.
Import ListNotations.

#[local] Set Warnings "-inexact-float".
#[local] Open Scope string_scope.
#[local] Open Scope list_scope.
#[local] Open Scope Z_scope.

(** ** Errors *)

(** [new ApiError(statusCode, message, errors)].  The class itself
    ([utils/apiError.js]) is not among the sources; the record has the
    fields the error handler reads from it, [statusCode] and [message]
    (the optional [errors] payload is not modelled). *)
Record ApiError := mkApiError { statusCode : Z; message : string }.

(** Any other JavaScript error, as far as the [catch] blocks look at it:
    its [name] and its [code]. *)
Record JsError := mkJsError { name : string; code : option Z }.

Inductive Exn :=
| EApi (e : ApiError)
| EJs (e : JsError).

Definition result (A : Type) : Type := (Exn + A)%type.
Definition Ok {A} (a : A) : result A := inr a.
Definition throw {A} (e : Exn) : result A := inl e.
Definition throwApi {A} (c : Z) (m : string) : result A := inl (EApi (mkApiError c m)).

Definition isOk {A} (r : result A) : bool :=
  match r with inr _ => true | inl _ => false end.

(** [error instanceof ApiError] *)
Definition instanceofApiError (e : Exn) : bool :=
  match e with EApi _ => true | EJs _ => false end.

(** The errors MongoDB and Mongoose raise. *)
Definition duplicateKeyError : JsError := mkJsError "MongoServerError" (Some 11000).
Definition validationError : JsError := mkJsError "ValidationError" None.

(** The error of the driver for [session.abortTransaction()] on a session
    on which [commitTransaction] has been called ([Cannot call
    abortTransaction after calling commitTransaction]). *)
Definition abortAfterCommitError : JsError := mkJsError "MongoTransactionError" None.

(** ** Identifiers, time *)

Definition ObjectId := string.
Definition Date := Z.

Module Bid.

(** *** [models/bid.model.js] *)

Inductive Status := DRAFT | PENDING | IN_REVIEW | ACCEPTED | REJECTED | WITHDRAWN.

Definition Status_eqb (a b : Status) : bool :=
  match a, b with
  | DRAFT, DRAFT | PENDING, PENDING | IN_REVIEW, IN_REVIEW
  | ACCEPTED, ACCEPTED | REJECTED, REJECTED | WITHDRAWN, WITHDRAWN => true
  | _, _ => false
  end.

(** The string a status is in the source (used in template literals). *)
Definition Status_name (s : Status) : string :=
  match s with
  | DRAFT => "DRAFT" | PENDING => "PENDING" | IN_REVIEW => "IN_REVIEW"
  | ACCEPTED => "ACCEPTED" | REJECTED => "REJECTED" | WITHDRAWN => "WITHDRAWN"
  end.

Record HistoryEntry := mkHistoryEntry {
  h_status : Status;
  h_timestamp : Date;
  h_reason : option string
}.

Record Milestone := mkMilestone {
  title : string;
  expectedCompletionDate : Date;
  paymentPercentage : Q
}.

Record CostItem (num : Type) := mkCostItem {
  category : string;
  description : string;
  amount : num;
  quantity : option Z
}.
Arguments mkCostItem {num}.
Arguments category {num}.
Arguments description {num}.
Arguments amount {num}.
Arguments quantity {num}.

Record ProposedCost := mkProposedCost {
  total : Q;
  currency : string;
  breakdown : list (CostItem Q)
}.

Record Timeline := mkTimeline {
  proposedStartDate : Date;
  estimatedDuration_value : Q;
  estimatedDuration_unit : string;
  milestones : list Milestone
}.

Record Proposal := mkProposal {
  summary : option string;
  approach : string;
  uniqueValue : string
}.

(** A value of the schema type [Mixed], stored as it is sent: its JSON
    text. *)
Definition Mixed := string.

Record Negotiation := mkNegotiation {
  initiator : string;
  n_type : string;
  n_originalValue : option Mixed;
  n_proposedValue : option Mixed;
  n_message : option string;
  n_status : string;
  n_timestamp : Date
}.

Record Metadata := mkMetadata {
  submittedAt : option Date;
  lastUpdated : Date
}.

(** A bid document.  [statusModified] is Mongoose's change tracking for
    the path [status.current] ([this.isModified('status.current')]):
    set by an assignment that changes the value, and for every path a
    new document was built with; cleared by a successful [save].
    [isNew] is Mongoose's flag of a document not yet inserted. *)
Record t := mk {
  _id : ObjectId;
  project : ObjectId;
  vendor : ObjectId;
  proposedCost : ProposedCost;
  timeline : Timeline;
  proposal : Proposal;
  status_current : Status;
  status_history : list HistoryEntry;
  negotiations : list Negotiation;
  metadata : Metadata;
  statusModified : bool;
  isNew : bool
}.

(** Field updates ([this.x = v], [this.xs.push(v)]). *)
Definition set_status_current (s : Status) (b : t) : t :=
  mk (_id b) (project b) (vendor b) (proposedCost b) (timeline b) (proposal b)
     s (status_history b) (negotiations b) (metadata b)
     (statusModified b || negb (Status_eqb (status_current b) s)) (isNew b).

Definition push_status_history (h : HistoryEntry) (b : t) : t :=
  mk (_id b) (project b) (vendor b) (proposedCost b) (timeline b) (proposal b)
     (status_current b) (status_history b ++ [h]) (negotiations b) (metadata b)
     (statusModified b) (isNew b).

Definition push_negotiations (n : Negotiation) (b : t) : t :=
  mk (_id b) (project b) (vendor b) (proposedCost b) (timeline b) (proposal b)
     (status_current b) (status_history b) (negotiations b ++ [n]) (metadata b)
     (statusModified b) (isNew b).

Definition set_metadata (m : Metadata) (b : t) : t :=
  mk (_id b) (project b) (vendor b) (proposedCost b) (timeline b) (proposal b)
     (status_current b) (status_history b) (negotiations b) m
     (statusModified b) (isNew b).

Definition set_proposedCost (c : ProposedCost) (b : t) : t :=
  mk (_id b) (project b) (vendor b) c (timeline b) (proposal b)
     (status_current b) (status_history b) (negotiations b) (metadata b)
     (statusModified b) (isNew b).

Definition set_timeline (tl : Timeline) (b : t) : t :=
  mk (_id b) (project b) (vendor b) (proposedCost b) tl (proposal b)
     (status_current b) (status_history b) (negotiations b) (metadata b)
     (statusModified b) (isNew b).

Definition set_proposal (p : Proposal) (b : t) : t :=
  mk (_id b) (project b) (vendor b) (proposedCost b) (timeline b) p
     (status_current b) (status_history b) (negotiations b) (metadata b)
     (statusModified b) (isNew b).

(** What a successful write leaves of the change tracking. *)
Definition markSaved (b : t) : t :=
  mk (_id b) (project b) (vendor b) (proposedCost b) (timeline b) (proposal b)
     (status_current b) (status_history b) (negotiations b) (metadata b)
     false false.

(** [bidSchema.pre('save', ...)] *)
Definition preSave (now : Date) (this : t) : t :=
  let this := set_metadata (mkMetadata (submittedAt (metadata this)) now) this in
  if statusModified this then
    let this :=
      push_status_history (mkHistoryEntry (status_current this) now None) this in
    match status_current this, submittedAt (metadata this) with
    | PENDING, None => set_metadata (mkMetadata (Some now) (lastUpdated (metadata this))) this
    | _, _ => this
    end
  else this.

(** The table of [updateStatus]. *)
Definition validTransitions (s : Status) : list Status :=
  match s with
  | DRAFT => [PENDING; WITHDRAWN]
  | PENDING => [IN_REVIEW; WITHDRAWN; REJECTED]
  | IN_REVIEW => [ACCEPTED; REJECTED; PENDING]
  | ACCEPTED => [IN_REVIEW]
  | REJECTED => [IN_REVIEW]
  | WITHDRAWN => [PENDING]
  end.

(** [Array.prototype.includes] on statuses. *)
Definition includes (l : list Status) (s : Status) : bool :=
  existsb (Status_eqb s) l.

(** The validator of [timeline.proposedStartDate] in [bidTimelineSchema]:
    [value >= new Date()]. *)
Definition startDateValidator (now : Date) (value : Date) : bool := now <=? value.

End Bid.

Module Project.

(** *** [models/project.model.js] *)

Inductive Status :=
  DRAFT | OPEN | IN_REVIEW | IN_PROGRESS | ON_HOLD | COMPLETED | CANCELLED.

Definition Status_eqb (a b : Status) : bool :=
  match a, b with
  | DRAFT, DRAFT | OPEN, OPEN | IN_REVIEW, IN_REVIEW | IN_PROGRESS, IN_PROGRESS
  | ON_HOLD, ON_HOLD | COMPLETED, COMPLETED | CANCELLED, CANCELLED => true
  | _, _ => false
  end.

Record HistoryEntry := mkHistoryEntry {
  h_status : Status;
  h_timestamp : Date;
  h_reason : option string
}.

Record Metadata := mkMetadata {
  updatedAt : Date;
  lastActivityAt : Date;
  views : Z
}.

(** A project document.  [minExperience] and [minRating] are
    [preferences?.vendorRequirements?.minExperience] and [...minRating]:
    [None] when any link of the chain is undefined. *)
Record t := mk {
  _id : ObjectId;
  client : ObjectId;
  projectType : string;
  minExperience : option Q;
  minRating : option Q;
  status_current : Status;
  status_history : list HistoryEntry;
  metadata : Metadata;
  statusModified : bool
}.

Definition set_status_current (s : Status) (p : t) : t :=
  mk (_id p) (client p) (projectType p) (minExperience p) (minRating p)
     s (status_history p) (metadata p)
     (statusModified p || negb (Status_eqb (status_current p) s)).

Definition push_status_history (h : HistoryEntry) (p : t) : t :=
  mk (_id p) (client p) (projectType p) (minExperience p) (minRating p)
     (status_current p) (status_history p ++ [h]) (metadata p) (statusModified p).

Definition set_metadata (m : Metadata) (p : t) : t :=
  mk (_id p) (client p) (projectType p) (minExperience p) (minRating p)
     (status_current p) (status_history p) m (statusModified p).

Definition markSaved (p : t) : t :=
  mk (_id p) (client p) (projectType p) (minExperience p) (minRating p)
     (status_current p) (status_history p) (metadata p) false.

(** [projectSchema.pre('save', ...)] *)
Definition preSave (now : Date) (this : t) : t :=
  let this := set_metadata (mkMetadata now now (views (metadata this))) this in
  if statusModified this then
    push_status_history (mkHistoryEntry (status_current this) now None) this
  else this.

End Project.

(** *** Profiles ([models/vendor.profile.model.js], [models/client.profile.model.js]) *)

Record VendorProfile := mkVendorProfile {
  v_id : ObjectId;
  v_user : ObjectId;
  v_status : string;
  services : option (list string);
  yearsInBusiness : Q;
  ratings_average : Q;
  isVerified : bool
}.

Record ClientProfile := mkClientProfile {
  c_id : ObjectId;
  c_user : ObjectId
}.

(** ** The database *)

(** The four collections, each in insertion order.  A stored document has
    its change tracking cleared. *)
Record Db := mkDb {
  bids : list Bid.t;
  projects : list Project.t;
  vendorProfiles : list VendorProfile;
  clientProfiles : list ClientProfile
}.

Definition set_bids (l : list Bid.t) (db : Db) : Db :=
  mkDb l (projects db) (vendorProfiles db) (clientProfiles db).

Definition set_projects (l : list Project.t) (db : Db) : Db :=
  mkDb (bids db) l (vendorProfiles db) (clientProfiles db).

(** A write staged in a transaction or applied to the database. *)
Inductive Write :=
| InsertBid (b : Bid.t)
| ReplaceBid (b : Bid.t)
| ReplaceProject (p : Project.t).

(** Replace the document with the identifier of [b]. *)
Definition replaceBid (b : Bid.t) (l : list Bid.t) : list Bid.t :=
  map (fun x => if String.eqb (Bid._id x) (Bid._id b) then b else x) l.

Definition replaceProject (p : Project.t) (l : list Project.t) : list Project.t :=
  map (fun x => if String.eqb (Project._id x) (Project._id p) then p else x) l.

Definition applyWrite (db : Db) (w : Write) : Db :=
  match w with
  | InsertBid b => set_bids (bids db ++ [b]) db
  | ReplaceBid b => set_bids (replaceBid b (bids db)) db
  | ReplaceProject p => set_projects (replaceProject p (projects db)) db
  end.

(** A client session with a transaction started on it
    ([mongoose.startSession()], [session.startTransaction()]): the writes
    made with [{ session }], in order.  [session.commitTransaction()]
    applies them, [session.abortTransaction()] drops them. *)
Definition Session := list Write.

Definition startTransaction : Session := [].

Definition commitTransaction (s : Session) (db : Db) : Db :=
  fold_left applyWrite s db.

(** Which writes the persistence layer rejects, and with which error. *)
Record Persistence := mkPersistence {
  bid_write : Bid.t -> option JsError;
  project_write : Project.t -> option JsError;
  bulk_write : option JsError;
  bid_delete : option JsError;
  project_delete : option JsError;
  commit : option JsError
}.

(** A persistence layer that accepts every write. *)
Definition healthy : Persistence :=
  mkPersistence (fun _ => None) (fun _ => None) None None None None.

(** Mongoose at the time [now], with a database that accepts every write:
    [save] validates the document before it writes, which runs the
    validator of [timeline.proposedStartDate] again on every save of a
    bid, and a failed validation rejects the save with a
    [ValidationError].  [Bid.updateMany] runs no validator. *)
Definition validating (now : Date) : Persistence :=
  mkPersistence
    (fun b => if Bid.startDateValidator now (Bid.proposedStartDate (Bid.timeline b))
              then None else Some validationError)
    (fun _ => None) None None None None.

(** Queries. *)
Definition Bid_findById (id : ObjectId) (db : Db) : option Bid.t :=
  find (fun b => String.eqb (Bid._id b) id) (bids db).

Definition Project_findById (id : ObjectId) (db : Db) : option Project.t :=
  find (fun p => String.eqb (Project._id p) id) (projects db).

(** [Project.findOne({ _id: projectId, client: clientProfileId })] *)
Definition Project_findOwned (id client : ObjectId) (db : Db) : option Project.t :=
  find (fun p => String.eqb (Project._id p) id && String.eqb (Project.client p) client)
       (projects db).

(** [VendorProfile.findOne({ user: vendorId })] *)
Definition VendorProfile_findByUser (user : ObjectId) (db : Db) : option VendorProfile :=
  find (fun v => String.eqb (v_user v) user) (vendorProfiles db).

(** [ClientProfile.findOne({ user: clientId })] *)
Definition ClientProfile_findByUser (user : ObjectId) (db : Db) : option ClientProfile :=
  find (fun c => String.eqb (c_user c) user) (clientProfiles db).

(** The unique index [{ project: 1, vendor: 1 }] of the bid collection:
    is there a bid with the project and the vendor of [b]? *)
Definition violatesUniqueIndex (b : Bid.t) (l : list Bid.t) : bool :=
  existsb (fun x => String.eqb (Bid.project x) (Bid.project b)
                    && String.eqb (Bid.vendor x) (Bid.vendor b)) l.

(** The bids a session has staged for insertion. *)
Definition stagedInserts (s : Session) : list Bid.t :=
  flat_map (fun w => match w with InsertBid b => [b] | _ => [] end) s.

Module BidModel.

(** *** Methods and statics of [models/bid.model.js] *)

(** [this.save()]: the write goes straight to the database.  Mongoose
    validates, runs the [pre('save')] hook and then writes; a rejected
    write leaves the document as it was handed in. *)
Definition save (P : Persistence) (now : Date) (this : Bid.t) (db : Db)
  : Bid.t * Db * result unit :=
  match bid_write P this with
  | Some e => (this, db, throw (EJs e))
  | None =>
    let this' := Bid.preSave now this in
    if Bid.isNew this' then
      if violatesUniqueIndex this' (bids db)
      then (this', db, throw (EJs duplicateKeyError))
      else let stored := Bid.markSaved this' in
           (stored, applyWrite db (InsertBid stored), Ok tt)
    else let stored := Bid.markSaved this' in
         (stored, applyWrite db (ReplaceBid stored), Ok tt)
  end.

(** [this.save({ session })]: the write is staged in the transaction. *)
Definition saveInSession (P : Persistence) (now : Date) (this : Bid.t)
  (db : Db) (session : Session) : Bid.t * Session * result unit :=
  match bid_write P this with
  | Some e => (this, session, throw (EJs e))
  | None =>
    let this' := Bid.preSave now this in
    if Bid.isNew this' then
      if violatesUniqueIndex this' (bids db ++ stagedInserts session)
      then (this', session, throw (EJs duplicateKeyError))
      else let stored := Bid.markSaved this' in
           (stored, session ++ [InsertBid stored], Ok tt)
    else let stored := Bid.markSaved this' in
         (stored, session ++ [ReplaceBid stored], Ok tt)
  end.

(** [bidSchema.methods.updateStatus] *)
Definition updateStatus (P : Persistence) (now : Date)
  (newStatus : Bid.Status) (reason : option string) (this : Bid.t) (db : Db)
  : Bid.t * Db * result unit :=
  if negb (Bid.includes (Bid.validTransitions (Bid.status_current this)) newStatus) then
    (this, db,
     throwApi 400 ("Invalid status transition from "
                   ++ Bid.Status_name (Bid.status_current this)
                   ++ " to " ++ Bid.Status_name newStatus)%string)
  else
    let this := Bid.set_status_current newStatus this in
    let this := Bid.push_status_history (Bid.mkHistoryEntry newStatus now reason) this in
    save P now this db.

(** [bidSchema.methods.addNegotiation]; the spread [...negotiationData]
    is the negotiation record without its timestamp. *)
Definition addNegotiation (P : Persistence) (now : Date)
  (negotiationData : Bid.Negotiation) (this : Bid.t) (db : Db)
  : Bid.t * Db * result Bid.Negotiation :=
  let n := Bid.mkNegotiation (Bid.initiator negotiationData) (Bid.n_type negotiationData)
             (Bid.n_originalValue negotiationData) (Bid.n_proposedValue negotiationData)
             (Bid.n_message negotiationData) (Bid.n_status negotiationData) now in
  let this := Bid.push_negotiations n this in
  match save P now this db with
  | (this, db, inl e) => (this, db, inl e)
  | (this, db, inr _) => (this, db, Ok (last (Bid.negotiations this) n))
  end.

End BidModel.

Module ProjectModel.

(** *** Methods of [models/project.model.js] *)

(** [this.save()] *)
Definition save (P : Persistence) (now : Date) (this : Project.t) (db : Db)
  : Project.t * Db * result unit :=
  match project_write P this with
  | Some e => (this, db, throw (EJs e))
  | None =>
    let stored := Project.markSaved (Project.preSave now this) in
    (stored, applyWrite db (ReplaceProject stored), Ok tt)
  end.

(** [this.save({ session })] *)
Definition saveInSession (P : Persistence) (now : Date) (this : Project.t)
  (session : Session) : Project.t * Session * result unit :=
  match project_write P this with
  | Some e => (this, session, throw (EJs e))
  | None =>
    let stored := Project.markSaved (Project.preSave now this) in
    (stored, session ++ [ReplaceProject stored], Ok tt)
  end.

(** [projectSchema.methods.updateStatus] *)
Definition updateStatus (P : Persistence) (now : Date)
  (newStatus : Project.Status) (reason : option string) (this : Project.t) (db : Db)
  : Project.t * Db * result unit :=
  if negb (Project.Status_eqb (Project.status_current this) newStatus) then
    let this := Project.set_status_current newStatus this in
    let this :=
      Project.push_status_history (Project.mkHistoryEntry newStatus now reason) this in
    save P now this db
  else (this, db, Ok tt).

End ProjectModel.

(** ** Strings *)

(** [String.prototype.includes] *)
Fixpoint includesString (sub s : string) : bool :=
  String.prefix sub s
  || match s with
     | EmptyString => false
     | String _ s' => includesString sub s'
     end.

(** [Array.prototype.includes] on strings. *)
Definition includesIn (l : list string) (s : string) : bool :=
  existsb (String.eqb s) l.

(** The decimal numeral of an integer, as a template literal prints it. *)
Definition numeral (z : Z) : string := NilZero.string_of_int (Z.to_int z).

(** The first decimal digit of a positive integer, with its place value
    (times [p]); [fuel] is at least the binary logarithm of [v]. *)
Fixpoint leading (fuel : nat) (v p : Z) : Z * Z :=
  match fuel with
  | O => (v, p)
  | S fuel' => if v <? 10 then (v, p) else leading fuel' (v / 10) (10 * p)
  end.

(** The first digit [String(v)] writes for a binary64 value [v] that is an
    integer of at least 10^21.  [String] writes the shortest decimal that
    rounds to [v], in the form [d.ddde+n]: the first digit of [v], or the
    next one where that digit followed by zeros is no farther from [v]
    than half the distance to the next binary64 value (with a tie going
    to the value whose significand is even). *)
Definition leadingDigit (v : Z) : Z :=
  let '(d, p) := leading (Z.to_nat (Z.log2 v)) v 1 in
  let ulp := 2 ^ (Z.log2 v - 52) in
  let gap := (d + 1) * p - v in
  if (if Z.even (v / ulp) then 2 * gap <=? ulp else 2 * gap <? ulp)
  then (if d =? 9 then 1 else d + 1)
  else d.

(** [parseInt(x)] for a Number [x] that is an integer: [parseInt] reads
    the integer at the start of [String(x)].  Below 10^21 in magnitude
    [String] writes the digits of a decimal that rounds to [x], and the
    result is [x]; from 10^21 on it writes [d.ddde+n], of which
    [parseInt] reads the first digit. *)
Definition parseInt (x : Z) : Z :=
  if Z.abs x <? 10 ^ 21 then x else Z.sgn x * leadingDigit (Z.abs x).

(** The white space of ECMAScript among the code units below 256: tab,
    line feed, vertical tab, form feed, carriage return (9 to 13), space
    (32) and no-break space (160). *)
Definition isWhiteSpace (c : ascii) : bool :=
  let n := nat_of_ascii c in
  ((9 <=? n) && (n <=? 13) || (n =? 32) || (n =? 160))%nat.

Fixpoint trimStart (s : string) : string :=
  match s with
  | String c s' => if isWhiteSpace c then trimStart s' else s
  | EmptyString => EmptyString
  end.

Fixpoint trimEnd (s : string) : string :=
  match s with
  | EmptyString => EmptyString
  | String c s' =>
    match trimEnd s' with
    | EmptyString => if isWhiteSpace c then EmptyString else String c EmptyString
    | t => String c t
    end
  end.

(** [String.prototype.trim] *)
Definition trim (s : string) : string := trimEnd (trimStart s).

(** [text.replace(/[<>]/g, '')] *)
Fixpoint removeAngleBrackets (s : string) : string :=
  match s with
  | EmptyString => EmptyString
  | String c s' =>
    if (Ascii.eqb c "<" || Ascii.eqb c ">")%char then removeAngleBrackets s'
    else String c (removeAngleBrackets s')
  end.

(** [sanitizeText]; [None] is [undefined]. *)
Definition sanitizeText (text : option string) : option string :=
  match text with
  | None => None
  | Some EmptyString => Some EmptyString
  | Some t => Some (trim (removeAngleBrackets t))
  end.

Definition toUpperAscii (c : ascii) : ascii :=
  let n := nat_of_ascii c in
  if ((97 <=? n) && (n <=? 122))%nat then ascii_of_nat (n - 32) else c.

(** [String.prototype.toUpperCase], on ASCII letters. *)
Fixpoint toUpperCase (s : string) : string :=
  match s with
  | EmptyString => EmptyString
  | String c s' => String (toUpperAscii c) (toUpperCase s')
  end.

(** ** The cache *)

Module TTLCache.

(** *** [class TTLCache] of [services/bid.service.js]

    The underlying [Map] is an association list in insertion order, which
    is the order [Map.prototype.keys] iterates in. *)

Section WithValue.

Context {V : Type}.

Record Entry := mkEntry { value : V; expiresAt : Date }.

Record t := mk {
  cache : list (string * Entry);
  ttl : Z;
  maxSize : nat
}.

Definition with_cache (l : list (string * Entry)) (c : t) : t :=
  mk l (ttl c) (maxSize c).

(** [Map.prototype.get] *)
Fixpoint Map_get (key : string) (l : list (string * Entry)) : option Entry :=
  match l with
  | [] => None
  | (k, e) :: l' => if String.eqb k key then Some e else Map_get key l'
  end.

(** [Map.prototype.delete] *)
Definition Map_delete (key : string) (l : list (string * Entry)) : list (string * Entry) :=
  filter (fun ke => negb (String.eqb (fst ke) key)) l.

(** [Map.prototype.set]: a present key keeps its place. *)
Fixpoint Map_set (key : string) (e : Entry) (l : list (string * Entry))
  : list (string * Entry) :=
  match l with
  | [] => [(key, e)]
  | (k, e') :: l' =>
    if String.eqb k key then (k, e) :: l' else (k, e') :: Map_set key e l'
  end.

(** [constructor(ttl, maxSize)] *)
Definition new (ttl : Z) (maxSize : nat) : t := mk [] ttl maxSize.

(** [set(key, value)] *)
Definition set (now : Date) (key : string) (v : V) (c : t) : t :=
  let l :=
    if (maxSize c <=? List.length (cache c))%nat then
      match cache c with
      | [] => cache c
      | (firstKey, _) :: _ => Map_delete firstKey (cache c)
      end
    else cache c in
  with_cache (Map_set key (mkEntry v (now + ttl c)) l) c.

(** [get(key)]: the cache it leaves and the value, [None] for [null]. *)
Definition get (now : Date) (key : string) (c : t) : t * option V :=
  match Map_get key (cache c) with
  | None => (c, None)
  | Some entry =>
    if expiresAt entry <? now then (with_cache (Map_delete key (cache c)) c, None)
    else (c, Some (value entry))
  end.

(** [delete(key)] *)
Definition delete (key : string) (c : t) : t :=
  with_cache (Map_delete key (cache c)) c.

(** [keys()] *)
Definition keys (c : t) : list string := map fst (cache c).

(** [cleanup()] *)
Definition cleanup (now : Date) (c : t) : t :=
  with_cache (filter (fun ke => negb (expiresAt (snd ke) <? now)) (cache c)) c.

(** [get size()] *)
Definition size (c : t) : nat := List.length (cache c).

End WithValue.

Arguments Entry : clear implicits.
Arguments t : clear implicits.

End TTLCache.

(** ** Arithmetic of the pricing engine *)

(** [BID_CONSTANTS.COST_BREAKDOWN] *)
Record CostBreakdownConstants (num : Type) := mkCostBreakdownConstants {
  LABOR_PERCENTAGE : num;
  MATERIALS_PERCENTAGE : num;
  OVERHEAD_PERCENTAGE : num
}.
Arguments LABOR_PERCENTAGE {num}.
Arguments MATERIALS_PERCENTAGE {num}.
Arguments OVERHEAD_PERCENTAGE {num}.

(** The operations on [Number] the cost breakdown and the averages use,
    the constants as the arithmetic reads the literals [0.6], [0.3] and
    [0.1], and the Number of a length. *)
Class Arith (num : Type) := mkArith {
  times : num -> num -> num;
  plus : num -> num -> num;
  divide : num -> num -> num;
  zero : num;
  ofLength : nat -> num;
  COST_BREAKDOWN : CostBreakdownConstants num
}.

(** Exact arithmetic. *)
#[export] Instance Arith_Q : Arith Q :=
  mkArith Q Qmult Qplus Qdiv (0 # 1)%Q (fun n => inject_Z (Z.of_nat n))
    (mkCostBreakdownConstants Q (6 # 10)%Q (3 # 10)%Q (1 # 10)%Q).

(** IEEE 754 binary64, round to nearest even: the arithmetic of a
    JavaScript [Number].  The literals denote the nearest binary64 value,
    as they do in JavaScript; a length is below 2^53 and is a binary64
    value as it is. *)
#[export] Instance Arith_binary64 : Arith float :=
  mkArith float PrimFloat.mul PrimFloat.add PrimFloat.div 0%float
    (fun n => PrimFloat.of_uint63 (Uint63.of_Z (Z.of_nat n)))
    (mkCostBreakdownConstants float 0.6%float 0.3%float 0.1%float).

(** [BID_CONSTANTS.MILESTONES] *)
Definition FOUNDATION_PERCENTAGE : Q := (3 # 10)%Q.
Definition FOUNDATION_PAYMENT : Q := (30 # 1)%Q.
Definition STRUCTURE_PERCENTAGE : Q := (7 # 10)%Q.
Definition STRUCTURE_PAYMENT : Q := (40 # 1)%Q.
Definition COMPLETION_PAYMENT : Q := (30 # 1)%Q.

(** [BID_CONSTANTS.PAGINATION], [BID_CONSTANTS.CACHE], [BID_CONSTANTS.TIME] *)
Definition DEFAULT_LIMIT : Z := 20.
Definition MAX_LIMIT : Z := 100.
Definition DEFAULT_PAGE : Z := 1.
Definition CACHE_TTL : Z := 5 * 60 * 1000.
Definition CACHE_MAX_SIZE : nat := 1000.
Definition DAYS_IN_MONTH : Z := 30.
Definition HOURS_IN_DAY : Z := 24.
Definition MINUTES_IN_HOUR : Z := 60.
Definition SECONDS_IN_MINUTE : Z := 60.
Definition MS_IN_SECOND : Z := 1000.

(** The breakdown [submitBid] builds from [bidData.proposedCost] and
    [bidData.teamSize]. *)
Definition costBreakdown {num : Type} {A : Arith num}
  (proposedCost : num) (teamSize : Z) : list (Bid.CostItem num) :=
  [ Bid.mkCostItem "labor" "Labor costs"
      (times proposedCost (LABOR_PERCENTAGE COST_BREAKDOWN)) (Some teamSize);
    Bid.mkCostItem "materials" "Materials and supplies"
      (times proposedCost (MATERIALS_PERCENTAGE COST_BREAKDOWN)) None;
    Bid.mkCostItem "overhead" "Overhead and profit"
      (times proposedCost (OVERHEAD_PERCENTAGE COST_BREAKDOWN)) None ].

(** The sum of the amounts of a breakdown, added left to right. *)
Definition breakdownSum {num : Type} {A : Arith num}
  (l : list (Bid.CostItem num)) : num :=
  fold_left plus (map Bid.amount l) zero.

(** [l.reduce((a, b) => a + b, 0) / l.length], the average of
    [_calculateBidStatistics]. *)
Definition average {num : Type} {A : Arith num} (l : list num) : num :=
  divide (fold_left plus l zero) (ofLength (List.length l)).

(** The number a binary64 value stands for, when it is finite. *)
Definition exactValue (x : float) : option Q :=
  match Prim2SF x with
  | S754_zero _ => Some (0 # 1)%Q
  | S754_finite sign m e =>
    let magnitude := (inject_Z (Zpos m) * Qpower (2 # 1) e)%Q in
    Some (if sign then (- magnitude)%Q else magnitude)
  | _ => None
  end.

(** ** Sorting *)

Section Sorting.

Context {A : Type} (leb : A -> A -> bool).

Fixpoint insertBy (x : A) (l : list A) : list A :=
  match l with
  | [] => [x]
  | y :: l' => if leb x y then x :: l else y :: insertBy x l'
  end.

(** A stable ascending sort. *)
Definition sortBy (l : list A) : list A := fold_right insertBy [] l.

End Sorting.

(** [a > b] on a possibly undefined left operand. *)
Definition gtUndefined (a : option Q) (b : Q) : bool :=
  match a with
  | None => false
  | Some a => negb (Qle_bool a b)
  end.

(** [new Date(x)] for a fractional number of milliseconds: the integer
    part. *)
Definition truncate (q : Q) : Z := Z.quot (Qnum q) (Zpos (Qden q)).

(** ** The bid service *)

(** [bidSchema.statics.findCompetingBids]; [excludeBidId = None] is the
    default [null]. *)
Definition findCompetingBids (projectId : ObjectId) (excludeBidId : option ObjectId)
  (db : Db) : list Bid.t :=
  let query (b : Bid.t) :=
    String.eqb (Bid.project b) projectId
    && Bid.includes [Bid.PENDING; Bid.IN_REVIEW] (Bid.status_current b)
    && match excludeBidId with
       | Some id => negb (String.eqb (Bid._id b) id)
       | None => true
       end in
  sortBy (fun a b => Qle_bool (Bid.total (Bid.proposedCost a)) (Bid.total (Bid.proposedCost b)))
         (filter query (bids db)).

Record Stats := mkStats {
  averageCost : Q;
  medianCost : Q;
  costRange_min : Q;
  costRange_max : Q;
  averageDuration : Q;
  bidCount : nat
}.

Record Analysis := mkAnalysis {
  a_cost : Q;
  a_duration : Q;
  market : Stats;
  competitiveness : Q
}.

Record Pagination := mkPagination {
  page : Z;
  limit : Z;
  pg_total : Z;
  pages : Z;
  hasMore : bool
}.

Record ProjectBids := mkProjectBids {
  r_bids : list Bid.t;
  pagination : Pagination
}.

(** The state the service works on: the database and the two caches of
    the service object. *)
Record World := mkWorld {
  db : Db;
  bidCache : TTLCache.t Analysis;
  projectBidsCache : TTLCache.t ProjectBids
}.

Definition with_db (d : Db) (w : World) : World :=
  mkWorld d (bidCache w) (projectBidsCache w).

Definition with_bidCache (c : TTLCache.t Analysis) (w : World) : World :=
  mkWorld (db w) c (projectBidsCache w).

Definition with_projectBidsCache (c : TTLCache.t ProjectBids) (w : World) : World :=
  mkWorld (db w) (bidCache w) c.

(** Computations of the service: they change the world and return or
    throw. *)
Definition M (A : Type) : Type := World -> World * result A.

Definition ret {A} (a : A) : M A := fun w => (w, Ok a).

Definition raise {A} (e : Exn) : M A := fun w => (w, throw e).

Definition raiseApi {A} (c : Z) (m : string) : M A := fun w => (w, throwApi c m).

Definition bind {A B} (c : M A) (k : A -> M B) : M B :=
  fun w => match c w with
           | (w', inr a) => k a w'
           | (w', inl e) => (w', inl e)
           end.

(** [try { body } catch (error) { throw handler(error) }] *)
Definition tryCatch {A} (body : M A) (handler : Exn -> Exn) : M A :=
  fun w => match body w with
           | (w', inr a) => (w', inr a)
           | (w', inl e) => (w', inl (handler e))
           end.

(** A read of the database. *)
Definition query {A} (f : Db -> A) : M A := fun w => (w, Ok (f (db w))).

(** A method of a document that writes to the database. *)
Definition onDb {D A} (f : Db -> D * Db * result A) : M (D * A) :=
  fun w => match f (db w) with
           | (d, db', inr a) => (with_db db' w, inr (d, a))
           | (_, db', inl e) => (with_db db' w, inl e)
           end.

(** A write staged in a session. *)
Definition staged {D A} (r : D * Session * result A) : M (D * Session) :=
  fun w => match r with
           | (d, s, inr _) => (w, inr (d, s))
           | (_, _, inl e) => (w, inl e)
           end.

Declare Scope service_scope.
Delimit Scope service_scope with service.
Notation "x <- c ;; k" := (bind c (fun x => k))
  (at level 61, c at next level, right associativity) : service_scope.
Notation "' p <- c ;; k" := (bind c (fun p => k))
  (at level 61, p pattern, c at next level, right associativity) : service_scope.
Notation "c ;; k" := (bind c (fun _ => k))
  (at level 61, right associativity) : service_scope.
#[local] Open Scope service_scope.

Module BidService.

(** *** [class BidService] of [services/bid.service.js]

    [populate] calls, which only decorate the returned documents, and
    logging are left out. *)

(** [constructor()] *)
Definition new (d : Db) : World :=
  mkWorld d (TTLCache.new CACHE_TTL CACHE_MAX_SIZE) (TTLCache.new CACHE_TTL CACHE_MAX_SIZE).

(** [_getClientProfile] *)
Definition _getClientProfile (clientId : ObjectId) : M ClientProfile :=
  clientProfile <- query (ClientProfile_findByUser clientId) ;;
  match clientProfile with
  | None => raiseApi 404 "Client profile not found"
  | Some p => ret p
  end.

(** [_calculateMilestoneDates]: the three dates, in exact arithmetic.  The
    source computes them on binary64 values, and [new Date] gives an
    invalid date beyond 8.64e15 milliseconds from the epoch; no property
    below depends on the values of the dates. *)
Definition _calculateMilestoneDates (startDate : Date) (durationMonths : Q)
  : Date * Date * Date :=
  let startTime := inject_Z startDate in
  let msInMonth :=
    (durationMonths * inject_Z DAYS_IN_MONTH * inject_Z HOURS_IN_DAY
     * inject_Z MINUTES_IN_HOUR * inject_Z SECONDS_IN_MINUTE * inject_Z MS_IN_SECOND)%Q in
  (truncate (startTime + msInMonth * FOUNDATION_PERCENTAGE)%Q,
   truncate (startTime + msInMonth * STRUCTURE_PERCENTAGE)%Q,
   truncate (startTime + msInMonth)%Q).

(** [_validateVendorEligibility] *)
Definition _validateVendorEligibility (vendor : VendorProfile) (project : Project.t)
  : result bool :=
  if negb (String.eqb (v_status vendor) "active") then
    throwApi 400 "Vendor account is not active"
  else if match services vendor with
          | None => false
          | Some l => (0 <? List.length l)%nat
                      && negb (includesIn l "NA")
                      && negb (includesIn l (Project.projectType project))
          end then
    throwApi 400 "Project type does not match vendor services"
  else if gtUndefined (Project.minExperience project) (yearsInBusiness vendor) then
    throwApi 400 "Vendor does not meet minimum experience requirement"
  else if gtUndefined (Project.minRating project) (ratings_average vendor) then
    throwApi 400 "Vendor does not meet minimum rating requirement"
  else Ok true.

(** The request body of a submission. *)
Record BidData := mkBidData {
  bd_proposedCost : Q;
  bd_startDate : Date;
  bd_duration : Q;
  bd_proposal : option string;
  bd_teamSize : Z
}.

(** [simplifiedBidData] of [submitBid], as the document [new Bid(...)]
    makes of it: every path it sets is modified, the document is new,
    [metadata.lastUpdated] has its default. *)
Definition simplifiedBidData (now : Date) (newId projectId : ObjectId)
  (vendor : VendorProfile) (bidData : BidData) : Bid.t :=
  let sanitizedProposal := sanitizeText (bd_proposal bidData) in
  let '(foundation, structure, completion) :=
    _calculateMilestoneDates (bd_startDate bidData) (bd_duration bidData) in
  Bid.mk newId projectId (v_id vendor)
    (Bid.mkProposedCost (bd_proposedCost bidData) "INR"
       (costBreakdown (bd_proposedCost bidData) (bd_teamSize bidData)))
    (Bid.mkTimeline (bd_startDate bidData) (bd_duration bidData) "months"
       [ Bid.mkMilestone "Foundation Complete" foundation FOUNDATION_PAYMENT;
         Bid.mkMilestone "Structure Complete" structure STRUCTURE_PAYMENT;
         Bid.mkMilestone "Project Complete" completion COMPLETION_PAYMENT ])
    (Bid.mkProposal sanitizedProposal
       "We will follow industry best practices and ensure quality workmanship throughout the project."
       "Experienced team with proven track record")
    Bid.PENDING [Bid.mkHistoryEntry Bid.PENDING now None]
    [] (Bid.mkMetadata None now) true true.

(** The [catch] block of [submitBid]. *)
Definition submitBid_catch (error : Exn) : Exn :=
  match error with
  | EApi _ => error
  | EJs e =>
    if match code e with Some c => c =? 11000 | None => false end
       || String.eqb (name e) "MongoServerError"
    then EApi (mkApiError 400 "Vendor has already submitted a bid for this project")
    else if String.eqb (name e) "ValidationError"
    then EApi (mkApiError 400 "Invalid bid data")
    else EApi (mkApiError 500 "Error submitting bid")
  end.

(** [session.commitTransaction()] *)
Definition commitSession (P : Persistence) (session : Session) : M unit :=
  fun w => match commit P with
           | Some e => (w, throw (EJs e))
           | None => (with_db (commitTransaction session (db w)) w, Ok tt)
           end.

(** How the [try] block of a method that runs a transaction ends, when it
    does not throw: it returns without a commit, or it reaches
    [await session.commitTransaction()] with the writes staged in
    [session] and goes on with [rest]. *)
Inductive Tx (A : Type) : Type :=
| Returns (a : A)
| Commits (session : Session) (rest : M A).
Arguments Returns {A}.
Arguments Commits {A}.

(** [try { body } catch (error) { await session.abortTransaction();
    throw handler(error) }].

    For an error thrown before the commit, [abortTransaction] drops the
    staged writes and the block goes on to its [throw] statements.  The
    driver marks the transaction as committed once [commitTransaction] has
    been called, whether the commit succeeds or fails, and from then on
    [abortTransaction] throws [abortAfterCommitError]: for an error thrown
    by the commit or after it, that error leaves the [catch] block in
    place of the one caught. *)
Definition transaction {A} (P : Persistence) (body : M (Tx A)) (handler : Exn -> Exn)
  : M A :=
  fun w => match body w with
           | (w, inl e) => (w, inl (handler e))
           | (w, inr (Returns a)) => (w, inr a)
           | (w, inr (Commits session rest)) =>
             match commitSession P session w with
             | (w, inl _) => (w, inl (EJs abortAfterCommitError))
             | (w, inr _) =>
               match rest w with
               | (w, inl _) => (w, inl (EJs abortAfterCommitError))
               | (w, inr a) => (w, inr a)
               end
             end
           end.

(** [submitBid]; [newId] is the identifier [new Bid] generates. *)
Definition submitBid (P : Persistence) (now : Date) (newId : ObjectId)
  (projectId vendorId : ObjectId) (bidData : BidData) : M Bid.t :=
  let session := startTransaction in
  transaction P
    (vendor <- query (VendorProfile_findByUser vendorId) ;;
     project <- query (Project_findById projectId) ;;
     match project, vendor with
     | None, _ => raiseApi 404 "Project not found"
     | Some _, None => raiseApi 404 "Vendor not found"
     | Some project, Some vendor =>
       if negb (Project.Status_eqb (Project.status_current project) Project.OPEN
                || Project.Status_eqb (Project.status_current project) Project.IN_REVIEW)
       then raiseApi 400 "Project is not open for bidding"
       else
         match _validateVendorEligibility vendor project with
         | inl e => raise e
         | inr _ =>
           let bid := simplifiedBidData now newId projectId vendor bidData in
           '(bid, session) <-
              (fun w => staged (BidModel.saveInSession P now bid (db w) session) w) ;;
           ret (Commits session (ret bid))
         end
     end)
    submitBid_catch.

(** The patch of an update, by top-level key; [None] is an absent key. *)
Record UpdateData := mkUpdateData {
  u_project : option ObjectId;
  u_vendor : option ObjectId;
  u_status : option Bid.Status;
  u_metadata : option Bid.Metadata;
  u_id : option ObjectId;
  u_proposedCost : option Bid.ProposedCost;
  u_timeline : option Bid.Timeline
}.

(** [_sanitizeUpdateData] *)
Definition _sanitizeUpdateData (updateData : UpdateData) : UpdateData :=
  mkUpdateData None None None None None
    (u_proposedCost updateData) (u_timeline updateData).

(** [Object.assign(bid, sanitized)] *)
Definition assign (sanitized : UpdateData) (bid : Bid.t) : Bid.t :=
  let bid := match u_id sanitized with
             | Some i => Bid.mk i (Bid.project bid) (Bid.vendor bid) (Bid.proposedCost bid)
                           (Bid.timeline bid) (Bid.proposal bid) (Bid.status_current bid)
                           (Bid.status_history bid) (Bid.negotiations bid) (Bid.metadata bid)
                           (Bid.statusModified bid) (Bid.isNew bid)
             | None => bid
             end in
  let bid := match u_project sanitized with
             | Some p => Bid.mk (Bid._id bid) p (Bid.vendor bid) (Bid.proposedCost bid)
                           (Bid.timeline bid) (Bid.proposal bid) (Bid.status_current bid)
                           (Bid.status_history bid) (Bid.negotiations bid) (Bid.metadata bid)
                           (Bid.statusModified bid) (Bid.isNew bid)
             | None => bid
             end in
  let bid := match u_vendor sanitized with
             | Some v => Bid.mk (Bid._id bid) (Bid.project bid) v (Bid.proposedCost bid)
                           (Bid.timeline bid) (Bid.proposal bid) (Bid.status_current bid)
                           (Bid.status_history bid) (Bid.negotiations bid) (Bid.metadata bid)
                           (Bid.statusModified bid) (Bid.isNew bid)
             | None => bid
             end in
  let bid := match u_status sanitized with
             | Some s => Bid.set_status_current s bid
             | None => bid
             end in
  let bid := match u_metadata sanitized with
             | Some m => Bid.set_metadata m bid
             | None => bid
             end in
  let bid := match u_proposedCost sanitized with
             | Some c => Bid.set_proposedCost c bid
             | None => bid
             end in
  match u_timeline sanitized with
  | Some tl => Bid.set_timeline tl bid
  | None => bid
  end.

(** The [catch] blocks that pass an [ApiError] on and wrap anything else. *)
Definition wrap500 (msg : string) (error : Exn) : Exn :=
  match error with
  | EApi _ => error
  | EJs _ => EApi (mkApiError 500 msg)
  end.

Definition updateBid_catch (error : Exn) : Exn :=
  match error with
  | EApi _ => error
  | EJs e =>
    if String.eqb (name e) "ValidationError"
    then EApi (mkApiError 400 "Invalid update data")
    else EApi (mkApiError 500 "Error updating bid")
  end.

(** [updateBid]; the patch's [proposal] key is not modelled. *)
Definition updateBid (P : Persistence) (now : Date)
  (bidId vendorId : ObjectId) (updateData : UpdateData) : M Bid.t :=
  tryCatch
    (vendor <- query (VendorProfile_findByUser vendorId) ;;
     bid <- query (Bid_findById bidId) ;;
     match vendor, bid with
     | None, _ => raiseApi 404 "Vendor profile not found"
     | Some _, None => raiseApi 404 "Bid not found"
     | Some vendor, Some bid =>
       if negb (String.eqb (Bid.vendor bid) (v_id vendor))
       then raiseApi 403 "Not authorized to access this bid"
       else if negb (Bid.includes [Bid.DRAFT; Bid.PENDING] (Bid.status_current bid))
       then raiseApi 400 "Cannot update bid in current status"
       else
         let sanitized := _sanitizeUpdateData updateData in
         let bid := assign sanitized bid in
         '(bid, _) <- onDb (BidModel.save P now bid) ;;
         ret bid
     end)
    updateBid_catch.

(** [_clearProjectBidCaches] *)
Definition _clearProjectBidCaches (projectId : ObjectId) : M unit :=
  fun w =>
    let projectBidKeys :=
      filter (fun key => includesString ("project_bids_" ++ projectId)%string key)
             (TTLCache.keys (projectBidsCache w)) in
    let pbc := fold_left (fun c key => TTLCache.delete key c) projectBidKeys
                         (projectBidsCache w) in
    let analysisKeys :=
      filter (fun key => includesString "competitive_analysis_" key)
             (TTLCache.keys (bidCache w)) in
    let bc := fold_left (fun c key => TTLCache.delete key c) analysisKeys (bidCache w) in
    (mkWorld (db w) bc pbc, Ok tt).

(** The update of the [Bid.updateMany] call of [selectBid]: [$set] and
    [$push] on the stored document, without hooks. *)
Definition rejectUpdate (now : Date) (b : Bid.t) : Bid.t :=
  Bid.mk (Bid._id b) (Bid.project b) (Bid.vendor b) (Bid.proposedCost b) (Bid.timeline b)
    (Bid.proposal b) Bid.REJECTED
    (Bid.status_history b
     ++ [Bid.mkHistoryEntry Bid.REJECTED now (Some "Another bid was selected")])
    (Bid.negotiations b) (Bid.metadata b) (Bid.statusModified b) (Bid.isNew b).

(** [Bid.updateMany(filter, update, { session })] *)
Definition Bid_updateMany (P : Persistence) (filterQ : Bid.t -> bool)
  (update : Bid.t -> Bid.t) (session : Session) : M Session :=
  fun w => match bulk_write P with
           | Some e => (w, throw (EJs e))
           | None =>
             (w, Ok (session ++ map (fun b => ReplaceBid (update b))
                                    (filter filterQ (bids (db w)))))
           end.

(** [selectBid] *)
Definition selectBid (P : Persistence) (now : Date)
  (bidId projectId clientId : ObjectId) : M (Bid.t * Project.t) :=
  let session := startTransaction in
  transaction P
    (clientProfile <- _getClientProfile clientId ;;
     bid <- query (Bid_findById bidId) ;;
     project <- query (Project_findOwned projectId (c_id clientProfile)) ;;
     match bid, project with
     | None, _ => raiseApi 404 "Bid not found"
     | Some _, None => raiseApi 404 "Project not found or unauthorized"
     | Some bid, Some project =>
       if Bid.Status_eqb (Bid.status_current bid) Bid.ACCEPTED then
         ret (Returns (bid, project))
       else if negb (Bid.Status_eqb (Bid.status_current bid) Bid.PENDING)
               && negb (Bid.Status_eqb (Bid.status_current bid) Bid.IN_REVIEW) then
         raiseApi 400 "Bid cannot be selected in current status"
       else if negb (Project.Status_eqb (Project.status_current project) Project.OPEN)
               && negb (Project.Status_eqb (Project.status_current project) Project.IN_REVIEW) then
         raiseApi 400 "Project must be open or in review to select bids"
       else
         '(bid, _) <-
            (if Bid.Status_eqb (Bid.status_current bid) Bid.PENDING
             then onDb (BidModel.updateStatus P now Bid.IN_REVIEW
                          (Some "Bid under final review") bid)
             else ret (bid, tt)) ;;
         '(bid, _) <- onDb (BidModel.updateStatus P now Bid.ACCEPTED
                              (Some "Selected by client") bid) ;;
         session <- Bid_updateMany P
                      (fun b => String.eqb (Bid.project b) projectId
                                && negb (String.eqb (Bid._id b) bidId)
                                && Bid.includes [Bid.PENDING; Bid.IN_REVIEW]
                                                (Bid.status_current b))
                      (rejectUpdate now) session ;;
         let project := Project.set_status_current Project.IN_PROGRESS project in
         let project :=
           Project.push_status_history
             (Project.mkHistoryEntry Project.IN_PROGRESS now
                (Some "Bid selected and accepted")) project in
         '(project, session) <- staged (ProjectModel.saveInSession P now project session) ;;
         ret (Commits session
                (_clearProjectBidCaches projectId ;;
                 ret (bid, project)))
     end)
    (wrap500 "Error selecting bid").

(** [rejectBid]; [reason = None] is an absent argument. *)
Definition rejectBid (P : Persistence) (now : Date)
  (bidId projectId clientId : ObjectId) (reason : option string)
  : M (Bid.t * string) :=
  let reason := match reason with
                | None => Some "Bid rejected by client"
                | Some r => Some r
                end in
  tryCatch
    (let sanitizedReason := sanitizeText reason in
     clientProfile <- _getClientProfile clientId ;;
     bid <- query (Bid_findById bidId) ;;
     project <- query (Project_findOwned projectId (c_id clientProfile)) ;;
     match bid, project with
     | None, _ => raiseApi 404 "Bid not found"
     | Some _, None => raiseApi 404 "Project not found or unauthorized"
     | Some bid, Some project =>
       if Bid.Status_eqb (Bid.status_current bid) Bid.REJECTED then
         ret (bid, "Bid is already rejected")
       else if Bid.Status_eqb (Bid.status_current bid) Bid.ACCEPTED then
         raiseApi 400 "Cannot reject an accepted bid"
       else
         '(bid, _) <- onDb (BidModel.updateStatus P now Bid.REJECTED sanitizedReason bid) ;;
         ret (bid, "Bid rejected successfully")
     end)
    (wrap500 "Error rejecting bid").

(** The body of a negotiation request, by the keys of the negotiation
    schema; [None] is an absent key.  The keys [initiator] and [timestamp]
    of a body are overwritten by the spreads of [negotiateBid] and
    [addNegotiation] and are left out. *)
Record NegotiationData := mkNegotiationData {
  nd_type : string;
  nd_originalValue : option Bid.Mixed;
  nd_proposedValue : option Bid.Mixed;
  nd_message : option string;
  nd_status : option string
}.

(** [negotiateBid].  The body is spread into the negotiation, so its
    [status] is stored as it is sent; the default [pending] of the schema
    applies to a body without one. *)
Definition negotiateBid (P : Persistence) (now : Date)
  (bidId : ObjectId) (negotiationData : NegotiationData) (initiatorType : string)
  : M (Bid.t * Bid.Negotiation) :=
  tryCatch
    (bid <- query (Bid_findById bidId) ;;
     match bid with
     | None => raiseApi 404 "Bid not found"
     | Some bid =>
       if negb (Bid.includes [Bid.PENDING; Bid.IN_REVIEW] (Bid.status_current bid))
       then raiseApi 400 "Bid cannot be negotiated in current status"
       else
         let message := match nd_message negotiationData with
                        | None => None
                        | Some EmptyString => Some EmptyString
                        | Some m => sanitizeText (Some m)
                        end in
         let status := match nd_status negotiationData with
                       | None => "pending"
                       | Some s => s
                       end in
         '(bid, negotiation) <-
            onDb (BidModel.addNegotiation P now
                    (Bid.mkNegotiation initiatorType (nd_type negotiationData)
                       (nd_originalValue negotiationData)
                       (nd_proposedValue negotiationData)
                       message status now) bid) ;;
         ret (bid, negotiation)
     end)
    (wrap500 "Error processing negotiation").

(** [Bid.findByIdAndDelete(bidId)] *)
Definition Bid_findByIdAndDelete (P : Persistence) (bidId : ObjectId) : M unit :=
  fun w => match bid_delete P with
           | Some e => (w, throw (EJs e))
           | None =>
             (with_db (set_bids (filter (fun b => negb (String.eqb (Bid._id b) bidId))
                                        (bids (db w))) (db w)) w, Ok tt)
           end.

(** [deleteBid] *)
Definition deleteBid (P : Persistence) (bidId vendorId : ObjectId) : M ObjectId :=
  tryCatch
    (vendor <- query (VendorProfile_findByUser vendorId) ;;
     bid <- query (Bid_findById bidId) ;;
     match vendor, bid with
     | None, _ => raiseApi 404 "Vendor profile not found"
     | Some _, None => raiseApi 404 "Bid not found"
     | Some vendor, Some bid =>
       if negb (String.eqb (Bid.vendor bid) (v_id vendor))
       then raiseApi 403 "Not authorized to delete this bid"
       else if negb (Bid.Status_eqb (Bid.status_current bid) Bid.PENDING)
       then raiseApi 400 "Only pending bids can be deleted"
       else
         Bid_findByIdAndDelete P bidId ;;
         _clearProjectBidCaches (Bid.project bid) ;;
         ret bidId
     end)
    (wrap500 "Error deleting bid").

(** [Math.min(...l)] and [Math.max(...l)] of a list that is not empty
    (the only use the service makes of them). *)
Definition Math_min (l : list Q) : Q :=
  match l with
  | [] => (0 # 1)%Q
  | x :: l' => fold_left Qmin l' x
  end.

Definition Math_max (l : list Q) : Q :=
  match l with
  | [] => (0 # 1)%Q
  | x :: l' => fold_left Qmax l' x
  end.

(** [_calculateBidStatistics] *)
Definition _calculateBidStatistics (bid : Bid.t) (competingBids : list Bid.t) : Stats :=
  match competingBids with
  | [] =>
    mkStats (Bid.total (Bid.proposedCost bid)) (Bid.total (Bid.proposedCost bid))
      (Bid.total (Bid.proposedCost bid)) (Bid.total (Bid.proposedCost bid))
      (Bid.estimatedDuration_value (Bid.timeline bid)) 1
  | _ =>
    let costs := map (fun b => Bid.total (Bid.proposedCost b)) competingBids in
    let durations :=
      map (fun b => Bid.estimatedDuration_value (Bid.timeline b)) competingBids in
    let sortedCosts := sortBy Qle_bool costs in
    mkStats
      (average costs)
      (nth (List.length sortedCosts / 2) sortedCosts (0 # 1)%Q)
      (Math_min costs)
      (Math_max costs)
      (average durations)
      (List.length competingBids + 1)
  end.

(** [_calculateTeamScore], [_calculatePreviousWorkScore] *)
Definition _calculateTeamScore : Q := (80 # 1)%Q.
Definition _calculatePreviousWorkScore : Q := (80 # 1)%Q.

(** [_calculateCompetitivenessScore].  Where an average is zero the source
    divides by zero; the value computed here for that case is not the
    source's. *)
Definition _calculateCompetitivenessScore (bid : Bid.t) (stats : Stats) : Q :=
  let score := (100 # 1)%Q in
  let costDiff :=
    ((Bid.total (Bid.proposedCost bid) - averageCost stats) / averageCost stats)%Q in
  let score := (score - Qabs costDiff * (40 # 1))%Q in
  let durationDiff :=
    ((Bid.estimatedDuration_value (Bid.timeline bid) - averageDuration stats)
     / averageDuration stats)%Q in
  let score := (score - Qabs durationDiff * (30 # 1))%Q in
  let score := (score + _calculateTeamScore * (2 # 10))%Q in
  let score := (score + _calculatePreviousWorkScore * (1 # 10))%Q in
  Qmax (0 # 1)%Q (Qmin (100 # 1)%Q score).

(** A read of a cache of the service. *)
Definition bidCache_get (now : Date) (key : string) : M (option Analysis) :=
  fun w => let '(c, v) := TTLCache.get now key (bidCache w) in
           (with_bidCache c w, Ok v).

Definition bidCache_set (now : Date) (key : string) (v : Analysis) : M unit :=
  fun w => (with_bidCache (TTLCache.set now key v (bidCache w)) w, Ok tt).

Definition projectBidsCache_get (now : Date) (key : string) : M (option ProjectBids) :=
  fun w => let '(c, v) := TTLCache.get now key (projectBidsCache w) in
           (with_projectBidsCache c w, Ok v).

Definition projectBidsCache_set (now : Date) (key : string) (v : ProjectBids) : M unit :=
  fun w => (with_projectBidsCache (TTLCache.set now key v (projectBidsCache w)) w, Ok tt).

(** [getCompetitiveAnalysis] *)
Definition getCompetitiveAnalysis (now : Date) (bidId : ObjectId) : M Analysis :=
  tryCatch
    (let cacheKey := ("competitive_analysis_" ++ bidId)%string in
     cached <- bidCache_get now cacheKey ;;
     match cached with
     | Some a => ret a
     | None =>
       bid <- query (Bid_findById bidId) ;;
       match bid with
       | None => raiseApi 404 "Bid not found"
       | Some bid =>
         competingBids <- query (findCompetingBids (Bid.project bid) (Some (Bid._id bid))) ;;
         let stats := _calculateBidStatistics bid competingBids in
         let analysis :=
           mkAnalysis (Bid.total (Bid.proposedCost bid))
             (Bid.estimatedDuration_value (Bid.timeline bid))
             stats (_calculateCompetitivenessScore bid stats) in
         bidCache_set now cacheKey analysis ;;
         ret analysis
       end
     end)
    (wrap500 "Error generating competitive analysis").

(** [validatePagination].  An argument is what the controllers pass,
    the result of their own [parseInt]: an integer Number, or [None] for
    a Number of which [parseInt] makes [NaN] ([NaN] itself, an infinity)
    and for [undefined]. *)
Definition validatePagination (page limit : option Z) : Z * Z :=
  let orDefault (x : option Z) (d : Z) :=
    match option_map parseInt x with
    | Some v => if v =? 0 then d else v
    | None => d
    end in
  (Z.max DEFAULT_PAGE (orDefault page DEFAULT_PAGE),
   Z.min MAX_LIMIT (Z.max 1 (orDefault limit DEFAULT_LIMIT))).

(** Descending order of [metadata.submittedAt], a missing date last. *)
Definition submittedAfter (a b : Bid.t) : bool :=
  match Bid.submittedAt (Bid.metadata a), Bid.submittedAt (Bid.metadata b) with
  | _, None => true
  | None, Some _ => false
  | Some x, Some y => y <=? x
  end.

(** [.select('-negotiations -previousWork')] *)
Definition withoutNegotiations (b : Bid.t) : Bid.t :=
  Bid.mk (Bid._id b) (Bid.project b) (Bid.vendor b) (Bid.proposedCost b) (Bid.timeline b)
    (Bid.proposal b) (Bid.status_current b) (Bid.status_history b) []
    (Bid.metadata b) (Bid.statusModified b) (Bid.isNew b).

(** An equality on an identifier in the [$match] stage of
    [Bid.aggregate].  Mongoose does not cast an aggregation pipeline to
    the schema: the string the service is called with is compared as it
    is with the [ObjectId] the document stores, and a string equals no
    [ObjectId]. *)
Definition aggregateMatchesId (stored : ObjectId) (given : string) : bool := false.

(** [getProjectBids]; [status] is [None] when absent.  [projectId] is the
    string of the route, as the controller passes it. *)
Definition getProjectBids (now : Date) (projectId : ObjectId)
  (status : option string) (optPage optLimit : option Z) : M ProjectBids :=
  tryCatch
    (let '(page, limit) := validatePagination optPage optLimit in
     let skip := (page - 1) * limit in
     let statusOrAll := match status with
                        | None | Some EmptyString => "all"
                        | Some s => s
                        end in
     let cacheKey := ("project_bids_" ++ projectId ++ "_" ++ statusOrAll ++ "_"
                      ++ numeral page ++ "_" ++ numeral limit)%string in
     cached <- projectBidsCache_get now cacheKey ;;
     match cached with
     | Some r => ret r
     | None =>
       let matches (b : Bid.t) :=
         aggregateMatchesId (Bid.project b) projectId
         && match status with
            | None | Some EmptyString => true
            | Some s => String.eqb (Bid.Status_name (Bid.status_current b)) (toUpperCase s)
            end in
       matched <- query (fun d => filter matches (bids d)) ;;
       let total := Z.of_nat (List.length matched) in
       let data := firstn (Z.to_nat limit)
                     (skipn (Z.to_nat skip) (sortBy submittedAfter matched)) in
       let bidIds := map Bid._id data in
       found <- query (fun d => filter (fun b => includesIn bidIds (Bid._id b)) (bids d)) ;;
       let bids := map withoutNegotiations (sortBy submittedAfter found) in
       let response :=
         mkProjectBids bids
           (mkPagination page limit total ((total + limit - 1) / limit)
              (skip + Z.of_nat (List.length bids) <? total)) in
       projectBidsCache_set now cacheKey response ;;
       ret response
     end)
    (wrap500 "Error retrieving project bids").

(** The status filter of the listings: [query['status.current'] =
    status.toUpperCase()] when a status is given. *)
Definition matchesStatus (status : option string) (b : Bid.t) : bool :=
  match status with
  | None | Some EmptyString => true
  | Some s => String.eqb (Bid.Status_name (Bid.status_current b)) (toUpperCase s)
  end.

(** [getBidDetails]; the result is what the second [Bid.findById] gives,
    [None] for [null]. *)
Definition getBidDetails (bidId clientId : ObjectId) : M (option Bid.t) :=
  tryCatch
    (clientProfile <- _getClientProfile clientId ;;
     bidWithProject <- query (Bid_findById bidId) ;;
     match bidWithProject with
     | None => raiseApi 404 "Bid not found"
     | Some bidWithProject =>
       project <- query (Project_findOwned (Bid.project bidWithProject)
                           (c_id clientProfile)) ;;
       populatedBid <- query (Bid_findById bidId) ;;
       match project with
       | None => raiseApi 403 "Unauthorized to view this bid"
       | Some _ => ret populatedBid
       end
     end)
    (wrap500 "Error getting bid details").

(** The page of bids [getVendorBids] answers with. *)
Record VendorBids := mkVendorBids {
  vb_bids : list Bid.t;
  vb_page : Z;
  vb_limit : Z;
  vb_total : Z;
  vb_pages : Z
}.

(** [getVendorBids] *)
Definition getVendorBids (vendorId : ObjectId) (status : option string)
  (optPage optLimit : option Z) : M VendorBids :=
  tryCatch
    (let '(page, limit) := validatePagination optPage optLimit in
     vendor <- query (VendorProfile_findByUser vendorId) ;;
     match vendor with
     | None => raiseApi 404 "Vendor profile not found"
     | Some vendor =>
       let matches (b : Bid.t) :=
         String.eqb (Bid.vendor b) (v_id vendor) && matchesStatus status b in
       matched <- query (fun d => filter matches (bids d)) ;;
       let total := Z.of_nat (List.length matched) in
       let data := firstn (Z.to_nat limit)
                     (skipn (Z.to_nat ((page - 1) * limit))
                            (sortBy submittedAfter matched)) in
       let bidIds := map Bid._id data in
       found <- query (fun d => filter (fun b => includesIn bidIds (Bid._id b)) (bids d)) ;;
       let bids := map withoutNegotiations (sortBy submittedAfter found) in
       ret (mkVendorBids bids page limit total ((total + limit - 1) / limit))
     end)
    (wrap500 "Error retrieving vendor bids").

(** [BID_CONSTANTS.PAGINATION.MAX_BATCH_SIZE] *)
Definition MAX_BATCH_SIZE : Z := 50.

(** What [getMultipleProjectBids] answers with: the object [bidsByProject]
    as the list of its keys, in insertion order, each with its array, and
    [total]. *)
Record BatchBids := mkBatchBids {
  bidsByProject : list (ObjectId * list Bid.t);
  bb_total : nat
}.

(** [bidsByProject[projectId] = []] *)
Fixpoint setEmpty (projectId : ObjectId) (groups : list (ObjectId * list Bid.t))
  : list (ObjectId * list Bid.t) :=
  match groups with
  | [] => [(projectId, [])]
  | (k, l) :: rest =>
    if String.eqb k projectId then (k, []) :: rest else (k, l) :: setEmpty projectId rest
  end.

(** [if (bidsByProject[projectId]) bidsByProject[projectId].push(bid)] *)
Fixpoint pushTo (projectId : ObjectId) (bid : Bid.t) (groups : list (ObjectId * list Bid.t))
  : list (ObjectId * list Bid.t) :=
  match groups with
  | [] => []
  | (k, l) :: rest =>
    if String.eqb k projectId then (k, l ++ [bid]) :: rest
    else (k, l) :: pushTo projectId bid rest
  end.

(** The error of reading [_id] of [null]. *)
Definition typeError : JsError := mkJsError "TypeError" None.

(** [getMultipleProjectBids].  [populate('project')] puts the project
    document in the place of the reference, and [null] where no project has
    that identifier; the second component of a populated bid is that
    document. *)
Definition getMultipleProjectBids (projectIds : list ObjectId) (status : option string)
  : M BatchBids :=
  tryCatch
    (if MAX_BATCH_SIZE <? Z.of_nat (List.length projectIds) then
       raiseApi 400 "Cannot request more than 50 projects at once"
     else
       let matches (b : Bid.t) :=
         includesIn projectIds (Bid.project b) && matchesStatus status b in
       found <- query (fun d => filter matches (bids d)) ;;
       let sorted := map withoutNegotiations (sortBy submittedAfter found) in
       bids <- query (fun d => map (fun b => (b, Project_findById (Bid.project b) d)) sorted) ;;
       let bidsByProject := fold_left (fun groups projectId => setEmpty projectId groups)
                                      projectIds [] in
       let grouped :=
         fold_left
           (fun (acc : result (list (ObjectId * list Bid.t))) (bid : Bid.t * option Project.t) =>
              match acc, bid with
              | inl e, _ => inl e
              | inr _, (_, None) => throw (EJs typeError)
              | inr groups, (b, Some project) => Ok (pushTo (Project._id project) b groups)
              end)
           bids (Ok bidsByProject) in
       match grouped with
       | inl e => raise e
       | inr groups => ret (mkBatchBids groups (List.length bids))
       end)
    (wrap500 "Error retrieving multiple project bids").

(** [BID_CONSTANTS.TEAM] *)
Definition SUPERVISOR_RATIO : Z := 5.
Definition PROJECT_MANAGER_EXPERIENCE : Z := 5.

(** An entry of [team.composition]. *)
Record TeamMember := mkTeamMember {
  role : string;
  count : Z;
  expertise : list string;
  availability : string
}.

(** [Math.ceil(a / b)] on integers, for a positive [b]. *)
Definition ceilDiv (a b : Z) : Z := - ((- a) / b).

(** [team.composition] of the document [submitBid] builds from
    [bidData.teamSize]. *)
Definition teamComposition (teamSize : Z) : list TeamMember :=
  [ mkTeamMember "project_manager" 1 ["construction"; "management"] "full_time";
    mkTeamMember "supervisor" (Z.max 1 (ceilDiv teamSize SUPERVISOR_RATIO))
      ["construction"; "supervision"] "full_time";
    mkTeamMember "labor" (Z.max 1 (teamSize - ceilDiv teamSize SUPERVISOR_RATIO - 1))
      ["construction"] "full_time" ].

End BidService.

Module ProjectService.

(** *** [class ProjectService] of [services/project.service.js]

    Only the deletion of a project is modelled; the service's own cache of
    projects is not. *)

(** [Project.findOneAndDelete({ _id: projectId, client: clientId })] *)
Definition Project_findOneAndDelete (P : Persistence) (projectId clientId : ObjectId)
  : M (option Project.t) :=
  fun w => match project_delete P with
           | Some e => (w, throw (EJs e))
           | None =>
             match Project_findOwned projectId clientId (db w) with
             | None => (w, Ok None)
             | Some p =>
               (with_db (set_projects
                           (filter (fun x => negb (String.eqb (Project._id x) (Project._id p)))
                                   (projects (db w))) (db w)) w,
                Ok (Some p))
             end
           end.

(** [Bid.deleteMany({ project: projectId })] *)
Definition Bid_deleteMany (P : Persistence) (projectId : ObjectId) : M unit :=
  fun w => match bid_delete P with
           | Some e => (w, throw (EJs e))
           | None =>
             (with_db (set_bids (filter (fun b => negb (String.eqb (Bid.project b) projectId))
                                        (bids (db w))) (db w)) w, Ok tt)
           end.

(** [deleteProject]; [clientId] is the identifier of the client profile. *)
Definition deleteProject (P : Persistence) (projectId clientId : ObjectId) : M string :=
  tryCatch
    (project <- Project_findOneAndDelete P projectId clientId ;;
     match project with
     | None => raiseApi 404 "Project not found or access denied"
     | Some _ =>
       Bid_deleteMany P projectId ;;
       ret "Project deleted successfully"
     end)
    (BidService.wrap500 "Error deleting project").

End ProjectService.

(** ** The HTTP layer *)

Module ApiResponse.

(** *** [class ApiResponse] of [utils/apiResponse.js]

    What [res.status(code).json({ status, message, data })] sends; the
    [errors] array of an error response is not modelled. *)

Record t (D : Type) := mk {
  code : Z;
  status : string;
  message : string;
  data : option D
}.
Arguments mk {D}.
Arguments code {D}.
Arguments status {D}.
Arguments message {D}.
Arguments data {D}.

Definition success {D} (data : D) (message : string) : t D :=
  mk 200 "success" message (Some data).

Definition created {D} (data : D) (message : string) : t D :=
  mk 201 "success" message (Some data).

Definition error {D} (statusCode : Z) (message : string) : t D :=
  mk statusCode "error" message None.

End ApiResponse.

(** The global error handler of [middleware/errorHandler.js].
    [development] is [process.env.NODE_ENV === 'development'] and
    [err_message] the [message] of an error that is not an [ApiError]. *)
Definition errorHandler {D} (development : bool) (err_message : JsError -> string)
  (err : Exn) : ApiResponse.t D :=
  match err with
  | EApi e => ApiResponse.error (statusCode e) (message e)
  | EJs e =>
    if match code e with Some c => c =? 11000 | None => false end
    then ApiResponse.error 400 "Duplicate value error"
    else if String.eqb (name e) "ValidationError"
    then ApiResponse.error 400 "Validation Error"
    else if String.eqb (name e) "JsonWebTokenError"
    then ApiResponse.error 401 "Invalid token"
    else if String.eqb (name e) "TokenExpiredError"
    then ApiResponse.error 401 "Token has expired"
    else ApiResponse.error 500
           (if development then err_message e else "Internal server error")
  end.

Module BidController.

(** *** [class BidController] of [controllers/bid.controller.js]

    A handler answers with a response or hands the error to [next]. *)

(** [try { ... return respond(await call) } catch (error) { next(error) }] *)
Definition handle {A D} (call : M A) (respond : A -> ApiResponse.t D)
  : World -> World * (Exn + ApiResponse.t D) :=
  fun w => match call w with
           | (w', inr a) => (w', inr (respond a))
           | (w', inl e) => (w', inl e)
           end.

(** [submitBid] *)
Definition submitBid (P : Persistence) (now : Date) (newId : ObjectId)
  (projectId vendorId : ObjectId) (body : BidService.BidData)
  : World -> World * (Exn + ApiResponse.t Bid.t) :=
  handle (BidService.submitBid P now newId projectId vendorId body)
         (fun bid => ApiResponse.created bid "Bid submitted successfully").

(** [selectBid]; the response carries the two documents, of which the
    source sends a selection of fields. *)
Definition selectBid (P : Persistence) (now : Date) (bidId projectId clientId : ObjectId)
  : World -> World * (Exn + ApiResponse.t (Bid.t * Project.t)) :=
  handle (BidService.selectBid P now bidId projectId clientId)
         (fun result =>
            let message :=
              if Bid.Status_eqb (Bid.status_current (fst result)) Bid.ACCEPTED
              then "Bid is already accepted"
              else "Bid selected successfully" in
            ApiResponse.success result message).

(** [rejectBid] *)
Definition rejectBid (P : Persistence) (now : Date) (bidId projectId clientId : ObjectId)
  (reason : option string) : World -> World * (Exn + ApiResponse.t Bid.t) :=
  handle (BidService.rejectBid P now bidId projectId clientId reason)
         (fun result =>
            ApiResponse.success (fst result)
              (match snd result with
               | EmptyString => "Bid rejected successfully"
               | m => m
               end)).

(** [deleteBid] *)
Definition deleteBid (P : Persistence) (bidId vendorId : ObjectId)
  : World -> World * (Exn + ApiResponse.t ObjectId) :=
  handle (BidService.deleteBid P bidId vendorId)
         (fun result => ApiResponse.success result "Bid deleted successfully").

(** What the client of an endpoint receives: the handler's response, or
    the error handler's. *)
Definition respond {D} (development : bool) (err_message : JsError -> string)
  (r : Exn + ApiResponse.t D) : ApiResponse.t D :=
  match r with
  | inr response => response
  | inl e => errorHandler development err_message e
  end.

End BidController.

(** ** The design document's statements, as definitions *)

(** The transition table of the bid state machine, as the design document
    lists it. *)
Definition transitionTable : list (Bid.Status * Bid.Status) :=
  [ (Bid.DRAFT, Bid.PENDING); (Bid.DRAFT, Bid.WITHDRAWN);
    (Bid.PENDING, Bid.IN_REVIEW); (Bid.PENDING, Bid.WITHDRAWN); (Bid.PENDING, Bid.REJECTED);
    (Bid.IN_REVIEW, Bid.ACCEPTED); (Bid.IN_REVIEW, Bid.REJECTED); (Bid.IN_REVIEW, Bid.PENDING);
    (Bid.ACCEPTED, Bid.IN_REVIEW);
    (Bid.REJECTED, Bid.IN_REVIEW);
    (Bid.WITHDRAWN, Bid.PENDING) ].

(** The message of the error an invalid transition is refused with. *)
Definition invalidTransition (current requested : Bid.Status) : Exn :=
  EApi (mkApiError 400
          ("Invalid status transition from " ++ Bid.Status_name current
           ++ " to " ++ Bid.Status_name requested)%string).

(** Why a vendor may not bid. *)
Inductive Ineligibility :=
| NotActive
| ServiceMismatch
| TooLittleExperience
| RatingTooLow.

(** The eligibility check as the design document words it: the rules in
    order, the first failure winning; a missing preference counts as zero.
    [anyMarker] is the entry of a service list that stands for any
    service. *)
Definition Eligible (anyMarker : string) (vendor : VendorProfile) (project : Project.t)
  : option Ineligibility :=
  let declared := match services vendor with Some l => l | None => [] end in
  let orZero (q : option Q) := match q with Some x => x | None => (0 # 1)%Q end in
  if negb (String.eqb (v_status vendor) "active") then Some NotActive
  else if negb (match declared with [] => true | _ => false end)
          && negb (includesIn declared anyMarker)
          && negb (includesIn declared (Project.projectType project))
  then Some ServiceMismatch
  else if negb (Qle_bool (orZero (Project.minExperience project)) (yearsInBusiness vendor))
  then Some TooLittleExperience
  else if negb (Qle_bool (orZero (Project.minRating project)) (ratings_average vendor))
  then Some RatingTooLow
  else None.

(** The error each failure is reported with. *)
Definition eligibilityResult (r : option Ineligibility) : result bool :=
  match r with
  | None => Ok true
  | Some NotActive => throwApi 400 "Vendor account is not active"
  | Some ServiceMismatch => throwApi 400 "Project type does not match vendor services"
  | Some TooLittleExperience =>
      throwApi 400 "Vendor does not meet minimum experience requirement"
  | Some RatingTooLow => throwApi 400 "Vendor does not meet minimum rating requirement"
  end.

(** A vendor profile with another verification flag. *)
Definition withVerified (flag : bool) (v : VendorProfile) : VendorProfile :=
  mkVendorProfile (v_id v) (v_user v) (v_status v) (services v)
    (yearsInBusiness v) (ratings_average v) flag.

(** The average of a list of numbers: their sum over their count. *)
Definition mean (l : list Q) : Q :=
  (fold_right Qplus (0 # 1) l / inject_Z (Z.of_nat (List.length l)))%Q.

(** The binary64 value [x] is finite and stands for the number [q]. *)
Definition isExactly (x : float) (q : Q) : Prop :=
  match exactValue x with
  | Some a => (a == q)%Q
  | None => False
  end.

(** [x] competes with [subject]: same project, pending or in review, and
    another bid. *)
Definition competesWith (subject x : Bid.t) : Prop :=
  Bid.project x = Bid.project subject
  /\ (Bid.status_current x = Bid.PENDING \/ Bid.status_current x = Bid.IN_REVIEW)
  /\ Bid._id x <> Bid._id subject.

(** The error a duplicate submission is refused with. *)
Definition duplicateBid : Exn :=
  EApi (mkApiError 400 "Vendor has already submitted a bid for this project").

(** The milestone payment percentages of a bid sum to 100. *)
Definition milestonesSumTo100 (b : Bid.t) : Prop :=
  (fold_right Qplus (0 # 1) (map Bid.paymentPercentage (Bid.milestones (Bid.timeline b)))
   == 100 # 1)%Q.

(** ... on every stored bid. *)
Definition allMilestonesSumTo100 (d : Db) : Prop := Forall milestonesSumTo100 (bids d).

(** The bids of a project that are accepted. *)
Definition acceptedBids (projectId : ObjectId) (d : Db) : list Bid.t :=
  filter (fun b => String.eqb (Bid.project b) projectId
                   && Bid.Status_eqb (Bid.status_current b) Bid.ACCEPTED) (bids d).

(** ** Vocabulary of the proofs *)

(** A computation keeps the invariant [I] of the world, whether it returns
    or throws, and what it returns satisfies [R]. *)
Definition hoare {A} (I : World -> Prop) (c : M A) (R : A -> Prop) : Prop :=
  forall w, I w ->
    I (fst (c w)) /\ forall a, snd (c w) = inr a -> R a.

(** The writes of a session are all of bids that satisfy [good]. *)
Definition writesOf (good : Bid.t -> Prop) (s : Session) : Prop :=
  Forall (fun w => match w with
                   | InsertBid b | ReplaceBid b => good b
                   | ReplaceProject _ => True
                   end) s.

(** The bid of [ws] that carries the identifier of [x], or [x] itself. *)
Definition lookupById (ws : list Bid.t) (x : Bid.t) : Bid.t :=
  match find (fun b => String.eqb (Bid._id x) (Bid._id b)) ws with
  | Some b => b
  | None => x
  end.

(** The bids the bulk rejection of [selectBid] matches. *)
Definition outbid (projectId bidId : ObjectId) (b : Bid.t) : bool :=
  String.eqb (Bid.project b) projectId
  && negb (String.eqb (Bid._id b) bidId)
  && Bid.includes [Bid.PENDING; Bid.IN_REVIEW] (Bid.status_current b).

(** A persistence layer that accepts every write of a run. *)
Definition acceptsAll (P : Persistence) : Prop :=
  (forall b, bid_write P b = None)
  /\ (forall p, project_write P p = None)
  /\ bulk_write P = None
  /\ bid_delete P = None
  /\ project_delete P = None
  /\ commit P = None.

(** Invariants of the world the lemmas below are about: every stored bid
    satisfies [good]; a bid satisfies [Pt] on its timeline; both caches
    are [c1] and [c2]. *)
Definition allBids (good : Bid.t -> Prop) (w : World) : Prop :=
  Forall good (bids (db w)).

Definition byTimeline (Pt : Bid.Timeline -> Prop) (b : Bid.t) : Prop :=
  Pt (Bid.timeline b).

Definition sameCaches (c1 : TTLCache.t Analysis) (c2 : TTLCache.t ProjectBids)
  (w : World) : Prop :=
  bidCache w = c1 /\ projectBidsCache w = c2.

(** ** A marketplace to run the operations on *)

Module Scenario.

Definition client1 : ClientProfile := mkClientProfile "c1" "u1".
Definition client2 : ClientProfile := mkClientProfile "c2" "u2".

Definition vendor1 : VendorProfile :=
  mkVendorProfile "v1" "uv1" "active" (Some ["residential"; "commercial"])
    (5 # 1)%Q (4 # 1)%Q false.

Definition vendor2 : VendorProfile :=
  mkVendorProfile "v2" "uv2" "active" (Some []) (2 # 1)%Q (9 # 2)%Q true.

Definition openProject (id client : ObjectId) : Project.t :=
  Project.mk id client "residential" (Some (0 # 1)%Q) (Some (0 # 1)%Q) Project.OPEN
    [Project.mkHistoryEntry Project.OPEN 0 (Some "Project published on creation")]
    (Project.mkMetadata 0 0 0) false.

Definition project1 : Project.t := openProject "p1" "c1".
Definition project2 : Project.t := openProject "p2" "c2".

Definition db0 : Db :=
  mkDb [] [project1; project2] [vendor1; vendor2] [client1; client2].

Definition world0 : World := BidService.new db0.

Definition request (cost : Q) : BidService.BidData :=
  BidService.mkBidData cost 1000 (3 # 1)%Q
    (Some ("We build the villa with our own crew of masons, electricians and plumbers, "
           ++ "source the materials locally and hand over within three months.")%string)
    7.

(** Two vendors bid 100,000 and 120,000 on project [p1]. *)
Definition world1 : World :=
  fst (BidService.submitBid healthy 10 "b1" "p1" "uv1" (request (100000 # 1)%Q) world0).

Definition world2 : World :=
  fst (BidService.submitBid healthy 11 "b2" "p1" "uv2" (request (120000 # 1)%Q) world1).

(** The first of the two bids, as stored. *)
Definition bid1 : Bid.t :=
  Bid.markSaved (Bid.preSave 10
    (BidService.simplifiedBidData 10 "b1" "p1" vendor1 (request (100000 # 1)%Q))).

(** The client of [p1] selects the bid of 100,000. *)
Definition world3 : World :=
  fst (BidService.selectBid healthy 20 "b1" "p1" "u1" world2).

(** A third vendor and a third bid on project [p1]. *)
Definition vendor3 : VendorProfile :=
  mkVendorProfile "v3" "uv3" "active" (Some ["NA"]) (9 # 1)%Q (5 # 1)%Q true.

Definition world5 : World :=
  let d := db world2 in
  fst (BidService.submitBid healthy 12 "b3" "p1" "uv3" (request (110000 # 1)%Q)
         (with_db (mkDb (bids d) (projects d) (vendorProfiles d ++ [vendor3])
                        (clientProfiles d)) world2)).

(** A project that asks for five years of experience. *)
Definition demandingProject : Project.t :=
  Project.mk "p3" "c1" "residential" (Some (5 # 1)%Q) None Project.OPEN
    [Project.mkHistoryEntry Project.OPEN 0 (Some "Project published on creation")]
    (Project.mkMetadata 0 0 0) false.

(** A persistence layer that rejects the write of a project (as schema
    validation does) and accepts every other write. *)
Definition rejectingProjects : Persistence :=
  mkPersistence (fun _ => None) (fun _ => Some validationError) None None None None.

(** Two vendors bid on project [p2], which belongs to client [u2]. *)
Definition world4 : World :=
  fst (BidService.submitBid healthy 13 "b5" "p2" "uv2" (request (55000 # 1)%Q)
         (fst (BidService.submitBid healthy 12 "b4" "p2" "uv1" (request (50000 # 1)%Q)
                 world0))).

(** A patch whose timeline has one milestone, paid at 50 per cent. *)
Definition halfPaidPatch : BidService.UpdateData :=
  BidService.mkUpdateData None None None None None None
    (Some (Bid.mkTimeline 1000 (3 # 1)%Q "months"
             [Bid.mkMilestone "Handover" 7776001000 (50 # 1)%Q])).

(** A marketplace with that project. *)
Definition world6 : World :=
  BidService.new (mkDb [] [demandingProject] [vendor1; vendor2] [client1]).

End Scenario.

(** ** Vocabulary of the properties beyond the design document *)

(** *** The cache *)

(** A cache as the operations of [TTLCache] keep it: no key twice, no more
    entries than [maxSize]. *)
Definition wellFormedCache {V} (c : TTLCache.t V) : Prop :=
  NoDup (TTLCache.keys c) /\ (TTLCache.size c <= TTLCache.maxSize c)%nat.

(** The key [getProjectBids] caches a page under. *)
Definition projectBidsKey (projectId : ObjectId) (status : option string)
  (optPage optLimit : option Z) : string :=
  let '(page, limit) := BidService.validatePagination optPage optLimit in
  ("project_bids_" ++ projectId ++ "_"
   ++ match status with
      | None | Some EmptyString => "all"
      | Some s => s
      end
   ++ "_" ++ numeral page ++ "_" ++ numeral limit)%string.

(** The key [getCompetitiveAnalysis] caches an analysis under. *)
Definition analysisKey (bidId : ObjectId) : string :=
  ("competitive_analysis_" ++ bidId)%string.

(** *** Text *)

(** A string that does not begin with white space. *)
Definition startsClean (s : string) : Prop :=
  match s with
  | EmptyString => True
  | String c _ => isWhiteSpace c = false
  end.

(** A string that does not end with white space. *)
Fixpoint endsClean (s : string) : Prop :=
  match s with
  | EmptyString => True
  | String c EmptyString => isWhiteSpace c = false
  | String _ s' => endsClean s'
  end.

(** *** Stored bids *)

(** What identifies a bid and places it: its identifier, project, vendor
    and time of submission. *)
Definition identity (b : Bid.t) : ObjectId * ObjectId * ObjectId * option Date :=
  (Bid._id b, Bid.project b, Bid.vendor b, Bid.submittedAt (Bid.metadata b)).

(** The change tracking of a document as it is read from the database. *)
Definition tracked (b : Bid.t) : Prop :=
  Bid.isNew b = false /\ Bid.statusModified b = false.

(** The stored bids are those of [L], in that order. *)
Definition sameBids (L : list (ObjectId * ObjectId * ObjectId * option Date)) (w : World)
  : Prop :=
  map identity (bids (db w)) = L /\ Forall tracked (bids (db w)).

(** A bid that stands for one of [L]. *)
Definition standsIn (L : list (ObjectId * ObjectId * ObjectId * option Date)) (b : Bid.t)
  : Prop :=
  In (identity b) L /\ tracked b.

(** The writes of a session replace bids by bids that satisfy [good], or
    replace a project. *)
Definition replacesOnly (good : Bid.t -> Prop) (s : Session) : Prop :=
  Forall (fun w => match w with
                   | InsertBid _ => False
                   | ReplaceBid b => good b
                   | ReplaceProject _ => True
                   end) s.

(** A save of [this] does not set the time of submission. *)
Definition keepsSubmission (this : Bid.t) : Prop :=
  Bid.statusModified this = false \/ Bid.status_current this <> Bid.PENDING.

(** Any world. *)
Definition anyWorld (w : World) : Prop := True.

(** *** When an operation goes through *)

(** The persistence layer [P] with a commit that is accepted. *)
Definition committing (P : Persistence) : Persistence :=
  mkPersistence (bid_write P) (project_write P) (bulk_write P) (bid_delete P)
    (project_delete P) None.

(** The conditions under which a submission goes through. *)
Definition submittable (P : Persistence) (now : Date) (newId projectId vendorId : ObjectId)
  (bidData : BidService.BidData) (d : Db) : Prop :=
  exists vendor project,
    VendorProfile_findByUser vendorId d = Some vendor
    /\ Project_findById projectId d = Some project
    /\ (Project.status_current project = Project.OPEN
        \/ Project.status_current project = Project.IN_REVIEW)
    /\ isOk (BidService._validateVendorEligibility vendor project) = true
    /\ (forall b, In b (bids d) ->
          Bid.project b = projectId -> Bid.vendor b <> v_id vendor)
    /\ bid_write P (BidService.simplifiedBidData now newId projectId vendor bidData) = None
    /\ commit P = None.

(** The conditions under which a bid is deleted. *)
Definition deletable (P : Persistence) (bidId vendorId : ObjectId) (d : Db) : Prop :=
  exists vendor bid,
    VendorProfile_findByUser vendorId d = Some vendor
    /\ Bid_findById bidId d = Some bid
    /\ Bid.vendor bid = v_id vendor
    /\ Bid.status_current bid = Bid.PENDING
    /\ bid_delete P = None.

(** A persistence layer that deletes projects and refuses to delete bids. *)
Definition keepsBids (P : Persistence) : Prop :=
  project_delete P = None /\ bid_delete P <> None.

(** A persistence layer whose bid collection cannot be written to. *)
Definition bidsReadOnly : Persistence :=
  mkPersistence (fun _ => None) (fun _ => None) None
    (Some (mkJsError "MongoNetworkError" None)) None None.

(** A persistence layer that refuses the commit of a transaction. *)
Definition commitRefused : Persistence :=
  mkPersistence (fun _ => None) (fun _ => None) None None None
    (Some (mkJsError "MongoNetworkError" None)).

(** What comes after the commit of a transaction does not throw. *)
Definition commitsSafely {A} (body : M (BidService.Tx A)) : Prop :=
  forall w w' session rest,
    body w = (w', inr (BidService.Commits session rest)) ->
    forall w2, exists a, snd (rest w2) = inr a.

(** *** The batch listing *)

(** The bids of a batch request, as [getMultipleProjectBids] lists them. *)
Definition batchListing (projectIds : list ObjectId) (status : option string) (d : Db)
  : list Bid.t :=
  map BidService.withoutNegotiations
      (sortBy BidService.submittedAfter
         (filter (fun b => includesIn projectIds (Bid.project b)
                           && BidService.matchesStatus status b) (bids d))).

(** The step of the loop of [getMultipleProjectBids] that groups the
    bids. *)
Definition groupStep (acc : result (list (ObjectId * list Bid.t)))
  (bid : Bid.t * option Project.t) : result (list (ObjectId * list Bid.t)) :=
  match acc, bid with
  | inl e, _ => inl e
  | inr _, (_, None) => throw (EJs BidService.typeError)
  | inr groups, (b, Some project) => Ok (BidService.pushTo (Project._id project) b groups)
  end.

(** *** Sequences of transitions *)

(** [updateStatus] called with each status of [path] in turn, until a call
    throws. *)
Fixpoint updateStatuses (P : Persistence) (now : Date) (path : list Bid.Status)
  (this : Bid.t) (d : Db) : Bid.t * Db * result unit :=
  match path with
  | [] => (this, d, Ok tt)
  | s :: rest =>
    match BidModel.updateStatus P now s None this d with
    | (this', d', inr _) => updateStatuses P now rest this' d'
    | failed => failed
    end
  end.

(** A shortest way through the table of [updateStatus]. *)
Definition route (from to : Bid.Status) : list Bid.Status :=
  match from, to with
  | _, Bid.DRAFT => []
  | Bid.DRAFT, Bid.PENDING | Bid.WITHDRAWN, Bid.PENDING | Bid.IN_REVIEW, Bid.PENDING =>
      [Bid.PENDING]
  | Bid.PENDING, Bid.PENDING => []
  | _, Bid.PENDING => [Bid.IN_REVIEW; Bid.PENDING]
  | Bid.IN_REVIEW, Bid.IN_REVIEW => []
  | Bid.DRAFT, Bid.IN_REVIEW | Bid.WITHDRAWN, Bid.IN_REVIEW => [Bid.PENDING; Bid.IN_REVIEW]
  | _, Bid.IN_REVIEW => [Bid.IN_REVIEW]
  | Bid.ACCEPTED, Bid.ACCEPTED => []
  | Bid.IN_REVIEW, Bid.ACCEPTED => [Bid.ACCEPTED]
  | Bid.DRAFT, Bid.ACCEPTED | Bid.WITHDRAWN, Bid.ACCEPTED =>
      [Bid.PENDING; Bid.IN_REVIEW; Bid.ACCEPTED]
  | _, Bid.ACCEPTED => [Bid.IN_REVIEW; Bid.ACCEPTED]
  | Bid.REJECTED, Bid.REJECTED => []
  | Bid.PENDING, Bid.REJECTED | Bid.IN_REVIEW, Bid.REJECTED => [Bid.REJECTED]
  | Bid.DRAFT, Bid.REJECTED | Bid.WITHDRAWN, Bid.REJECTED => [Bid.PENDING; Bid.REJECTED]
  | Bid.ACCEPTED, Bid.REJECTED => [Bid.IN_REVIEW; Bid.REJECTED]
  | Bid.WITHDRAWN, Bid.WITHDRAWN => []
  | Bid.DRAFT, Bid.WITHDRAWN | Bid.PENDING, Bid.WITHDRAWN => [Bid.WITHDRAWN]
  | Bid.IN_REVIEW, Bid.WITHDRAWN => [Bid.PENDING; Bid.WITHDRAWN]
  | _, Bid.WITHDRAWN => [Bid.IN_REVIEW; Bid.PENDING; Bid.WITHDRAWN]
  end.

(** Every step of [path] is in the table, starting from [from]. *)
Fixpoint allowed (from : Bid.Status) (path : list Bid.Status) : bool :=
  match path with
  | [] => true
  | s :: rest => Bid.includes (Bid.validTransitions from) s && allowed s rest
  end.

(** ** Lemmas on sorting, minima and sums *)

Section SortingFacts.

Context {A : Type} (leb : A -> A -> bool).

Lemma insertBy_Permutation (x : A) (l : list A) :
  Permutation (insertBy leb x l) (x :: l).
Proof.
  induction l as [ | y l IH]; cbn.
  - apply Permutation_refl.
  - destruct (leb x y).
    + apply Permutation_refl.
    + eapply perm_trans; [ apply perm_skip, IH | apply perm_swap ].
Qed.

Lemma sortBy_Permutation (l : list A) : Permutation (sortBy leb l) l.
Proof.
  induction l as [ | x l IH]; cbn.
  - apply perm_nil.
  - eapply perm_trans; [ apply insertBy_Permutation | apply perm_skip, IH ].
Qed.

Lemma sortBy_length (l : list A) : List.length (sortBy leb l) = List.length l.
Proof. apply Permutation_length, sortBy_Permutation. Qed.

Lemma sortBy_In (x : A) (l : list A) : In x (sortBy leb l) <-> In x l.
Proof.
  split; apply Permutation_in;
    [ apply sortBy_Permutation | apply Permutation_sym, sortBy_Permutation ].
Qed.

Hypothesis leb_total : forall a b, leb a b = false -> leb b a = true.

Lemma insertBy_Sorted (x : A) (l : list A) :
  Sorted (fun a b => leb a b = true) l ->
  Sorted (fun a b => leb a b = true) (insertBy leb x l).
Proof.
  induction 1 as [ | y l Hl IH Hhd]; cbn.
  - repeat constructor.
  - destruct (leb x y) eqn:E.
    + constructor; [ constructor; assumption | constructor; exact E ].
    + constructor; [ exact IH | ].
      destruct l as [ | z l]; cbn.
      * constructor. apply leb_total, E.
      * destruct (leb x z); constructor.
        -- apply leb_total, E.
        -- inversion Hhd; assumption.
Qed.

Lemma sortBy_Sorted (l : list A) : Sorted (fun a b => leb a b = true) (sortBy leb l).
Proof.
  induction l as [ | x l IH]; cbn.
  - constructor.
  - apply insertBy_Sorted, IH.
Qed.

End SortingFacts.

Lemma Qle_bool_total (a b : Q) : Qle_bool a b = false -> Qle_bool b a = true.
Proof.
  intros H. apply Qle_bool_iff.
  destruct (Qlt_le_dec b a) as [Hlt | Hle].
  - apply Qlt_le_weak, Hlt.
  - apply Qle_bool_iff in Hle. congruence.
Qed.

Lemma sortBy_Qle_Sorted (l : list Q) : Sorted Qle (sortBy Qle_bool l).
Proof.
  pose proof (sortBy_Sorted Qle_bool Qle_bool_total l) as H.
  induction H as [ | x l' Hl IH Hhd]; constructor; [ exact IH | ].
  destruct Hhd; constructor. apply Qle_bool_iff. assumption.
Qed.

Lemma Qmin_cases (a b : Q) : Qmin a b = a \/ Qmin a b = b.
Proof.
  unfold Qmin, GenericMinMax.gmin. destruct (a ?= b)%Q; auto.
Qed.

Lemma Qmax_cases (a b : Q) : Qmax a b = a \/ Qmax a b = b.
Proof.
  unfold Qmax, GenericMinMax.gmax. destruct (a ?= b)%Q; auto.
Qed.

Lemma fold_Qmin_spec (l : list Q) (x : Q) :
  In (fold_left Qmin l x) (x :: l)
  /\ forall y, In y (x :: l) -> (fold_left Qmin l x <= y)%Q.
Proof.
  revert x. induction l as [ | z l IH]; intros x; cbn.
  - split; [ left; reflexivity | ].
    intros y [<- | []]. apply Qle_refl.
  - destruct (IH (Qmin x z)) as [Hin Hle]. split.
    + destruct Hin as [Hin | Hin]; [ | right; right; exact Hin ].
      rewrite <- Hin. destruct (Qmin_cases x z) as [-> | ->]; auto.
    + intros y [<- | [<- | Hy]].
      * eapply Qle_trans; [ apply Hle; left; reflexivity | apply Q.le_min_l ].
      * eapply Qle_trans; [ apply Hle; left; reflexivity | apply Q.le_min_r ].
      * apply Hle. right. exact Hy.
Qed.

Lemma fold_Qmax_spec (l : list Q) (x : Q) :
  In (fold_left Qmax l x) (x :: l)
  /\ forall y, In y (x :: l) -> (y <= fold_left Qmax l x)%Q.
Proof.
  revert x. induction l as [ | z l IH]; intros x; cbn.
  - split; [ left; reflexivity | ].
    intros y [<- | []]. apply Qle_refl.
  - destruct (IH (Qmax x z)) as [Hin Hle]. split.
    + destruct Hin as [Hin | Hin]; [ | right; right; exact Hin ].
      rewrite <- Hin. destruct (Qmax_cases x z) as [-> | ->]; auto.
    + intros y [<- | [<- | Hy]].
      * eapply Qle_trans; [ apply Q.le_max_l | apply Hle; left; reflexivity ].
      * eapply Qle_trans; [ apply Q.le_max_r | apply Hle; left; reflexivity ].
      * apply Hle. right. exact Hy.
Qed.

(** The sum of a list of rationals, term by term. *)
Lemma sumQ_fold_right (l : list Q) :
  (fold_left Qplus l (0 # 1) == fold_right Qplus (0 # 1) l)%Q.
Proof.
  assert (H : forall a, (fold_left Qplus l a == a + fold_right Qplus (0 # 1) l)%Q).
  { induction l as [ | x l IH]; intros a; cbn.
    - ring.
    - rewrite IH. ring. }
  rewrite H. ring.
Qed.

(** ** Running a computation of the service *)

(** Unfold the plumbing of [M] and nothing else. *)
Ltac step_service :=
  cbv beta iota zeta
      delta [tryCatch bind query ret raise raiseApi onDb staged Ok throw throwApi
             BidService._getClientProfile BidService.commitSession
             BidService.transaction
             BidService.Bid_updateMany BidService.Bid_findByIdAndDelete].

(** ** Reading back a replaced document *)

Lemma findById_replaceBid (b : Bid.t) (d : Db) :
  Bid_findById (Bid._id b) d <> None ->
  Bid_findById (Bid._id b) (applyWrite d (ReplaceBid b)) = Some b.
Proof.
  unfold Bid_findById. cbn [applyWrite set_bids bids]. unfold replaceBid.
  induction (bids d) as [ | x l IH]; cbn [find map]; intros H; [ contradiction | ].
  destruct (String.eqb (Bid._id x) (Bid._id b)) eqn:E.
  - rewrite String.eqb_refl. reflexivity.
  - rewrite E. apply IH. exact H.
Qed.

(** ** The unique index *)

Lemma violatesUniqueIndex_In (b first : Bid.t) (l : list Bid.t) :
  In first l ->
  Bid.project first = Bid.project b ->
  Bid.vendor first = Bid.vendor b ->
  violatesUniqueIndex b l = true.
Proof.
  intros Hin Hp Hv. unfold violatesUniqueIndex.
  apply existsb_exists. exists first. split; [ exact Hin | ].
  rewrite Hp, Hv, !String.eqb_refl. reflexivity.
Qed.

Lemma preSave_keeps_identity (now : Date) (b : Bid.t) :
  Bid._id (Bid.preSave now b) = Bid._id b
  /\ Bid.project (Bid.preSave now b) = Bid.project b
  /\ Bid.vendor (Bid.preSave now b) = Bid.vendor b
  /\ Bid.isNew (Bid.preSave now b) = Bid.isNew b
  /\ Bid.timeline (Bid.preSave now b) = Bid.timeline b
  /\ Bid.proposedCost (Bid.preSave now b) = Bid.proposedCost b.
Proof.
  unfold Bid.preSave.
  destruct b as [i p v c tl pr cur hist neg [[sub | ] lu] [ | ] new]; cbn;
    destruct cur; cbn; auto 10.
Qed.

Lemma preSave_status_current (now : Date) (b : Bid.t) :
  Bid.status_current (Bid.preSave now b) = Bid.status_current b.
Proof.
  unfold Bid.preSave.
  destruct b as [i p v c tl pr cur hist neg [[sub | ] lu] [ | ] new]; cbn;
    destruct cur; reflexivity.
Qed.

(** ** Invariants of computations *)

Section HoareRules.

Context (I : World -> Prop).

Lemma hoare_ret {A} (a : A) (R : A -> Prop) : R a -> hoare I (ret a) R.
Proof. intros Ha w Hw. split; [ exact Hw | ]. intros a' [= <-]. exact Ha. Qed.

Lemma hoare_raise {A} (e : Exn) (R : A -> Prop) : hoare I (raise e) R.
Proof. intros w Hw. split; [ exact Hw | ]. intros a H. discriminate H. Qed.

Lemma hoare_raiseApi {A} (c : Z) (m : string) (R : A -> Prop) : hoare I (raiseApi c m) R.
Proof. intros w Hw. split; [ exact Hw | ]. intros a H. discriminate H. Qed.

Lemma hoare_bind {A B} (c : M A) (k : A -> M B) (R1 : A -> Prop) (R2 : B -> Prop) :
  hoare I c R1 -> (forall a, R1 a -> hoare I (k a) R2) -> hoare I (bind c k) R2.
Proof.
  intros Hc Hk w Hw. unfold bind.
  destruct (Hc w Hw) as [Hi Hr]. destruct (c w) as [w' [e | a]]; cbn in *.
  - split; [ exact Hi | ]. intros b H. discriminate H.
  - apply (Hk a (Hr a eq_refl) w' Hi).
Qed.

Lemma hoare_tryCatch {A} (c : M A) (h : Exn -> Exn) (R : A -> Prop) :
  hoare I c R -> hoare I (tryCatch c h) R.
Proof.
  intros Hc w Hw. unfold tryCatch.
  destruct (Hc w Hw) as [Hi Hr]. destruct (c w) as [w' [e | a]]; cbn in *.
  - split; [ exact Hi | ]. intros b H. discriminate H.
  - split; [ exact Hi | exact Hr ].
Qed.

(** A transaction keeps an invariant that its body, its commit and what
    follows the commit keep. *)
Lemma hoare_transaction {A} (P : Persistence) (body : M (BidService.Tx A))
  (h : Exn -> Exn) (R : A -> Prop) :
  hoare I body (fun tx => match tx with
                          | BidService.Returns a => R a
                          | BidService.Commits s rest =>
                            hoare I (BidService.commitSession P s) (fun _ => True)
                            /\ hoare I rest R
                          end) ->
  hoare I (BidService.transaction P body h) R.
Proof.
  intros Hb w Hw. unfold BidService.transaction.
  destruct (Hb w Hw) as [Hi Hr].
  destruct (body w) as [w1 [e | [a | s rest]]]; cbn [fst snd] in *.
  - split; [ exact Hi | ]. intros b H. discriminate H.
  - split; [ exact Hi | ]. intros a' [= <-]. apply (Hr _ eq_refl).
  - destruct (Hr _ eq_refl) as [Hc Hrest].
    destruct (Hc w1 Hi) as [Hi2 _].
    destruct (BidService.commitSession P s w1) as [w2 [e | u]]; cbn [fst snd] in *.
    + split; [ exact Hi2 | ]. intros b H. discriminate H.
    + destruct (Hrest w2 Hi2) as [Hi3 Hr3].
      destruct (rest w2) as [w3 [e | a]]; cbn [fst snd] in *.
      * split; [ exact Hi3 | ]. intros b H. discriminate H.
      * split; [ exact Hi3 | exact Hr3 ].
Qed.

Lemma hoare_weaken {A} (c : M A) (R1 R2 : A -> Prop) :
  hoare I c R1 -> (forall a, R1 a -> R2 a) -> hoare I c R2.
Proof.
  intros Hc HR w Hw. destruct (Hc w Hw) as [Hi Hr].
  split; [ exact Hi | ]. intros a Ha. apply HR, Hr, Ha.
Qed.

(** A read returns what it reads from some world that satisfies [I]. *)
Lemma hoare_query {A} (f : Db -> A) :
  hoare I (query f) (fun a => exists w, I w /\ a = f (db w)).
Proof.
  intros w Hw. split; [ exact Hw | ].
  intros a [= <-]. exists w. split; [ exact Hw | reflexivity ].
Qed.

Lemma hoare_getClientProfile (clientId : ObjectId) :
  hoare I (BidService._getClientProfile clientId) (fun _ => True).
Proof.
  unfold BidService._getClientProfile.
  eapply hoare_bind; [ apply hoare_query | ].
  intros [p | ] _; [ apply hoare_ret; exact Logic.I | apply hoare_raiseApi ].
Qed.

End HoareRules.

(** *** Invariants that only speak of the stored bids *)

Section BidInvariant.

(** [good] is a property of a bid that the model's own field updates keep:
    it is decided by fields they do not write. *)
Context (good : Bid.t -> Prop).

Lemma replaceBid_Forall (b : Bid.t) (l : list Bid.t) :
  good b -> Forall good l -> Forall good (replaceBid b l).
Proof.
  intros Hb Hl. unfold replaceBid. apply Forall_map.
  eapply Forall_impl; [ | exact Hl ].
  intros x Hx. cbn. destruct (String.eqb (Bid._id x) (Bid._id b)); assumption.
Qed.

Lemma applyWrite_Forall (d : Db) (w : Write) :
  Forall good (bids d) -> writesOf good [w] -> Forall good (bids (applyWrite d w)).
Proof.
  intros Hd Hw. inversion Hw as [ | ? ? Hg _]; subst.
  destruct w as [b | b | p]; cbn.
  - apply Forall_app. split; [ exact Hd | constructor; [ exact Hg | constructor ] ].
  - apply replaceBid_Forall; assumption.
  - exact Hd.
Qed.

Lemma commitTransaction_Forall (s : Session) (d : Db) :
  Forall good (bids d) -> writesOf good s -> Forall good (bids (commitTransaction s d)).
Proof.
  unfold commitTransaction. revert d.
  induction s as [ | w s IH]; intros d Hd Hs; cbn.
  - exact Hd.
  - inversion Hs as [ | ? ? Hw Hs']; subst.
    apply IH; [ | exact Hs' ].
    apply applyWrite_Forall; [ exact Hd | ].
    constructor; [ exact Hw | constructor ].
Qed.

Lemma find_Forall (f : Bid.t -> bool) (l : list Bid.t) (b : Bid.t) :
  Forall good l -> find f l = Some b -> good b.
Proof.
  intros Hl Hf. apply find_some in Hf. destruct Hf as [Hin _].
  rewrite Forall_forall in Hl. apply Hl, Hin.
Qed.

Lemma hoare_commitSession (P : Persistence) (s : Session) :
  writesOf good s -> hoare (allBids good) (BidService.commitSession P s) (fun _ => True).
Proof.
  intros Hs w Hw. unfold BidService.commitSession.
  destruct (commit P); cbn; (split; [ | intros; exact Logic.I ]).
  - exact Hw.
  - apply commitTransaction_Forall; assumption.
Qed.

Lemma hoare_clearProjectBidCaches (projectId : ObjectId) :
  hoare (allBids good) (BidService._clearProjectBidCaches projectId) (fun _ => True).
Proof.
  intros w Hw. unfold BidService._clearProjectBidCaches. cbn.
  split; [ exact Hw | intros; exact Logic.I ].
Qed.

Lemma hoare_findById (bidId : ObjectId) :
  hoare (allBids good) (query (Bid_findById bidId))
        (fun r => match r with Some b => good b | None => True end).
Proof.
  eapply hoare_weaken; [ apply hoare_query | ].
  intros [b | ] (w & Hw & E); [ | exact Logic.I ].
  symmetry in E. apply (find_Forall _ _ _ Hw E).
Qed.

End BidInvariant.

(** *** Invariants decided by the timeline of the stored bids *)

Section TimelineInvariant.

Context (Pt : Bid.Timeline -> Prop).

Lemma save_timeline (P : Persistence) (now : Date) (this : Bid.t) (d : Db) :
  Bid.timeline (fst (fst (BidModel.save P now this d))) = Bid.timeline this.
Proof.
  unfold BidModel.save.
  destruct (preSave_keeps_identity now this) as (_ & _ & _ & _ & Ht & _).
  destruct (bid_write P this); [ reflexivity | ].
  destruct (Bid.isNew (Bid.preSave now this));
    [ destruct (violatesUniqueIndex _ _) | ]; cbn; exact Ht.
Qed.

Lemma save_Forall (P : Persistence) (now : Date) (this : Bid.t) (d : Db) :
  byTimeline Pt this -> Forall (byTimeline Pt) (bids d) ->
  Forall (byTimeline Pt) (bids (snd (fst (BidModel.save P now this d)))).
Proof.
  intros Hthis Hd. unfold BidModel.save.
  destruct (preSave_keeps_identity now this) as (_ & _ & _ & _ & Ht & _).
  assert (Hstored : byTimeline Pt (Bid.markSaved (Bid.preSave now this)))
    by (unfold byTimeline; cbn; rewrite Ht; exact Hthis).
  destruct (bid_write P this); [ exact Hd | ].
  destruct (Bid.isNew (Bid.preSave now this));
    [ destruct (violatesUniqueIndex _ _); [ exact Hd | ] | ]; cbn [fst snd];
    apply applyWrite_Forall; try exact Hd; (constructor; [ exact Hstored | constructor ]).
Qed.

Lemma hoare_save (P : Persistence) (now : Date) (this : Bid.t) :
  byTimeline Pt this ->
  hoare (allBids (byTimeline Pt))
        (onDb (BidModel.save P now this))
        (fun r => byTimeline Pt (fst r)).
Proof.
  intros Hthis w Hw. unfold onDb.
  pose proof (save_timeline P now this (db w)) as Ht.
  pose proof (save_Forall P now this (db w) Hthis Hw) as Hd.
  destruct (BidModel.save P now this (db w)) as [[b d'] [e | a]]; cbn in *.
  - split; [ exact Hd | ]. intros a H. discriminate H.
  - split; [ exact Hd | ]. intros a' [= <-]. unfold byTimeline. cbn. rewrite Ht. exact Hthis.
Qed.

Lemma hoare_updateStatus (P : Persistence) (now : Date) (s : Bid.Status)
  (reason : option string) (this : Bid.t) :
  byTimeline Pt this ->
  hoare (allBids (byTimeline Pt))
        (onDb (BidModel.updateStatus P now s reason this))
        (fun r => byTimeline Pt (fst r)).
Proof.
  intros Hthis. unfold BidModel.updateStatus.
  destruct (negb (Bid.includes (Bid.validTransitions (Bid.status_current this)) s)).
  - intros w Hw. cbn. split; [ exact Hw | ]. intros a H. discriminate H.
  - apply hoare_save. exact Hthis.
Qed.

Lemma hoare_addNegotiation (P : Persistence) (now : Date) (n : Bid.Negotiation)
  (this : Bid.t) :
  byTimeline Pt this ->
  hoare (allBids (byTimeline Pt))
        (onDb (BidModel.addNegotiation P now n this))
        (fun r => byTimeline Pt (fst r)).
Proof.
  intros Hthis w Hw. unfold onDb, BidModel.addNegotiation.
  set (this' := Bid.push_negotiations _ this).
  assert (Hthis' : byTimeline Pt this') by exact Hthis.
  pose proof (save_timeline P now this' (db w)) as Ht.
  pose proof (save_Forall P now this' (db w) Hthis' Hw) as Hd.
  destruct (BidModel.save P now this' (db w)) as [[b d'] [e | a]]; cbn in *.
  - split; [ exact Hd | ]. intros a H. discriminate H.
  - split; [ exact Hd | ]. intros a' [= <-]. unfold byTimeline. cbn. rewrite Ht. exact Hthis'.
Qed.

Lemma hoare_saveInSession (P : Persistence) (now : Date) (this : Bid.t) (s : Session) :
  byTimeline Pt this -> writesOf (byTimeline Pt) s ->
  hoare (allBids (byTimeline Pt)) (fun w => staged (BidModel.saveInSession P now this (db w) s) w)
        (fun r => byTimeline Pt (fst r) /\ writesOf (byTimeline Pt) (snd r)).
Proof.
  intros Hthis Hs w Hw. unfold staged, BidModel.saveInSession.
  destruct (preSave_keeps_identity now this) as (_ & _ & _ & _ & Ht & _).
  assert (Hstored : byTimeline Pt (Bid.markSaved (Bid.preSave now this)))
    by (unfold byTimeline; cbn; rewrite Ht; exact Hthis).
  destruct (bid_write P this); cbn; [ split; [ exact Hw | intros a H; discriminate H ] | ].
  destruct (Bid.isNew (Bid.preSave now this));
    [ destruct (violatesUniqueIndex _ _);
      [ cbn; split; [ exact Hw | intros a H; discriminate H ] | ] | ];
    cbn; (split; [ exact Hw | ]); intros a [= <-]; cbn;
    (split; [ exact Hstored | ]);
    apply Forall_app; (split; [ exact Hs | ]);
    (constructor; [ exact Hstored | constructor ]).
Qed.

Lemma hoare_updateMany_reject (P : Persistence) (now : Date) (q : Bid.t -> bool)
  (s : Session) :
  writesOf (byTimeline Pt) s ->
  hoare (allBids (byTimeline Pt)) (BidService.Bid_updateMany P q (BidService.rejectUpdate now) s)
        (writesOf (byTimeline Pt)).
Proof.
  intros Hs w Hw. unfold BidService.Bid_updateMany.
  destruct (bulk_write P); cbn; (split; [ exact Hw | ]); intros a H;
    [ discriminate H | ].
  injection H as <-. apply Forall_app. split; [ exact Hs | ].
  apply Forall_map. apply Forall_forall. intros b Hb.
  apply filter_In in Hb. destruct Hb as [Hb _].
  unfold allBids in Hw. rewrite Forall_forall in Hw. exact (Hw b Hb).
Qed.

Lemma hoare_project_saveInSession (P : Persistence) (now : Date) (p : Project.t)
  (s : Session) :
  writesOf (byTimeline Pt) s ->
  hoare (allBids (byTimeline Pt)) (staged (ProjectModel.saveInSession P now p s))
        (fun r => writesOf (byTimeline Pt) (snd r)).
Proof.
  intros Hs w Hw. unfold staged, ProjectModel.saveInSession.
  destruct (project_write P p); cbn; (split; [ exact Hw | ]); intros a H;
    [ discriminate H | ].
  injection H as <-. cbn. apply Forall_app. split; [ exact Hs | ].
  constructor; [ exact Logic.I | constructor ].
Qed.

Lemma hoare_findByIdAndDelete (P : Persistence) (bidId : ObjectId) :
  hoare (allBids (byTimeline Pt)) (BidService.Bid_findByIdAndDelete P bidId) (fun _ => True).
Proof.
  intros w Hw. unfold BidService.Bid_findByIdAndDelete.
  destruct (bid_delete P); cbn; (split; [ | intros; exact Logic.I ]).
  - exact Hw.
  - unfold allBids in Hw. rewrite Forall_forall in Hw.
    apply Forall_forall. intros b Hb. apply filter_In in Hb. apply Hw, Hb.
Qed.

(** The operations of the service keep such an invariant. *)

Lemma hoare_selectBid (P : Persistence) (now : Date) (bidId projectId clientId : ObjectId) :
  hoare (allBids (byTimeline Pt))
        (BidService.selectBid P now bidId projectId clientId)
        (fun _ => True).
Proof.
  unfold BidService.selectBid. apply hoare_transaction.
  eapply hoare_bind; [ apply hoare_getClientProfile | intros cp _ ].
  eapply hoare_bind; [ apply (hoare_findById (byTimeline Pt)) | intros bid Hbid ].
  eapply hoare_bind; [ apply hoare_query | intros project _ ].
  destruct bid as [bid | ]; [ | apply hoare_raiseApi ].
  destruct project as [project | ]; [ | apply hoare_raiseApi ].
  destruct (Bid.Status_eqb (Bid.status_current bid) Bid.ACCEPTED);
    [ apply hoare_ret; exact Logic.I | ].
  destruct (negb _ && negb _); [ apply hoare_raiseApi | ].
  destruct (negb _ && negb _); [ apply hoare_raiseApi | ].
  eapply hoare_bind with (R1 := fun r => byTimeline Pt (fst r)).
  { destruct (Bid.Status_eqb (Bid.status_current bid) Bid.PENDING);
      [ apply hoare_updateStatus; exact Hbid | apply hoare_ret; exact Hbid ]. }
  intros [bid1 u1] Hb1. cbn in Hb1.
  eapply hoare_bind; [ apply hoare_updateStatus; exact Hb1 | intros [bid2 u2] Hb2 ].
  eapply hoare_bind; [ apply hoare_updateMany_reject; constructor | intros session Hs ].
  eapply hoare_bind;
    [ apply hoare_project_saveInSession; exact Hs | intros [project' session'] Hs' ].
  apply hoare_ret. split; [ apply (hoare_commitSession (byTimeline Pt)); exact Hs' | ].
  eapply hoare_bind; [ apply (hoare_clearProjectBidCaches (byTimeline Pt)) | intros _ _ ].
  apply hoare_ret. exact Logic.I.
Qed.

Lemma hoare_rejectBid (P : Persistence) (now : Date) (bidId projectId clientId : ObjectId)
  (reason : option string) :
  hoare (allBids (byTimeline Pt))
        (BidService.rejectBid P now bidId projectId clientId reason)
        (fun _ => True).
Proof.
  unfold BidService.rejectBid. apply hoare_tryCatch.
  eapply hoare_bind; [ apply hoare_getClientProfile | intros cp _ ].
  eapply hoare_bind; [ apply (hoare_findById (byTimeline Pt)) | intros bid Hbid ].
  eapply hoare_bind; [ apply hoare_query | intros project _ ].
  destruct bid as [bid | ]; [ | apply hoare_raiseApi ].
  destruct project as [project | ]; [ | apply hoare_raiseApi ].
  destruct (Bid.Status_eqb (Bid.status_current bid) Bid.REJECTED);
    [ apply hoare_ret; exact Logic.I | ].
  destruct (Bid.Status_eqb (Bid.status_current bid) Bid.ACCEPTED);
    [ apply hoare_raiseApi | ].
  eapply hoare_bind; [ apply hoare_updateStatus; exact Hbid | intros [bid1 u1] _ ].
  apply hoare_ret. exact Logic.I.
Qed.

Lemma hoare_negotiateBid (P : Persistence) (now : Date) (bidId : ObjectId)
  (negotiationData : BidService.NegotiationData) (initiatorType : string) :
  hoare (allBids (byTimeline Pt))
        (BidService.negotiateBid P now bidId negotiationData initiatorType)
        (fun _ => True).
Proof.
  unfold BidService.negotiateBid. apply hoare_tryCatch.
  eapply hoare_bind; [ apply (hoare_findById (byTimeline Pt)) | intros bid Hbid ].
  destruct bid as [bid | ]; [ | apply hoare_raiseApi ].
  destruct (negb _); [ apply hoare_raiseApi | ].
  eapply hoare_bind; [ apply hoare_addNegotiation; exact Hbid | intros [bid1 n] _ ].
  apply hoare_ret. exact Logic.I.
Qed.

Lemma hoare_deleteBid (P : Persistence) (bidId vendorId : ObjectId) :
  hoare (allBids (byTimeline Pt)) (BidService.deleteBid P bidId vendorId) (fun _ => True).
Proof.
  unfold BidService.deleteBid. apply hoare_tryCatch.
  eapply hoare_bind; [ apply hoare_query | intros vendor _ ].
  eapply hoare_bind; [ apply hoare_query | intros bid _ ].
  destruct vendor as [vendor | ]; [ | apply hoare_raiseApi ].
  destruct bid as [bid | ]; [ | apply hoare_raiseApi ].
  destruct (negb _); [ apply hoare_raiseApi | ].
  destruct (negb _); [ apply hoare_raiseApi | ].
  eapply hoare_bind; [ apply hoare_findByIdAndDelete | intros _ _ ].
  eapply hoare_bind; [ apply (hoare_clearProjectBidCaches (byTimeline Pt)) | intros _ _ ].
  apply hoare_ret. exact Logic.I.
Qed.

Lemma hoare_submitBid (P : Persistence) (now : Date) (newId projectId vendorId : ObjectId)
  (bidData : BidService.BidData) :
  (forall vendor,
     Pt (Bid.timeline (BidService.simplifiedBidData now newId projectId vendor bidData))) ->
  hoare (allBids (byTimeline Pt)) (BidService.submitBid P now newId projectId vendorId bidData)
        (fun b => byTimeline Pt b).
Proof.
  intros Hnew. unfold BidService.submitBid. apply hoare_transaction.
  eapply hoare_bind; [ apply hoare_query | intros vendor _ ].
  eapply hoare_bind; [ apply hoare_query | intros project _ ].
  destruct project as [project | ]; [ | apply hoare_raiseApi ].
  destruct vendor as [vendor | ]; [ | apply hoare_raiseApi ].
  destruct (negb _); [ apply hoare_raiseApi | ].
  destruct (BidService._validateVendorEligibility vendor project); [ apply hoare_raise | ].
  eapply hoare_bind;
    [ apply hoare_saveInSession; [ apply Hnew | constructor ] | intros [bid session] [Hb Hs] ].
  apply hoare_ret. split; [ apply (hoare_commitSession (byTimeline Pt)); exact Hs | ].
  apply hoare_ret. exact Hb.
Qed.

Lemma hoare_updateBid (P : Persistence) (now : Date) (bidId vendorId : ObjectId)
  (updateData : BidService.UpdateData) :
  match BidService.u_timeline updateData with
  | Some tl => Pt tl
  | None => True
  end ->
  hoare (allBids (byTimeline Pt))
        (BidService.updateBid P now bidId vendorId updateData)
        (fun b => byTimeline Pt b).
Proof.
  intros Hpatch. unfold BidService.updateBid. apply hoare_tryCatch.
  eapply hoare_bind; [ apply hoare_query | intros vendor _ ].
  eapply hoare_bind; [ apply (hoare_findById (byTimeline Pt)) | intros bid Hbid ].
  destruct vendor as [vendor | ]; [ | apply hoare_raiseApi ].
  destruct bid as [bid | ]; [ | apply hoare_raiseApi ].
  destruct (negb _); [ apply hoare_raiseApi | ].
  destruct (negb _); [ apply hoare_raiseApi | ].
  assert (Hassigned : byTimeline Pt
                        (BidService.assign (BidService._sanitizeUpdateData updateData) bid)).
  { unfold byTimeline, BidService.assign, BidService._sanitizeUpdateData. cbn.
    destruct (BidService.u_proposedCost updateData), (BidService.u_timeline updateData);
      cbn; assumption. }
  eapply hoare_bind; [ apply hoare_save; exact Hassigned | intros [bid1 u] Hb ].
  apply hoare_ret. exact Hb.
Qed.

End TimelineInvariant.

(** ** The caches *)

Section CacheFrame.

(** Computations that leave both caches as they are. *)
Context (c1 : TTLCache.t Analysis) (c2 : TTLCache.t ProjectBids).

Lemma hoare_onDb_caches {D A} (f : Db -> D * Db * result A) :
  hoare (sameCaches c1 c2) (onDb f) (fun _ => True).
Proof.
  intros w Hw. unfold onDb.
  destruct (f (db w)) as [[d d'] [e | a]]; cbn; (split; [ exact Hw | ]); intros;
    exact Logic.I.
Qed.

Lemma hoare_commitSession_caches (P : Persistence) (s : Session) :
  hoare (sameCaches c1 c2) (BidService.commitSession P s) (fun _ => True).
Proof.
  intros w Hw. unfold BidService.commitSession.
  destruct (commit P); cbn; (split; [ exact Hw | ]); intros; exact Logic.I.
Qed.

Lemma hoare_staged_caches {D A} (f : Db -> D * Session * result A) :
  hoare (sameCaches c1 c2) (fun w => staged (f (db w)) w) (fun _ => True).
Proof.
  intros w Hw. unfold staged.
  destruct (f (db w)) as [[d s] [e | a]]; cbn; (split; [ exact Hw | ]); intros;
    exact Logic.I.
Qed.

Lemma hoare_any {A} (c : M A) (R : A -> Prop) :
  hoare (sameCaches c1 c2) c R -> hoare (sameCaches c1 c2) c (fun _ => True).
Proof. intros H. eapply hoare_weaken; [ exact H | intros; exact Logic.I ]. Qed.

Lemma rejectBid_caches (P : Persistence) (now : Date) (bidId projectId clientId : ObjectId)
  (reason : option string) :
  hoare (sameCaches c1 c2)
        (BidService.rejectBid P now bidId projectId clientId reason)
        (fun _ => True).
Proof.
  unfold BidService.rejectBid. apply hoare_tryCatch.
  eapply hoare_bind; [ apply hoare_getClientProfile | intros cp _ ].
  eapply hoare_bind; [ apply hoare_query | intros bid _ ].
  eapply hoare_bind; [ apply hoare_query | intros project _ ].
  destruct bid as [bid | ]; [ | apply hoare_raiseApi ].
  destruct project as [project | ]; [ | apply hoare_raiseApi ].
  destruct (Bid.Status_eqb (Bid.status_current bid) Bid.REJECTED);
    [ apply hoare_ret; exact Logic.I | ].
  destruct (Bid.Status_eqb (Bid.status_current bid) Bid.ACCEPTED);
    [ apply hoare_raiseApi | ].
  eapply hoare_bind; [ apply hoare_onDb_caches | intros [bid1 u1] _ ].
  apply hoare_ret. exact Logic.I.
Qed.

Lemma updateBid_caches (P : Persistence) (now : Date) (bidId vendorId : ObjectId)
  (updateData : BidService.UpdateData) :
  hoare (sameCaches c1 c2) (BidService.updateBid P now bidId vendorId updateData) (fun _ => True).
Proof.
  unfold BidService.updateBid. apply hoare_tryCatch.
  eapply hoare_bind; [ apply hoare_query | intros vendor _ ].
  eapply hoare_bind; [ apply hoare_query | intros bid _ ].
  destruct vendor as [vendor | ]; [ | apply hoare_raiseApi ].
  destruct bid as [bid | ]; [ | apply hoare_raiseApi ].
  destruct (negb _); [ apply hoare_raiseApi | ].
  destruct (negb _); [ apply hoare_raiseApi | ].
  eapply hoare_bind; [ apply hoare_onDb_caches | intros [bid1 u] _ ].
  apply hoare_ret. exact Logic.I.
Qed.

Lemma negotiateBid_caches (P : Persistence) (now : Date) (bidId : ObjectId)
  (negotiationData : BidService.NegotiationData) (initiatorType : string) :
  hoare (sameCaches c1 c2) (BidService.negotiateBid P now bidId negotiationData initiatorType)
        (fun _ => True).
Proof.
  unfold BidService.negotiateBid. apply hoare_tryCatch.
  eapply hoare_bind; [ apply hoare_query | intros bid _ ].
  destruct bid as [bid | ]; [ | apply hoare_raiseApi ].
  destruct (negb _); [ apply hoare_raiseApi | ].
  eapply hoare_bind; [ apply hoare_onDb_caches | intros [bid1 n] _ ].
  apply hoare_ret. exact Logic.I.
Qed.

Lemma submitBid_caches (P : Persistence) (now : Date) (newId projectId vendorId : ObjectId)
  (bidData : BidService.BidData) :
  hoare (sameCaches c1 c2)
        (BidService.submitBid P now newId projectId vendorId bidData)
        (fun _ => True).
Proof.
  unfold BidService.submitBid. apply hoare_transaction.
  eapply hoare_bind; [ apply hoare_query | intros vendor _ ].
  eapply hoare_bind; [ apply hoare_query | intros project _ ].
  destruct project as [project | ]; [ | apply hoare_raiseApi ].
  destruct vendor as [vendor | ]; [ | apply hoare_raiseApi ].
  destruct (negb _); [ apply hoare_raiseApi | ].
  destruct (BidService._validateVendorEligibility vendor project); [ apply hoare_raise | ].
  eapply hoare_bind;
    [ apply (hoare_staged_caches
               (fun d => BidModel.saveInSession P now _ d startTransaction))
    | intros [bid session] _ ].
  apply hoare_ret. split; [ apply hoare_commitSession_caches | ].
  apply hoare_ret. exact Logic.I.
Qed.

Lemma deleteProject_caches (P : Persistence) (projectId clientId : ObjectId) :
  hoare (sameCaches c1 c2) (ProjectService.deleteProject P projectId clientId) (fun _ => True).
Proof.
  unfold ProjectService.deleteProject. apply hoare_tryCatch.
  eapply hoare_bind with (R1 := fun _ => True).
  { intros w Hw. unfold ProjectService.Project_findOneAndDelete.
    destruct (project_delete P); cbn; [ split; [ exact Hw | intros; exact Logic.I ] | ].
    destruct (Project_findOwned projectId clientId (db w)); cbn;
      (split; [ exact Hw | intros; exact Logic.I ]). }
  intros [project | ] _; [ | apply hoare_raiseApi ].
  eapply hoare_bind with (R1 := fun _ => True).
  { intros w Hw. unfold ProjectService.Bid_deleteMany.
    destruct (bid_delete P); cbn; (split; [ exact Hw | intros; exact Logic.I ]). }
  intros _ _. apply hoare_ret. exact Logic.I.
Qed.

End CacheFrame.

(** What [_clearProjectBidCaches] removes. *)

Lemma keys_delete {V} (key : string) (c : TTLCache.t V) :
  TTLCache.keys (TTLCache.delete key c)
  = filter (fun k => negb (String.eqb k key)) (TTLCache.keys c).
Proof.
  unfold TTLCache.keys, TTLCache.delete, TTLCache.Map_delete. cbn.
  induction (TTLCache.cache c) as [ | [k e] l IH]; cbn; [ reflexivity | ].
  destruct (String.eqb k key); cbn; rewrite IH; reflexivity.
Qed.

Lemma filter_twice {A} (p q : A -> bool) (l : list A) :
  filter p (filter q l) = filter (fun x => q x && p x) l.
Proof.
  induction l as [ | x l IH]; cbn; [ reflexivity | ].
  destruct (q x); cbn; [ destruct (p x) | ]; rewrite IH; reflexivity.
Qed.

Lemma keys_delete_all {V} (ks : list string) (c : TTLCache.t V) :
  TTLCache.keys (fold_left (fun c key => TTLCache.delete key c) ks c)
  = filter (fun k => negb (includesIn ks k)) (TTLCache.keys c).
Proof.
  revert c. induction ks as [ | key ks IH]; intros c; cbn [fold_left].
  - induction (TTLCache.keys c) as [ | k l IHl]; cbn; [ | f_equal; exact IHl ]; reflexivity.
  - rewrite IH, keys_delete, filter_twice.
    apply filter_ext. intros k. unfold includesIn. cbn [existsb].
    rewrite Bool.negb_orb. reflexivity.
Qed.

(** After [_clearProjectBidCaches] no key of the project's bid lists and
    no key of a competitive analysis is left. *)
Lemma clearProjectBidCaches_removes (projectId : ObjectId) (w : World) :
  let w' := fst (BidService._clearProjectBidCaches projectId w) in
  db w' = db w
  /\ (forall key, In key (TTLCache.keys (projectBidsCache w')) ->
        includesString ("project_bids_" ++ projectId)%string key = false)
  /\ (forall key, In key (TTLCache.keys (bidCache w')) ->
        includesString "competitive_analysis_" key = false).
Proof.
  cbn. split; [ reflexivity | ].
  assert (H : forall (p : string -> bool) (l : list string) (key : string),
            In key (filter (fun k => negb (includesIn (filter p l) k)) l) -> p key = false).
  { intros p l key Hin. apply filter_In in Hin. destruct Hin as [Hin Hk].
    destruct (p key) eqn:E; [ | reflexivity ].
    apply Bool.negb_true_iff in Hk.
    assert (Ht : includesIn (filter p l) key = true).
    { apply existsb_exists. exists key. split; [ | apply String.eqb_refl ].
      apply filter_In. split; assumption. }
    congruence. }
  split; intros key Hin; rewrite keys_delete_all in Hin; apply H in Hin; exact Hin.
Qed.

(** ** What a successful submission returns *)

Lemma submitBid_Ok_inv (P : Persistence) (now : Date) (newId projectId vendorId : ObjectId)
  (bidData : BidService.BidData) (w : World) (bid : Bid.t) :
  snd (BidService.submitBid P now newId projectId vendorId bidData w) = Ok bid ->
  exists vendor,
    VendorProfile_findByUser vendorId (db w) = Some vendor
    /\ bid = Bid.markSaved
               (Bid.preSave now
                  (BidService.simplifiedBidData now newId projectId vendor bidData)).
Proof.
  unfold BidService.submitBid. step_service.
  destruct (Project_findById projectId (db w)) as [project | ];
    [ | step_service; cbn; discriminate ].
  destruct (VendorProfile_findByUser vendorId (db w)) as [vendor | ];
    [ | step_service; cbn; discriminate ].
  destruct (negb _); [ step_service; cbn; discriminate | ].
  destruct (BidService._validateVendorEligibility vendor project);
    [ step_service; cbn; discriminate | ].
  step_service. unfold BidModel.saveInSession.
  destruct (bid_write P _); [ step_service; cbn; discriminate | ].
  destruct (Bid.isNew _);
    [ destruct (violatesUniqueIndex _ _); [ step_service; cbn; discriminate | ] | ];
    step_service; (destruct (commit P); [ step_service; cbn; discriminate | ]);
    step_service; cbn; intros [= <-]; exists vendor; (split; reflexivity).
Qed.

(** ** Replacing documents by identifier *)

Lemma fold_replaceBid (ws l : list Bid.t) :
  NoDup (map Bid._id ws) ->
  fold_left (fun l b => replaceBid b l) ws l = map (lookupById ws) l.
Proof.
  revert l. induction ws as [ | b ws IH]; intros l Hnd; cbn [fold_left].
  - symmetry. erewrite map_ext; [ apply map_id | ]. intros x. reflexivity.
  - inversion Hnd as [ | ? ? Hnotin Hnd']; subst.
    rewrite (IH _ Hnd'). unfold replaceBid. rewrite map_map.
    apply map_ext. intros x. unfold lookupById. cbn [find].
    destruct (String.eqb (Bid._id x) (Bid._id b)) eqn:E; [ | reflexivity ].
    destruct (find (fun b0 => String.eqb (Bid._id b) (Bid._id b0)) ws) as [b' | ] eqn:F;
      [ | reflexivity ].
    apply find_some in F. destruct F as [Hin Heq].
    apply String.eqb_eq in Heq. exfalso. apply Hnotin.
    rewrite Heq. apply in_map, Hin.
Qed.

Lemma NoDup_map_filter {A B} (g : A -> B) (q : A -> bool) (l : list A) :
  NoDup (map g l) -> NoDup (map g (filter q l)).
Proof.
  induction l as [ | x l IH]; cbn; intros H; [ constructor | ].
  inversion H as [ | ? ? Hnotin Hnd]; subst.
  destruct (q x); cbn; [ constructor | ]; auto.
  intros Hin. apply Hnotin.
  apply in_map_iff in Hin. destruct Hin as (y & Hy & Hin).
  apply filter_In in Hin. rewrite <- Hy. apply in_map, Hin.
Qed.

Lemma NoDup_map_inj {A B} (g : A -> B) (l : list A) (x y : A) :
  NoDup (map g l) -> In x l -> In y l -> g x = g y -> x = y.
Proof.
  induction l as [ | z l IH]; cbn; intros Hnd Hx Hy E; [ contradiction | ].
  inversion Hnd as [ | ? ? Hnotin Hnd']; subst.
  destruct Hx as [-> | Hx], Hy as [-> | Hy]; auto.
  - exfalso. apply Hnotin. rewrite E. apply in_map, Hy.
  - exfalso. apply Hnotin. rewrite <- E. apply in_map, Hx.
Qed.

Lemma lookupById_updated (f : Bid.t -> Bid.t) (q : Bid.t -> bool) (l : list Bid.t)
  (x : Bid.t) :
  (forall b, Bid._id (f b) = Bid._id b) ->
  NoDup (map Bid._id l) -> In x l ->
  lookupById (map f (filter q l)) x = if q x then f x else x.
Proof.
  intros Hid Hnd Hx. unfold lookupById.
  destruct (find _ (map f (filter q l))) as [b | ] eqn:F.
  - apply find_some in F. destruct F as [Hin Heq]. apply String.eqb_eq in Heq.
    apply in_map_iff in Hin. destruct Hin as (y & <- & Hy).
    apply filter_In in Hy. destruct Hy as [Hy Hq].
    rewrite Hid in Heq.
    rewrite (NoDup_map_inj Bid._id l x y Hnd Hx Hy Heq), Hq. reflexivity.
  - destruct (q x) eqn:Hq; [ | reflexivity ].
    exfalso.
    assert (Hin : In (f x) (map f (filter q l)))
      by (apply in_map, filter_In; split; assumption).
    pose proof (find_none _ _ F (f x) Hin) as Hn. cbn in Hn.
    rewrite Hid, String.eqb_refl in Hn. discriminate Hn.
Qed.

Lemma commitTransaction_bids_projects (ws : list Bid.t) (p : Project.t) (d : Db) :
  commitTransaction (map ReplaceBid ws ++ [ReplaceProject p]) d
  = mkDb (fold_left (fun l b => replaceBid b l) ws (bids d))
         (replaceProject p (projects d)) (vendorProfiles d) (clientProfiles d).
Proof.
  unfold commitTransaction. rewrite fold_left_app. cbn [fold_left].
  revert d. induction ws as [ | b ws IH]; intros d; cbn [map fold_left].
  - destruct d; reflexivity.
  - rewrite IH. destruct d; reflexivity.
Qed.

(** ** Writes that are accepted *)

Lemma updateStatus_accepted (P : Persistence) (now : Date) (s : Bid.Status)
  (reason : option string) (this : Bid.t) (d : Db) :
  (forall b, bid_write P b = None) ->
  Bid.isNew this = false ->
  Bid.includes (Bid.validTransitions (Bid.status_current this)) s = true ->
  exists this',
    BidModel.updateStatus P now s reason this d
    = (this', set_bids (replaceBid this' (bids d)) d, Ok tt)
    /\ Bid._id this' = Bid._id this
    /\ Bid.project this' = Bid.project this
    /\ Bid.status_current this' = s
    /\ Bid.isNew this' = false.
Proof.
  intros Hb Hnew Hvalid.
  unfold BidModel.updateStatus, BidModel.save. rewrite Hvalid. cbn [negb].
  rewrite Hb.
  set (this1 := Bid.push_status_history _ (Bid.set_status_current s this)).
  destruct (preSave_keeps_identity now this1) as (Hi & Hp & _ & Hn & _).
  assert (Hn1 : Bid.isNew (Bid.preSave now this1) = false) by (rewrite Hn; exact Hnew).
  rewrite Hn1.
  exists (Bid.markSaved (Bid.preSave now this1)).
  split; [ reflexivity | ].
  cbn [Bid.markSaved Bid._id Bid.project Bid.status_current Bid.isNew].
  rewrite Hi, Hp. repeat split.
  unfold Bid.preSave.
  destruct this as [i p v c tl pr cur hist neg [[sub | ] lu] [ | ] new];
    destruct cur, s; cbn in Hvalid |- *; try discriminate Hvalid; reflexivity.
Qed.

Lemma project_saveInSession_accepted (P : Persistence) (now : Date) (p : Project.t)
  (session : Session) :
  (forall p, project_write P p = None) ->
  exists p',
    ProjectModel.saveInSession P now p session = (p', session ++ [ReplaceProject p'], Ok tt)
    /\ Project._id p' = Project._id p
    /\ Project.status_current p' = Project.status_current p.
Proof.
  intros Hp. unfold ProjectModel.saveInSession. rewrite Hp.
  exists (Project.markSaved (Project.preSave now p)).
  split; [ reflexivity | ].
  unfold Project.preSave. destruct p as [i c ty me mr cur hist md [ | ]]; cbn; auto.
Qed.

(** ** The intended run of [selectBid] *)

(** The client's profile and project are found, the bid is stored and is
    pending or in review, the project is open or in review, identifiers
    are unique and every write is accepted.  Then the selected bid is
    accepted, every other pending or in-review bid of the named project is
    rejected, every other bid is left alone, and the project is in
    progress. *)
Lemma selectBid_intended_run
  (P : Persistence) (now : Date) (bidId projectId clientId : ObjectId) (w : World)
  (clientProfile : ClientProfile) (bid : Bid.t) (project : Project.t)
  (HP : acceptsAll P)
  (Hclient : ClientProfile_findByUser clientId (db w) = Some clientProfile)
  (Hbid : Bid_findById bidId (db w) = Some bid)
  (Hproject : Project_findOwned projectId (c_id clientProfile) (db w) = Some project)
  (Hstored : Bid.isNew bid = false)
  (Hstatus : Bid.status_current bid = Bid.PENDING
             \/ Bid.status_current bid = Bid.IN_REVIEW)
  (Hpstatus : Project.status_current project = Project.OPEN
              \/ Project.status_current project = Project.IN_REVIEW)
  (Hids : NoDup (map Bid._id (bids (db w)))) :
  exists bid' project',
    BidService.selectBid P now bidId projectId clientId w
    = (with_db
         (mkDb (map (fun x => if String.eqb (Bid._id x) bidId then bid'
                              else if outbid projectId bidId x
                                   then BidService.rejectUpdate now x else x)
                    (bids (db w)))
               (replaceProject project' (projects (db w)))
               (vendorProfiles (db w)) (clientProfiles (db w)))
         (fst (BidService._clearProjectBidCaches projectId w)),
       Ok (bid', project'))
    /\ Bid._id bid' = bidId
    /\ Bid.project bid' = Bid.project bid
    /\ Bid.status_current bid' = Bid.ACCEPTED
    /\ Project._id project' = Project._id project
    /\ Project.status_current project' = Project.IN_PROGRESS.
Proof.
  destruct HP as (Hb & Hp & Hbulk & _ & _ & Hcommit).
  assert (Hbid_id : Bid._id bid = bidId).
  { unfold Bid_findById in Hbid. apply find_some in Hbid.
    destruct Hbid as [_ E]. apply String.eqb_eq in E. exact E. }
  (* what the two saves and the commit make of the collection *)
  assert (Hfinal : forall bid2 : Bid.t, Bid._id bid2 = bidId ->
            forall l0 : list Bid.t,
              l0 = map (fun x => if String.eqb (Bid._id x) bidId then bid2 else x)
                       (bids (db w)) ->
              fold_left (fun l b => replaceBid b l)
                (map (BidService.rejectUpdate now) (filter (outbid projectId bidId) l0)) l0
              = map (fun x => if String.eqb (Bid._id x) bidId then bid2
                              else if outbid projectId bidId x
                                   then BidService.rejectUpdate now x else x)
                    (bids (db w))).
  { intros bid2 Hid2 l0 ->.
    set (h := fun x : Bid.t => if String.eqb (Bid._id x) bidId then bid2 else x).
    assert (Hh : forall x, Bid._id (h x) = Bid._id x).
    { intros x. unfold h. destruct (String.eqb (Bid._id x) bidId) eqn:E; [ | reflexivity ].
      apply String.eqb_eq in E. congruence. }
    assert (Hnd : NoDup (map Bid._id (map h (bids (db w))))).
    { rewrite map_map. erewrite map_ext; [ exact Hids | exact Hh ]. }
    rewrite fold_replaceBid.
    2:{ rewrite map_map. cbn. apply NoDup_map_filter. exact Hnd. }
    rewrite map_map. apply map_ext_in. intros x Hx.
    rewrite lookupById_updated;
      [ | intros b; reflexivity | exact Hnd | apply in_map, Hx ].
    unfold h. destruct (String.eqb (Bid._id x) bidId) eqn:E; [ | reflexivity ].
    unfold outbid. rewrite Hid2, String.eqb_refl. cbn.
    rewrite Bool.andb_false_r. reflexivity. }
  assert (Hclear : forall d',
            BidService._clearProjectBidCaches projectId
              (mkWorld d' (bidCache w) (projectBidsCache w))
            = (with_db d' (fst (BidService._clearProjectBidCaches projectId w)), Ok tt))
    by (intros d'; reflexivity).
  assert (Hreplace : forall b1 b2 : Bid.t,
            Bid._id b1 = bidId -> Bid._id b2 = bidId ->
            replaceBid b2 (replaceBid b1 (bids (db w)))
            = map (fun x => if String.eqb (Bid._id x) bidId then b2 else x) (bids (db w))).
  { intros b1 b2 H1 H2. unfold replaceBid. rewrite map_map, H1, H2.
    apply map_ext. intros x.
    destruct (String.eqb (Bid._id x) bidId) eqn:E; [ | rewrite E; reflexivity ].
    rewrite H1, String.eqb_refl. reflexivity. }
  assert (Hreplace1 : forall b2 : Bid.t,
            Bid._id b2 = bidId ->
            replaceBid b2 (bids (db w))
            = map (fun x => if String.eqb (Bid._id x) bidId then b2 else x) (bids (db w))).
  { intros b2 H2. unfold replaceBid. rewrite H2. reflexivity. }
  unfold BidService.selectBid. step_service.
  rewrite Hclient. step_service. rewrite Hbid, Hproject. step_service.
  set (reviewed := Some "Bid under final review").
  set (selected := Some "Selected by client").
  set (inProgress := Project.push_status_history _
                       (Project.set_status_current Project.IN_PROGRESS project)).
  assert (Hip : Project._id inProgress = Project._id project
                /\ Project.status_current inProgress = Project.IN_PROGRESS).
  { unfold inProgress. destruct project; cbn. auto. }
  destruct Hip as [Hip1 Hip2].
  destruct Hpstatus as [Hps | Hps]; rewrite Hps; cbn [Project.Status_eqb negb andb];
    destruct Hstatus as [Hs | Hs]; rewrite Hs; cbn [Bid.Status_eqb negb andb];
    step_service;
    try (destruct (updateStatus_accepted P now Bid.IN_REVIEW reviewed bid (db w) Hb
                     Hstored)
           as (bid1 & E1 & Hi1 & Hp1 & Hs1 & Hn1);
         [ rewrite Hs; reflexivity | ];
         rewrite E1; step_service; cbn [db with_db]);
    match goal with
       | |- context [BidModel.updateStatus P now Bid.ACCEPTED selected ?b ?d] =>
         destruct (updateStatus_accepted P now Bid.ACCEPTED selected b d Hb)
           as (bid2 & E2 & Hi2 & Hp2 & Hs2 & Hn2);
         [ assumption | rewrite ?Hs1, ?Hs; reflexivity | ];
         rewrite E2
       end;
       step_service; cbn [db with_db bids set_bids bidCache projectBidsCache];
       rewrite Hbulk; step_service;
       match goal with
       | |- context [ProjectModel.saveInSession P now inProgress ?s] =>
         destruct (project_saveInSession_accepted P now inProgress s Hp)
           as (project' & E3 & Hi3 & Hs3);
         rewrite E3
       end;
       step_service; rewrite Hcommit; step_service;
       cbn [db with_db bids set_bids bidCache projectBidsCache];
       exists bid2, project';
       (split; [ | rewrite Hi2, ?Hi1, Hp2, ?Hp1, Hs2, Hi3, Hs3, Hip1, Hip2, Hbid_id;
                   repeat split; reflexivity ]);
       unfold BidService._clearProjectBidCaches, with_db, startTransaction;
       cbn [fst db bidCache projectBidsCache app];
       rewrite <- (map_map (BidService.rejectUpdate now) ReplaceBid);
       rewrite commitTransaction_bids_projects;
       cbn [bids projects vendorProfiles clientProfiles set_bids];
       (rewrite Hreplace by congruence) || (rewrite Hreplace1 by congruence);
       match goal with
       | |- context [filter ?q ?l] =>
         change (filter q l) with (filter (outbid projectId bidId) l)
       end;
       rewrite (Hfinal bid2 ltac:(congruence) _ eq_refl);
       reflexivity.
Qed.

(** On that run, if the bid belongs to the named project and the project
    had no accepted bid, the selected bid is its only accepted bid
    afterwards and none of its other bids is left pending or in review. *)
Lemma selectBid_intended_run_single_acceptance
  (P : Persistence) (now : Date) (bidId projectId clientId : ObjectId) (w : World)
  (clientProfile : ClientProfile) (bid : Bid.t) (project : Project.t)
  (HP : acceptsAll P)
  (Hclient : ClientProfile_findByUser clientId (db w) = Some clientProfile)
  (Hbid : Bid_findById bidId (db w) = Some bid)
  (Hproject : Project_findOwned projectId (c_id clientProfile) (db w) = Some project)
  (Hstored : Bid.isNew bid = false)
  (Hstatus : Bid.status_current bid = Bid.PENDING
             \/ Bid.status_current bid = Bid.IN_REVIEW)
  (Hpstatus : Project.status_current project = Project.OPEN
              \/ Project.status_current project = Project.IN_REVIEW)
  (Hids : NoDup (map Bid._id (bids (db w))))
  (Hbelongs : Bid.project bid = projectId)
  (Hnone : acceptedBids projectId (db w) = []) :
  let w' := fst (BidService.selectBid P now bidId projectId clientId w) in
  map Bid._id (acceptedBids projectId (db w')) = [bidId]
  /\ Forall (fun b => Bid.project b = projectId -> Bid._id b <> bidId ->
                      Bid.status_current b <> Bid.PENDING
                      /\ Bid.status_current b <> Bid.IN_REVIEW)
            (bids (db w')).
Proof.
  destruct (selectBid_intended_run P now bidId projectId clientId w clientProfile bid
              project HP Hclient Hbid Hproject Hstored Hstatus Hpstatus Hids)
    as (bid' & project' & E & Hi & Hp & Hs & _).
  cbv zeta. rewrite E. cbn [fst db with_db bids].
  set (g := fun x : Bid.t =>
              if String.eqb (Bid._id x) bidId then bid'
              else if outbid projectId bidId x then BidService.rejectUpdate now x else x).
  assert (Hin : In bid (bids (db w)) /\ Bid._id bid = bidId).
  { unfold Bid_findById in Hbid. apply find_some in Hbid.
    destruct Hbid as [H1 H2]. apply String.eqb_eq in H2. auto. }
  destruct Hin as [Hin Hbid_id].
  set (acc := fun b : Bid.t =>
                String.eqb (Bid.project b) projectId
                && Bid.Status_eqb (Bid.status_current b) Bid.ACCEPTED).
  assert (Hacc' : acc bid' = true).
  { unfold acc. rewrite Hp, Hbelongs, Hs, String.eqb_refl. reflexivity. }
  assert (Hother : forall x, In x (bids (db w)) ->
            String.eqb (Bid._id x) bidId = false -> acc (g x) = false).
  { intros x Hx Hne. unfold g. rewrite Hne.
    destruct (outbid projectId bidId x) eqn:Ho.
    - unfold acc. cbn. apply Bool.andb_false_r.
    - destruct (acc x) eqn:Ha; [ | reflexivity ].
      assert (Hx' : In x (acceptedBids projectId (db w)))
        by (apply filter_In; split; assumption).
      rewrite Hnone in Hx'. contradiction. }
  split.
  - unfold acceptedBids. cbn [bids]. fold acc.
    assert (Hgen : forall l,
              NoDup (map Bid._id l) ->
              (forall x, In x l -> String.eqb (Bid._id x) bidId = false -> acc (g x) = false) ->
              map Bid._id (filter acc (map g l))
              = if existsb (fun x => String.eqb (Bid._id x) bidId) l then [bidId] else []).
    { induction l as [ | x l IH]; intros Hnd Hl; [ reflexivity | ].
      cbn [map] in Hnd. apply NoDup_cons_iff in Hnd. destruct Hnd as [Hnotin Hnd'].
      cbn [map filter existsb].
      destruct (String.eqb (Bid._id x) bidId) eqn:Ex.
      - assert (Hgx : g x = bid') by (unfold g; rewrite Ex; reflexivity).
        rewrite Hgx, Hacc'. cbn [map orb]. rewrite Hi.
        rewrite IH; [ | exact Hnd' | intros y Hy; apply Hl; right; exact Hy ].
        apply String.eqb_eq in Ex.
        destruct (existsb _ l) eqn:Eex; [ | reflexivity ].
        apply existsb_exists in Eex. destruct Eex as (y & Hy & Ey).
        apply String.eqb_eq in Ey. exfalso. apply Hnotin.
        rewrite Ex, <- Ey. apply in_map, Hy.
      - rewrite (Hl x (or_introl eq_refl) Ex). cbn [orb].
        apply IH; [ exact Hnd' | intros y Hy; apply Hl; right; exact Hy ]. }
    rewrite (Hgen _ Hids Hother).
    assert (Hex : existsb (fun x => String.eqb (Bid._id x) bidId) (bids (db w)) = true).
    { apply existsb_exists. exists bid. split; [ exact Hin | ].
      rewrite Hbid_id. apply String.eqb_refl. }
    rewrite Hex. reflexivity.
  - apply Forall_map. apply Forall_forall. intros x Hx Hproj Hne.
    unfold g in Hproj, Hne |- *.
    destruct (String.eqb (Bid._id x) bidId) eqn:Ex; [ congruence | ].
    destruct (outbid projectId bidId x) eqn:Ho; [ cbn; split; discriminate | ].
    unfold outbid in Ho. rewrite Ex in Ho.
    apply String.eqb_eq in Hproj. rewrite Hproj in Ho. cbn in Ho.
    destruct (Bid.status_current x); cbn in Ho; try discriminate Ho; split; discriminate.
Qed.

(** The bulk rejection of [selectBid] appends one history entry and leaves
    the metadata, so also the last-updated time, as it is. *)
Lemma rejectUpdate_appends_one_entry (now : Date) (b : Bid.t) :
  Bid.status_current (BidService.rejectUpdate now b) = Bid.REJECTED
  /\ Bid.status_history (BidService.rejectUpdate now b)
     = Bid.status_history b
       ++ [Bid.mkHistoryEntry Bid.REJECTED now (Some "Another bid was selected")]
  /\ Bid.metadata (BidService.rejectUpdate now b) = Bid.metadata b.
Proof. repeat split. Qed.

(** ** The analysis that is not served from the cache *)

Lemma getCompetitiveAnalysis_uncached (now : Date) (bidId : ObjectId) (w : World)
  (bid : Bid.t) :
  snd (TTLCache.get now ("competitive_analysis_" ++ bidId)%string (bidCache w)) = None ->
  Bid_findById bidId (db w) = Some bid ->
  exists analysis,
    snd (BidService.getCompetitiveAnalysis now bidId w) = Ok analysis
    /\ a_cost analysis = Bid.total (Bid.proposedCost bid)
    /\ a_duration analysis = Bid.estimatedDuration_value (Bid.timeline bid)
    /\ market analysis
       = BidService._calculateBidStatistics bid
           (findCompetingBids (Bid.project bid) (Some (Bid._id bid)) (db w))
    /\ competitiveness analysis
       = BidService._calculateCompetitivenessScore bid (market analysis).
Proof.
  intros Hmiss Hbid.
  unfold BidService.getCompetitiveAnalysis, BidService.bidCache_get,
    BidService.bidCache_set.
  step_service.
  destruct (TTLCache.get now ("competitive_analysis_" ++ bidId)%string (bidCache w))
    as [c v]. cbn [snd] in Hmiss. subst v.
  cbn [db with_bidCache]. rewrite Hbid. cbn [snd].
  eexists. split; [ reflexivity | ]. cbn. auto.
Qed.

(** ** The scenarios of the design document, run on the model *)

(** A vendor with two years in business bids on a project that asks for
    five: the submission fails on eligibility and no bid is stored. *)
Example scenario_ineligible_vendor :
  BidService.submitBid healthy 10 "b9" "p3" "uv2" (Scenario.request (100000 # 1)%Q)
    Scenario.world6
  = (Scenario.world6,
     throwApi 400 "Vendor does not meet minimum experience requirement").
Proof. vm_compute. reflexivity. Qed.

(** Two vendors bid 100,000 and 120,000 on an open project and the client
    selects the first: it is accepted, the other is rejected with the
    reason of the bulk rejection, the project is in progress. *)
Example scenario_selection :
  map (fun b => (Bid._id b, Bid.status_current b,
                 Bid.h_reason (last (Bid.status_history b)
                                    (Bid.mkHistoryEntry Bid.DRAFT 0 None))))
      (bids (db Scenario.world3))
  = [ ("b1", Bid.ACCEPTED, None);
      ("b2", Bid.REJECTED, Some "Another bid was selected") ]
  /\ map (fun p => (Project._id p, Project.status_current p)) (projects (db Scenario.world3))
     = [ ("p1", Project.IN_PROGRESS); ("p2", Project.OPEN) ].
Proof. split; vm_compute; reflexivity. Qed.

(** The client rejects the accepted bid: the call fails and nothing
    changes. *)
Example scenario_reject_accepted :
  BidService.rejectBid healthy 30 "b1" "p1" "u1" None Scenario.world3
  = (Scenario.world3, throwApi 400 "Cannot reject an accepted bid").
Proof. vm_compute. reflexivity. Qed.

(** A project with three bids is deleted: the project and its bids are
    gone, and a list of its bids that is not served from the cache is
    empty. *)
Example scenario_delete_project :
  let (w, r) := ProjectService.deleteProject healthy "p1" "c1" Scenario.world5 in
  List.length (bids (db Scenario.world5)) = 3%nat
  /\ r = Ok "Project deleted successfully"
  /\ bids (db w) = []
  /\ map Project._id (projects (db w)) = ["p2"]
  /\ match snd (BidService.getProjectBids 40 "p1" None None None w) with
     | inr listed => r_bids listed = [] /\ pg_total (pagination listed) = 0
     | inl _ => False
     end.
Proof. vm_compute. repeat split; reflexivity. Qed.

(** ** The bid state machine *)

(** The table decides whether [updateStatus] goes on to [save].  For a
    pair that is not in the table it throws the error that names both
    states and leaves the bid and the database as they were; for a pair of
    the table it hands the bid, in the requested state and with the new
    history entry, to [save], whose success is then the success of the
    call. *)
Lemma updateStatus_by_table
  (P : Persistence) (now : Date) (newStatus : Bid.Status) (reason : option string)
  (this : Bid.t) (d : Db) :
  (~ In (Bid.status_current this, newStatus) transitionTable ->
   BidModel.updateStatus P now newStatus reason this d
   = (this, d, inl (invalidTransition (Bid.status_current this) newStatus)))
  /\ (In (Bid.status_current this, newStatus) transitionTable ->
      BidModel.updateStatus P now newStatus reason this d
      = BidModel.save P now
          (Bid.push_status_history (Bid.mkHistoryEntry newStatus now reason)
             (Bid.set_status_current newStatus this)) d).
Proof.
  unfold BidModel.updateStatus, invalidTransition, throwApi, transitionTable.
  destruct (Bid.status_current this), newStatus; cbn -[Bid.push_status_history];
    split; intros H; try reflexivity; exfalso; intuition congruence.
Qed.

(** With a write that is accepted, [updateStatus] on a stored bid and a
    pair of the table succeeds, and the bid is in the requested state, in
    memory and as read back from the database. *)
Lemma updateStatus_on_table_when_saved
  (P : Persistence) (now : Date) (newStatus : Bid.Status) (reason : option string)
  (this : Bid.t) (d : Db)
  (Hstored : Bid.isNew this = false)
  (Htable : In (Bid.status_current this, newStatus) transitionTable)
  (Hwrite : bid_write P
              (Bid.push_status_history (Bid.mkHistoryEntry newStatus now reason)
                 (Bid.set_status_current newStatus this)) = None) :
  let '(this', d', r) := BidModel.updateStatus P now newStatus reason this d in
  r = Ok tt
  /\ Bid.status_current this' = newStatus
  /\ (Bid_findById (Bid._id this) d <> None ->
      Bid_findById (Bid._id this) d' = Some this').
Proof.
  rewrite (proj2 (updateStatus_by_table P now newStatus reason this d) Htable).
  unfold BidModel.save. rewrite Hwrite.
  set (changed := Bid.push_status_history _ _).
  assert (Hc : Bid._id changed = Bid._id this /\ Bid.isNew changed = false
               /\ Bid.status_current changed = newStatus).
  { unfold changed. destruct this. cbn in *. auto. }
  destruct Hc as (Hc1 & Hc2 & Hc3).
  destruct (preSave_keeps_identity now changed) as (Hi & _ & _ & Hn & _).
  rewrite Hn, Hc2.
  split; [ reflexivity | ]. split.
  - cbn [Bid.markSaved Bid.status_current]. rewrite <- Hc3.
    apply preSave_status_current.
  - intros Hfound.
    assert (E : Bid._id this = Bid._id (Bid.markSaved (Bid.preSave now changed))).
    { cbn [Bid.markSaved Bid._id]. rewrite Hi, Hc1. reflexivity. }
    rewrite E. apply findById_replaceBid. rewrite <- E. exact Hfound.
Qed.

(** C2.  What the code does.  [updateStatus] checks the table first: it
    succeeds only on a pair of the table, and for any other pair it throws
    the error that names both states ([Invalid status transition from
    ACCEPTED to PENDING]) and leaves the bid and the database as they
    were, whatever the persistence layer does.  For a pair of the table it
    goes on to [save], and [save] validates the document, which runs the
    validator of [timeline.proposedStartDate] again: until the proposed
    start date the transition is made and stored, but once that date has
    passed every transition of the table fails with a [ValidationError]
    and nothing is stored.  The bulk rejection of [selectBid] runs no
    validator and makes the transition all the same.  So a client can
    neither select nor reject a pending bid whose start date has
    passed. *)
Theorem updateStatus_refused_once_the_start_date_has_passed :
  (forall P now newStatus reason this d,
     let '(this', d', r) := BidModel.updateStatus P now newStatus reason this d in
     (r = Ok tt -> In (Bid.status_current this, newStatus) transitionTable)
     /\ (~ In (Bid.status_current this, newStatus) transitionTable ->
         r = inl (invalidTransition (Bid.status_current this) newStatus)
         /\ this' = this /\ d' = d))
  /\ map Bid.Status_name
         [Bid.DRAFT; Bid.PENDING; Bid.IN_REVIEW; Bid.ACCEPTED; Bid.REJECTED; Bid.WITHDRAWN]
     = ["DRAFT"; "PENDING"; "IN_REVIEW"; "ACCEPTED"; "REJECTED"; "WITHDRAWN"]
  /\ invalidTransition Bid.ACCEPTED Bid.PENDING
     = EApi (mkApiError 400 "Invalid status transition from ACCEPTED to PENDING")
  /\ (forall now newStatus reason this d,
        Bid.isNew this = false ->
        In (Bid.status_current this, newStatus) transitionTable ->
        let '(this', d', r) :=
          BidModel.updateStatus (validating now) now newStatus reason this d in
        if Bid.proposedStartDate (Bid.timeline this) <? now
        then r = throw (EJs validationError) /\ d' = d
        else r = Ok tt
             /\ Bid.status_current this' = newStatus
             /\ (Bid_findById (Bid._id this) d <> None ->
                 Bid_findById (Bid._id this) d' = Some this'))
  /\ (forall now filterQ session w,
        BidService.Bid_updateMany (validating now) filterQ (BidService.rejectUpdate now)
          session w
        = (w, Ok (session ++ map (fun b => ReplaceBid (BidService.rejectUpdate now b))
                                 (filter filterQ (bids (db w))))))
  /\ (map (fun b => (Bid._id b, Bid.status_current b,
                     Bid.proposedStartDate (Bid.timeline b)))
          (bids (db Scenario.world2))
      = [("b1", Bid.PENDING, 1000); ("b2", Bid.PENDING, 1000)]
      /\ BidService.selectBid (validating 2000) 2000 "b1" "p1" "u1" Scenario.world2
         = (Scenario.world2, throwApi 500 "Error selecting bid")
      /\ BidService.rejectBid (validating 2000) 2000 "b2" "p1" "u1" None Scenario.world2
         = (Scenario.world2, throwApi 500 "Error rejecting bid")
      /\ isOk (snd (BidService.selectBid (validating 500) 500 "b1" "p1" "u1"
                      Scenario.world2)) = true).
Proof.
  split; [ | split; [ reflexivity | split; [ reflexivity | split; [ | split ] ] ] ].
  - intros P now newStatus reason this d.
    destruct (updateStatus_by_table P now newStatus reason this d) as [Hoff _].
    destruct (BidModel.updateStatus P now newStatus reason this d) as [[this' d'] r].
    split.
    + intros ->.
      destruct (in_dec (fun x y : Bid.Status * Bid.Status =>
                          ltac:(decide equality; decide equality))
                       (Bid.status_current this, newStatus) transitionTable)
        as [Hin | Hout]; [ exact Hin | ].
      specialize (Hoff Hout). discriminate Hoff.
    + intros Hout. specialize (Hoff Hout). injection Hoff as -> -> ->. auto.
  - intros now newStatus reason this d Hstored Htable.
    destruct (Bid.proposedStartDate (Bid.timeline this) <? now) eqn:Epast.
    + rewrite (proj2 (updateStatus_by_table (validating now) now newStatus reason this d)
                 Htable).
      unfold BidModel.save.
      replace (bid_write (validating now) _) with (Some validationError);
        [ split; reflexivity | ].
      unfold validating, Bid.startDateValidator. cbn [bid_write].
      replace (Bid.timeline (Bid.push_status_history _ _)) with (Bid.timeline this)
        by (destruct this; reflexivity).
      apply Z.ltb_lt in Epast.
      destruct (now <=? _) eqn:E; [ apply Z.leb_le in E; lia | reflexivity ].
    + apply (updateStatus_on_table_when_saved (validating now) now newStatus reason this d
               Hstored Htable).
      unfold validating, Bid.startDateValidator. cbn [bid_write].
      replace (Bid.timeline (Bid.push_status_history _ _)) with (Bid.timeline this)
        by (destruct this; reflexivity).
      apply Z.ltb_ge in Epast.
      destruct (now <=? _) eqn:E; [ reflexivity | apply Z.leb_gt in E; lia ].
  - intros now filterQ session w. reflexivity.
  - repeat split; vm_compute; reflexivity.
Qed.

(** C5.  What the code does on a transition: [updateStatus] pushes the
    entry with the reason and the [pre('save')] hook, finding
    [status.current] modified, pushes a second entry for the same state, so
    that one successful transition appends two history entries to a bid; it
    sets the last-updated time.  The project's [updateStatus] and its hook
    do the same to a project. *)
Theorem updateStatus_appends_two_history_entries
  (P : Persistence) (now : Date)
  (newStatus : Bid.Status) (reason : option string) (this : Bid.t) (d : Db)
  (newPStatus : Project.Status) (preason : option string) (proj : Project.t)
  (Hstored : Bid.isNew this = false)
  (Hwrite : forall b, bid_write P b = None)
  (Hpwrite : forall p, project_write P p = None)
  (Hvalid : In (Bid.status_current this, newStatus) transitionTable)
  (Hchange : Project.status_current proj <> newPStatus) :
  (let '(this', _, r) := BidModel.updateStatus P now newStatus reason this d in
   r = Ok tt
   /\ Bid.status_history this'
      = Bid.status_history this
        ++ [Bid.mkHistoryEntry newStatus now reason; Bid.mkHistoryEntry newStatus now None]
   /\ Bid.lastUpdated (Bid.metadata this') = now)
  /\
  (let '(proj', _, r) := ProjectModel.updateStatus P now newPStatus preason proj d in
   r = Ok tt
   /\ Project.status_history proj'
      = Project.status_history proj
        ++ [Project.mkHistoryEntry newPStatus now preason;
            Project.mkHistoryEntry newPStatus now None]).
Proof.
  split.
  - destruct this as [i p v c tl pr cur hist neg [[sub|] lu] modif new];
    cbn in Hstored; subst new;
    unfold BidModel.updateStatus, BidModel.save, transitionTable in *;
    destruct cur, newStatus; cbn in Hvalid |- *;
      try (exfalso; intuition congruence);
      rewrite ?Hwrite; cbn; destruct modif; cbn;
      rewrite <- ?app_assoc; cbn; auto.
  - destruct proj as [i c ty me mr cur hist md modif].
    unfold ProjectModel.updateStatus, ProjectModel.save.
    cbn in Hchange |- *.
    assert (E : Project.Status_eqb cur newPStatus = false)
      by (destruct cur, newPStatus; try reflexivity; exfalso; apply Hchange; reflexivity).
    rewrite E. cbn. rewrite Hpwrite. cbn. rewrite ?E.
    destruct modif; cbn;
      unfold Project.preSave, Project.set_status_current, Project.push_status_history;
      cbn; rewrite ?E; cbn; rewrite <- ?app_assoc; cbn; auto.
Qed.

Lemma updateStatus_appends_two_history_entries_witness :
  Bid.isNew Scenario.bid1 = false
  /\ (forall b, bid_write healthy b = None)
  /\ (forall p, project_write healthy p = None)
  /\ In (Bid.status_current Scenario.bid1, Bid.IN_REVIEW) transitionTable
  /\ Project.status_current Scenario.project1 <> Project.IN_PROGRESS
  /\ List.length
       (Bid.status_history
          (fst (fst (BidModel.updateStatus healthy 20 Bid.IN_REVIEW
                       (Some "Bid under final review") Scenario.bid1 (db Scenario.world2)))))
     = (List.length (Bid.status_history Scenario.bid1) + 2)%nat.
Proof.
  assert (H1 : Bid.isNew Scenario.bid1 = false) by reflexivity.
  assert (H2 : forall b, bid_write healthy b = None) by (intros; reflexivity).
  assert (H3 : forall p, project_write healthy p = None) by (intros; reflexivity).
  assert (H4 : In (Bid.status_current Scenario.bid1, Bid.IN_REVIEW) transitionTable)
    by (vm_compute; tauto).
  assert (H5 : Project.status_current Scenario.project1 <> Project.IN_PROGRESS)
    by (vm_compute; discriminate).
  repeat (split; [assumption | ]).
  pose proof (updateStatus_appends_two_history_entries healthy 20 Bid.IN_REVIEW
                (Some "Bid under final review") Scenario.bid1 (db Scenario.world2)
                Project.IN_PROGRESS None Scenario.project1 H1 H2 H3 H4 H5) as [Hb _].
  destruct (BidModel.updateStatus healthy 20 Bid.IN_REVIEW
              (Some "Bid under final review") Scenario.bid1 (db Scenario.world2))
    as [[this' d'] r].
  destruct Hb as (_ & Hh & _). cbn [fst]. rewrite Hh.
  rewrite length_app. reflexivity.
Defined.

(** ** Eligibility *)

(** C6.  On a vendor whose years in business and average rating are not
    negative (the schema's [min: 0]), [_validateVendorEligibility] is the
    check of the design document: active status, then the service list
    unless it is empty or holds the marker for any service (the string
    [NA] in the source), then experience, then rating, each against a
    preference that counts as zero when missing, the first failure deciding
    the error.  The verification flag of the vendor does not enter it. *)
Theorem validateVendorEligibility_is_Eligible
  (vendor : VendorProfile) (project : Project.t)
  (Hyears : (0 <= yearsInBusiness vendor)%Q)
  (Hrating : (0 <= ratings_average vendor)%Q) :
  BidService._validateVendorEligibility vendor project
  = eligibilityResult (Eligible "NA" vendor project)
  /\ forall flag,
       BidService._validateVendorEligibility (withVerified flag vendor) project
       = BidService._validateVendorEligibility vendor project.
Proof.
  split; [ | intros flag; reflexivity ].
  unfold BidService._validateVendorEligibility, Eligible, eligibilityResult, gtUndefined.
  destruct vendor as [vi vu vs sv yrs rt ver]; cbn in Hyears, Hrating.
  destruct project as [pi pc ty me mr cur hist md modif].
  cbn -[includesIn Qle_bool String.eqb].
  assert (Hz : forall q, (0 <= q)%Q -> Qle_bool (0 # 1) q = true)
    by (intros q Hq; apply Qle_bool_iff; exact Hq).
  destruct (String.eqb vs "active"); cbn -[includesIn Qle_bool]; [ | reflexivity ].
  destruct sv as [[ | s l] | ], me as [me | ], mr as [mr | ];
    cbn -[includesIn Qle_bool];
    rewrite ?(Hz _ Hyears), ?(Hz _ Hrating); cbn -[includesIn Qle_bool];
    repeat match goal with
           | |- context [includesIn ?a ?b] => destruct (includesIn a b); cbn -[includesIn Qle_bool]
           | |- context [Qle_bool ?a ?b] => destruct (Qle_bool a b); cbn -[includesIn Qle_bool]
           end; reflexivity.
Qed.

Lemma validateVendorEligibility_is_Eligible_witness :
  (0 <= yearsInBusiness Scenario.vendor2)%Q
  /\ (0 <= ratings_average Scenario.vendor2)%Q
  /\ BidService._validateVendorEligibility Scenario.vendor2 Scenario.demandingProject
     = throwApi 400 "Vendor does not meet minimum experience requirement".
Proof.
  assert (H1 : (0 <= yearsInBusiness Scenario.vendor2)%Q) by (vm_compute; discriminate).
  assert (H2 : (0 <= ratings_average Scenario.vendor2)%Q) by (vm_compute; discriminate).
  split; [exact H1 | split; [exact H2 | ]].
  rewrite (proj1 (validateVendorEligibility_is_Eligible
                    Scenario.vendor2 Scenario.demandingProject H1 H2)).
  reflexivity.
Defined.

(** ** Competitive analysis *)

(** C7, as stated, fails in the arithmetic the code runs on.  The
    averages are [sum / length] on binary64 values: for competing costs of
    100000, 100001 and 100001 the code computes 100000.66666666667, which
    is not their mean 300002/3. *)
Lemma average_binary64_is_not_the_mean :
  let costs := [100000; 100001; 100001]%float in
  let exact := [100000 # 1; 100001 # 1; 100001 # 1]%Q in
  Forall2 isExactly costs exact
  /\ average costs = 100000.66666666667%float
  /\ (exists a, exactValue (average costs) = Some a)
  /\ ~ isExactly (average costs) (mean exact).
Proof.
  cbv zeta. split; [ | split; [ | split ] ].
  - repeat (apply Forall2_cons; [ vm_compute; reflexivity | ]). apply Forall2_nil.
  - vm_compute. reflexivity.
  - eexists. vm_compute. reflexivity.
  - vm_compute. discriminate.
Qed.

(** C7, amended.  The bids [findCompetingBids] hands to the statistics are
    the stored bids of the same project that are pending or in review,
    without the subject bid.  Over them [_calculateBidStatistics] gives
    the averages of the costs and of the durations as [average] computes
    them, the element at index [n / 2] of the costs sorted in ascending
    order, the least and the greatest cost, and one more than their number
    as the bid count; as exact rationals the averages are the means.  With
    no competing bid every statistic is the subject bid's own cost or
    duration and the bid count is one. *)
Theorem competitive_statistics_as_specified (bid : Bid.t) (d : Db) :
  let competing := findCompetingBids (Bid.project bid) (Some (Bid._id bid)) d in
  let costs := map (fun b => Bid.total (Bid.proposedCost b)) competing in
  let durations := map (fun b => Bid.estimatedDuration_value (Bid.timeline b)) competing in
  let stats := BidService._calculateBidStatistics bid competing in
  (forall x, In x competing <-> In x (bids d) /\ competesWith bid x)
  /\ bidCount stats = (List.length competing + 1)%nat
  /\ match competing with
     | [] =>
       stats = mkStats (Bid.total (Bid.proposedCost bid)) (Bid.total (Bid.proposedCost bid))
                 (Bid.total (Bid.proposedCost bid)) (Bid.total (Bid.proposedCost bid))
                 (Bid.estimatedDuration_value (Bid.timeline bid)) 1
     | _ :: _ =>
       averageCost stats = average costs
       /\ averageDuration stats = average durations
       /\ (averageCost stats == mean costs)%Q
       /\ (exists sorted,
             Permutation sorted costs /\ Sorted Qle sorted
             /\ medianCost stats = nth (List.length costs / 2) sorted (0 # 1)%Q)
       /\ In (costRange_min stats) costs
       /\ (forall c, In c costs -> (costRange_min stats <= c)%Q)
       /\ In (costRange_max stats) costs
       /\ (forall c, In c costs -> (c <= costRange_max stats)%Q)
       /\ (averageDuration stats == mean durations)%Q
     end.
Proof.
  cbv zeta. split; [ | split ].
  - intros x. unfold findCompetingBids, competesWith.
    rewrite sortBy_In, filter_In, !Bool.andb_true_iff, Bool.negb_true_iff.
    rewrite String.eqb_eq, String.eqb_neq.
    assert (Hs : Bid.includes [Bid.PENDING; Bid.IN_REVIEW] (Bid.status_current x) = true
                 <-> Bid.status_current x = Bid.PENDING
                     \/ Bid.status_current x = Bid.IN_REVIEW)
      by (destruct (Bid.status_current x); cbn; intuition congruence).
    rewrite Hs. tauto.
  - destruct (findCompetingBids _ _ d); [ reflexivity | ].
    cbn. rewrite Nat.add_comm. reflexivity.
  - destruct (findCompetingBids _ _ d) as [ | c cs]; [ reflexivity | ].
    unfold BidService._calculateBidStatistics.
    set (costs := map (fun b => Bid.total (Bid.proposedCost b)) (c :: cs)).
    set (durations := map (fun b => Bid.estimatedDuration_value (Bid.timeline b)) (c :: cs)).
    cbn [averageCost medianCost costRange_min costRange_max averageDuration].
    unfold mean, average. cbn [divide plus zero ofLength Arith_Q].
    repeat split.
    + rewrite sumQ_fold_right. reflexivity.
    + exists (sortBy Qle_bool costs). split; [ apply sortBy_Permutation | ].
      split; [ apply sortBy_Qle_Sorted | ].
      rewrite sortBy_length. reflexivity.
    + apply (fold_Qmin_spec (map (fun b => Bid.total (Bid.proposedCost b)) cs)
               (Bid.total (Bid.proposedCost c))).
    + apply (fold_Qmin_spec (map (fun b => Bid.total (Bid.proposedCost b)) cs)
               (Bid.total (Bid.proposedCost c))).
    + apply (fold_Qmax_spec (map (fun b => Bid.total (Bid.proposedCost b)) cs)
               (Bid.total (Bid.proposedCost c))).
    + apply (fold_Qmax_spec (map (fun b => Bid.total (Bid.proposedCost b)) cs)
               (Bid.total (Bid.proposedCost c))).
    + rewrite sumQ_fold_right. reflexivity.
Qed.

(** ** Selection *)

(** C4.  When the client's profile and project are found and the bid is
    already accepted, [selectBid] returns the stored bid and project
    without an error and leaves the database, so also both histories, and
    the caches as they are, whatever the persistence layer would do to a
    write. *)
Theorem selectBid_idempotent_on_accepted
  (P : Persistence) (now : Date) (bidId projectId clientId : ObjectId) (w : World)
  (clientProfile : ClientProfile) (bid : Bid.t) (project : Project.t)
  (Hclient : ClientProfile_findByUser clientId (db w) = Some clientProfile)
  (Hbid : Bid_findById bidId (db w) = Some bid)
  (Hproject : Project_findOwned projectId (c_id clientProfile) (db w) = Some project)
  (Haccepted : Bid.status_current bid = Bid.ACCEPTED) :
  BidService.selectBid P now bidId projectId clientId w = (w, Ok (bid, project)).
Proof.
  unfold BidService.selectBid. step_service.
  rewrite Hclient. step_service. rewrite Hbid, Hproject. step_service.
  rewrite Haccepted. reflexivity.
Qed.

Lemma selectBid_idempotent_on_accepted_witness :
  exists bid project,
    ClientProfile_findByUser "u1" (db Scenario.world3) = Some Scenario.client1
    /\ Bid_findById "b1" (db Scenario.world3) = Some bid
    /\ Project_findOwned "p1" (c_id Scenario.client1) (db Scenario.world3) = Some project
    /\ Bid.status_current bid = Bid.ACCEPTED
    /\ BidService.selectBid healthy 30 "b1" "p1" "u1" Scenario.world3
       = (Scenario.world3, Ok (bid, project)).
Proof.
  destruct (Bid_findById "b1" (db Scenario.world3)) as [bid | ] eqn:Hb;
    [ | vm_compute in Hb; discriminate Hb ].
  destruct (Project_findOwned "p1" (c_id Scenario.client1) (db Scenario.world3))
    as [project | ] eqn:Hp; [ | vm_compute in Hp; discriminate Hp ].
  assert (Hc : ClientProfile_findByUser "u1" (db Scenario.world3) = Some Scenario.client1)
    by (vm_compute; reflexivity).
  assert (Ha : Bid.status_current bid = Bid.ACCEPTED)
    by (vm_compute in Hb; injection Hb as <-; reflexivity).
  exists bid, project.
  repeat (split; [ assumption || reflexivity | ]).
  exact (selectBid_idempotent_on_accepted healthy 30 "b1" "p1" "u1" Scenario.world3
           Scenario.client1 bid project Hc Hb Hp Ha).
Defined.

(** ** Submission *)

(** C3.  When a bid of the vendor on the project is stored, [submitBid]
    for the same vendor and project fails and leaves the database and the
    caches as they are, so the first bid is untouched.  A submission that
    passes the checks made before the write (project found and open,
    vendor eligible, document accepted by validation) is refused by the
    unique index on (project, vendor), and the [catch] block turns that
    into the duplicate-bid error; it does so for an error with code 11000
    and for an error named [MongoServerError] alike.  The source makes no
    check of its own before the write, so the index is the only
    detection. *)
Theorem submitBid_second_bid_conflict
  (P : Persistence) (now : Date) (newId projectId vendorId : ObjectId)
  (bidData : BidService.BidData) (w : World)
  (vendor : VendorProfile) (first : Bid.t)
  (Hvendor : VendorProfile_findByUser vendorId (db w) = Some vendor)
  (Hfirst : In first (bids (db w)))
  (Hproject : Bid.project first = projectId)
  (Hsame : Bid.vendor first = v_id vendor) :
  let (w', r) := BidService.submitBid P now newId projectId vendorId bidData w in
  isOk r = false
  /\ w' = w
  /\ (forall project,
        Project_findById projectId (db w) = Some project ->
        Project.status_current project = Project.OPEN
        \/ Project.status_current project = Project.IN_REVIEW ->
        BidService._validateVendorEligibility vendor project = Ok true ->
        bid_write P (BidService.simplifiedBidData now newId projectId vendor bidData) = None ->
        r = inl duplicateBid)
  /\ (forall n c,
        BidService.submitBid_catch (EJs (mkJsError n (Some 11000))) = duplicateBid
        /\ BidService.submitBid_catch (EJs (mkJsError "MongoServerError" c)) = duplicateBid).
Proof.
  assert (Hdup : violatesUniqueIndex
                   (Bid.preSave now
                      (BidService.simplifiedBidData now newId projectId vendor bidData))
                   (bids (db w) ++ stagedInserts startTransaction) = true).
  { apply violatesUniqueIndex_In with (first := first).
    - apply in_or_app. left. exact Hfirst.
    - destruct (preSave_keeps_identity now
                  (BidService.simplifiedBidData now newId projectId vendor bidData))
        as (_ & -> & _).
      unfold BidService.simplifiedBidData.
      destruct (BidService._calculateMilestoneDates _ _) as [[f s] c]. exact Hproject.
    - destruct (preSave_keeps_identity now
                  (BidService.simplifiedBidData now newId projectId vendor bidData))
        as (_ & _ & -> & _).
      unfold BidService.simplifiedBidData.
      destruct (BidService._calculateMilestoneDates _ _) as [[f s] c]. exact Hsame. }
  assert (Hnew : Bid.isNew
                   (Bid.preSave now
                      (BidService.simplifiedBidData now newId projectId vendor bidData))
                 = true).
  { destruct (preSave_keeps_identity now
                (BidService.simplifiedBidData now newId projectId vendor bidData))
      as (_ & _ & _ & -> & _).
    unfold BidService.simplifiedBidData.
    destruct (BidService._calculateMilestoneDates _ _) as [[f s] c]. reflexivity. }
  assert (Hcatch : forall n c,
            BidService.submitBid_catch (EJs (mkJsError n (Some 11000))) = duplicateBid
            /\ BidService.submitBid_catch (EJs (mkJsError "MongoServerError" c))
               = duplicateBid).
  { intros n c. split; [ reflexivity | ].
    destruct c as [c | ]; cbn; [ destruct (c =? 11000) | ]; reflexivity. }
  unfold BidService.submitBid. step_service. rewrite Hvendor.
  destruct (Project_findById projectId (db w)) as [project | ] eqn:Hp; step_service.
  2:{ split; [ reflexivity | split; [ reflexivity | split; [ | exact Hcatch ] ] ].
      discriminate. }
  destruct (Project.Status_eqb (Project.status_current project) Project.OPEN
            || Project.Status_eqb (Project.status_current project) Project.IN_REVIEW)
    eqn:Hopen; cbn [negb]; step_service.
  2:{ split; [ reflexivity | split; [ reflexivity | split; [ | exact Hcatch ] ] ].
      intros project' [= <-] [Hs | Hs]; rewrite Hs in Hopen; discriminate Hopen. }
  destruct (BidService._validateVendorEligibility vendor project) as [e | b] eqn:He;
    step_service.
  { split; [ reflexivity | split; [ reflexivity | split; [ | exact Hcatch ] ] ].
    intros project' [= <-] _ He'. rewrite He in He'. discriminate He'. }
  unfold BidModel.saveInSession.
  destruct (bid_write P (BidService.simplifiedBidData now newId projectId vendor bidData))
    as [e | ] eqn:Hw; step_service.
  { split; [ reflexivity | split; [ reflexivity | split; [ | exact Hcatch ] ] ].
    intros project' _ _ _ Hw'. discriminate Hw'. }
  rewrite Hnew, Hdup. step_service.
  split; [ reflexivity | split; [ reflexivity | split; [ | exact Hcatch ] ] ].
  intros; reflexivity.
Qed.

Lemma submitBid_second_bid_conflict_witness :
  VendorProfile_findByUser "uv1" (db Scenario.world2) = Some Scenario.vendor1
  /\ In Scenario.bid1 (bids (db Scenario.world2))
  /\ Bid.project Scenario.bid1 = "p1"
  /\ Bid.vendor Scenario.bid1 = v_id Scenario.vendor1
  /\ BidService.submitBid healthy 12 "b3" "p1" "uv1"
       (Scenario.request (90000 # 1)%Q) Scenario.world2
     = (Scenario.world2, inl duplicateBid).
Proof.
  assert (H1 : VendorProfile_findByUser "uv1" (db Scenario.world2) = Some Scenario.vendor1)
    by (vm_compute; reflexivity).
  assert (H2 : In Scenario.bid1 (bids (db Scenario.world2)))
    by (vm_compute; left; reflexivity).
  assert (H3 : Bid.project Scenario.bid1 = "p1") by reflexivity.
  assert (H4 : Bid.vendor Scenario.bid1 = v_id Scenario.vendor1) by reflexivity.
  repeat (split; [ assumption | ]).
  pose proof (submitBid_second_bid_conflict healthy 12 "b3" "p1" "uv1"
                (Scenario.request (90000 # 1)%Q) Scenario.world2
                Scenario.vendor1 Scenario.bid1 H1 H2 H3 H4) as H.
  destruct (BidService.submitBid healthy 12 "b3" "p1" "uv1"
              (Scenario.request (90000 # 1)%Q) Scenario.world2) as [w' r].
  destruct H as (_ & -> & Hr & _).
  rewrite (Hr Scenario.project1); [ reflexivity | vm_compute; reflexivity
                                  | left; reflexivity | vm_compute; reflexivity
                                  | reflexivity ].
Defined.

(** C1.  Two runs of [selectBid] that break the claim.
    - The write of the project is rejected after [updateStatus] has saved
      the accepted bid outside the transaction: the call fails, the bulk
      rejection and the project update are rolled back, and the database
      shows bid [b1] accepted, bid [b2] still pending and project [p1]
      still open.
    - The client of project [p1] selects bid [b4], which belongs to
      project [p2]; nothing compares the bid's project with the project
      named in the call, so [b4] is accepted; the client of [p2] then
      selects [b5], and [p2] has two accepted bids. *)
Theorem selectBid_partial_and_double_acceptance :
  (let (w, r) :=
     BidService.selectBid Scenario.rejectingProjects 20 "b1" "p1" "u1" Scenario.world2 in
   r = throwApi 500 "Error selecting bid"
   /\ map (fun b => (Bid._id b, Bid.status_current b)) (bids (db w))
      = [("b1", Bid.ACCEPTED); ("b2", Bid.PENDING)]
   /\ map (fun p => (Project._id p, Project.status_current p)) (projects (db w))
      = [("p1", Project.OPEN); ("p2", Project.OPEN)])
  /\
  (let (w1, r1) := BidService.selectBid healthy 20 "b4" "p1" "u1" Scenario.world4 in
   let (w2, r2) := BidService.selectBid healthy 30 "b5" "p2" "u2" w1 in
   isOk r1 = true /\ isOk r2 = true
   /\ map (fun b => (Bid._id b, Bid.project b)) (acceptedBids "p2" (db w2))
      = [("b4", "p2"); ("b5", "p2")]).
Proof.
  split; vm_compute; repeat split; reflexivity.
Qed.

(** ** Milestones *)

(** C8, as stated, fails: [updateBid] assigns the timeline of the patch
    without looking at its milestones, and a stored bid ends with a single
    milestone paid at 50 per cent. *)
Lemma updateBid_breaks_milestone_sum :
  allMilestonesSumTo100 (db Scenario.world2)
  /\ let (w, r) :=
       BidService.updateBid healthy 15 "b1" "uv1" Scenario.halfPaidPatch Scenario.world2 in
     isOk r = true /\ ~ allMilestonesSumTo100 (db w).
Proof.
  split.
  - unfold allMilestonesSumTo100. vm_compute bids.
    repeat constructor.
  - vm_compute BidService.updateBid. split; [ reflexivity | ].
    intros H. unfold allMilestonesSumTo100 in H. cbn [db bids] in H.
    inversion H as [ | ? ? Hhead _]. vm_compute in Hhead. discriminate Hhead.
Qed.

(** C8, amended.  If the milestone percentages of every stored bid sum to
    100, they still do after [submitBid] (whose new bid has the milestones
    30, 40 and 30), [selectBid], [rejectBid], [negotiateBid] and
    [deleteBid], whatever the persistence layer does, and after an
    [updateBid] whose patch has no timeline or a timeline whose milestones
    sum to 100. *)
Theorem milestone_sum_kept_unless_update_changes_it
  (P : Persistence) (now : Date) (w : World)
  (Hinv : allMilestonesSumTo100 (db w)) :
  (forall newId projectId vendorId bidData,
     let (w', r) := BidService.submitBid P now newId projectId vendorId bidData w in
     allMilestonesSumTo100 (db w') /\ forall b, r = Ok b -> milestonesSumTo100 b)
  /\ (forall bidId projectId clientId,
        allMilestonesSumTo100
          (db (fst (BidService.selectBid P now bidId projectId clientId w))))
  /\ (forall bidId projectId clientId reason,
        allMilestonesSumTo100
          (db (fst (BidService.rejectBid P now bidId projectId clientId reason w))))
  /\ (forall bidId negotiationData initiatorType,
        allMilestonesSumTo100
          (db (fst (BidService.negotiateBid P now bidId negotiationData initiatorType w))))
  /\ (forall bidId vendorId,
        allMilestonesSumTo100 (db (fst (BidService.deleteBid P bidId vendorId w))))
  /\ (forall bidId vendorId updateData,
        match BidService.u_timeline updateData with
        | Some tl =>
          (fold_right Qplus (0 # 1) (map Bid.paymentPercentage (Bid.milestones tl))
           == 100 # 1)%Q
        | None => True
        end ->
        allMilestonesSumTo100
          (db (fst (BidService.updateBid P now bidId vendorId updateData w)))).
Proof.
  set (Pt := fun tl : Bid.Timeline =>
               (fold_right Qplus (0 # 1) (map Bid.paymentPercentage (Bid.milestones tl))
                == 100 # 1)%Q).
  split; [ intros newId projectId vendorId bidData | ].
  { pose proof (hoare_submitBid Pt P now newId projectId vendorId bidData) as H.
    destruct (BidService.submitBid P now newId projectId vendorId bidData w) as [w' r] eqn:E.
    assert (Hnew : forall vendor,
              Pt (Bid.timeline
                    (BidService.simplifiedBidData now newId projectId vendor bidData))).
    { intros vendor. unfold Pt, BidService.simplifiedBidData.
      destruct (BidService._calculateMilestoneDates _ _) as [[f s] c]. reflexivity. }
    specialize (H Hnew w Hinv). rewrite E in H. exact H. }
  split; [ intros bidId projectId clientId | ].
  { apply (hoare_selectBid Pt P now bidId projectId clientId w Hinv). }
  split; [ intros bidId projectId clientId reason | ].
  { apply (hoare_rejectBid Pt P now bidId projectId clientId reason w Hinv). }
  split; [ intros bidId negotiationData initiatorType | ].
  { apply (hoare_negotiateBid Pt P now bidId negotiationData initiatorType w Hinv). }
  split; [ intros bidId vendorId | intros bidId vendorId updateData Hpatch ].
  { apply (hoare_deleteBid Pt P bidId vendorId w Hinv). }
  apply (hoare_updateBid Pt P now bidId vendorId updateData Hpatch w Hinv).
Qed.

Lemma milestone_sum_kept_unless_update_changes_it_witness :
  allMilestonesSumTo100 (db Scenario.world2)
  /\ allMilestonesSumTo100
       (db (fst (BidService.selectBid healthy 20 "b1" "p1" "u1" Scenario.world2))).
Proof.
  assert (H : allMilestonesSumTo100 (db Scenario.world2))
    by (unfold allMilestonesSumTo100; vm_compute bids; repeat constructor).
  split; [ exact H | ].
  apply (milestone_sum_kept_unless_update_changes_it healthy 20 Scenario.world2 H).
Defined.

(** ** Cache invalidation *)

(** C9.  [rejectBid], [updateBid], [negotiateBid], [submitBid] and the
    project service's [deleteProject] leave both caches of the bid service
    exactly as they were, whatever their arguments; only [selectBid] and
    [deleteBid] call [_clearProjectBidCaches].  So the competitive
    analysis of [b1] that was cached before [rejectBid] rejects the other
    bid of the project, [b2], still counts [b2] as a competitor when it is
    read again, where an analysis computed from the database counts the
    bid alone. *)
Theorem rejectBid_leaves_caches_stale :
  (forall P now bidId projectId clientId reason w,
     let w' := fst (BidService.rejectBid P now bidId projectId clientId reason w) in
     bidCache w' = bidCache w /\ projectBidsCache w' = projectBidsCache w)
  /\ (forall P now bidId vendorId updateData w,
        let w' := fst (BidService.updateBid P now bidId vendorId updateData w) in
        bidCache w' = bidCache w /\ projectBidsCache w' = projectBidsCache w)
  /\ (forall P now bidId negotiationData initiatorType w,
        let w' := fst (BidService.negotiateBid P now bidId negotiationData initiatorType w) in
        bidCache w' = bidCache w /\ projectBidsCache w' = projectBidsCache w)
  /\ (forall P now newId projectId vendorId bidData w,
        let w' := fst (BidService.submitBid P now newId projectId vendorId bidData w) in
        bidCache w' = bidCache w /\ projectBidsCache w' = projectBidsCache w)
  /\ (forall P projectId clientId w,
        let w' := fst (ProjectService.deleteProject P projectId clientId w) in
        bidCache w' = bidCache w /\ projectBidsCache w' = projectBidsCache w)
  /\ (let w2 := fst (BidService.getCompetitiveAnalysis 12 "b1" Scenario.world2) in
      let (w3, rejected) := BidService.rejectBid healthy 13 "b2" "p1" "u1" None w2 in
      let (_, analysed) := BidService.getCompetitiveAnalysis 14 "b1" w3 in
      let (_, computed) :=
        BidService.getCompetitiveAnalysis 14 "b1" (BidService.new (db w3)) in
      isOk rejected = true
      /\ map (fun b => (Bid._id b, Bid.status_current b)) (bids (db w3))
         = [("b1", Bid.PENDING); ("b2", Bid.REJECTED)]
      /\ match analysed with
         | inr a => bidCount (market a) = 2%nat
         | inl _ => False
         end
      /\ match computed with
         | inr a => bidCount (market a) = 1%nat
         | inl _ => False
         end).
Proof.
  split; [ intros P now bidId projectId clientId reason w | ].
  { apply (rejectBid_caches (bidCache w) (projectBidsCache w) P now bidId projectId
             clientId reason w (conj eq_refl eq_refl)). }
  split; [ intros P now bidId vendorId updateData w | ].
  { apply (updateBid_caches (bidCache w) (projectBidsCache w) P now bidId vendorId
             updateData w (conj eq_refl eq_refl)). }
  split; [ intros P now bidId negotiationData initiatorType w | ].
  { apply (negotiateBid_caches (bidCache w) (projectBidsCache w) P now bidId
             negotiationData initiatorType w (conj eq_refl eq_refl)). }
  split; [ intros P now newId projectId vendorId bidData w | ].
  { apply (submitBid_caches (bidCache w) (projectBidsCache w) P now newId projectId
             vendorId bidData w (conj eq_refl eq_refl)). }
  split; [ intros P projectId clientId w | ].
  { apply (deleteProject_caches (bidCache w) (projectBidsCache w) P projectId clientId
             w (conj eq_refl eq_refl)). }
  vm_compute. repeat split; reflexivity.
Qed.

(** ** Cost breakdown *)

(** C10, as stated, fails in the arithmetic the code runs on: for a
    proposed cost of 100002 the three binary64 amounts add up to
    100001.99999999999. *)
Lemma costBreakdown_binary64_sum_differs :
  map Bid.category (costBreakdown (num := float) 100002%float 7)
  = ["labor"; "materials"; "overhead"]
  /\ PrimFloat.eqb (breakdownSum (costBreakdown (num := float) 100002%float 7))
                   100002%float = false.
Proof. split; vm_compute; reflexivity. Qed.

(** C10, amended.  A bid [submitBid] returns has the proposed cost of the
    request as its total and the breakdown [costBreakdown] computes: exactly
    three items, labor, materials and overhead, whose amounts are the total
    times 0.6, 0.3 and 0.1; as exact rationals they sum to the total. *)
Theorem submitBid_cost_breakdown
  (P : Persistence) (now : Date) (newId projectId vendorId : ObjectId)
  (bidData : BidService.BidData) (w : World) (bid : Bid.t)
  (Hok : snd (BidService.submitBid P now newId projectId vendorId bidData w) = Ok bid) :
  let cost := BidService.bd_proposedCost bidData in
  Bid.total (Bid.proposedCost bid) = cost
  /\ Bid.breakdown (Bid.proposedCost bid)
     = costBreakdown cost (BidService.bd_teamSize bidData)
  /\ map (fun i => (Bid.category i, Bid.amount i)) (Bid.breakdown (Bid.proposedCost bid))
     = [ ("labor", cost * (6 # 10)); ("materials", cost * (3 # 10));
         ("overhead", cost * (1 # 10)) ]%Q
  /\ (breakdownSum (Bid.breakdown (Bid.proposedCost bid)) == cost)%Q.
Proof.
  apply submitBid_Ok_inv in Hok. destruct Hok as (vendor & _ & ->).
  cbn [Bid.markSaved Bid.proposedCost].
  destruct (preSave_keeps_identity now
              (BidService.simplifiedBidData now newId projectId vendor bidData))
    as (_ & _ & _ & _ & _ & ->).
  unfold BidService.simplifiedBidData.
  destruct (BidService._calculateMilestoneDates _ _) as [[f s] c].
  cbn. repeat split. ring.
Qed.

Lemma submitBid_cost_breakdown_witness :
  exists bid,
    snd (BidService.submitBid healthy 10 "b1" "p1" "uv1"
           (Scenario.request (100000 # 1)%Q) Scenario.world0) = Ok bid
    /\ map (fun i => (Bid.category i, Bid.amount i)) (Bid.breakdown (Bid.proposedCost bid))
       = [ ("labor", (100000 # 1) * (6 # 10)); ("materials", (100000 # 1) * (3 # 10));
           ("overhead", (100000 # 1) * (1 # 10)) ]%Q.
Proof.
  exists Scenario.bid1.
  assert (H : snd (BidService.submitBid healthy 10 "b1" "p1" "uv1"
                     (Scenario.request (100000 # 1)%Q) Scenario.world0)
              = Ok Scenario.bid1) by (vm_compute; reflexivity).
  split; [ exact H | ].
  apply (submitBid_cost_breakdown healthy 10 "b1" "p1" "uv1"
           (Scenario.request (100000 # 1)%Q) Scenario.world0 Scenario.bid1 H).
Defined.

(** ** Further properties of the cache *)

Section CacheFacts.

Context {V : Type}.

Implicit Types (l : list (string * TTLCache.Entry V)) (e : TTLCache.Entry V).

Lemma Map_get_set_same key e l : TTLCache.Map_get key (TTLCache.Map_set key e l) = Some e.
Proof.
  induction l as [ | [k e'] l IH]; cbn.
  - rewrite String.eqb_refl. reflexivity.
  - destruct (String.eqb k key) eqn:E; cbn; rewrite E; [ reflexivity | exact IH ].
Qed.

Lemma Map_get_set_other key k e l :
  k <> key -> TTLCache.Map_get k (TTLCache.Map_set key e l) = TTLCache.Map_get k l.
Proof.
  intros Hne. induction l as [ | [k' e'] l IH]; cbn.
  - destruct (String.eqb key k) eqn:E; [ apply String.eqb_eq in E; congruence | reflexivity ].
  - destruct (String.eqb k' key) eqn:E; cbn.
    + apply String.eqb_eq in E. subst k'.
      destruct (String.eqb key k) eqn:E'; [ apply String.eqb_eq in E'; congruence | reflexivity ].
    + destruct (String.eqb k' k); [ reflexivity | exact IH ].
Qed.

Lemma Map_get_delete_same key l : TTLCache.Map_get key (TTLCache.Map_delete key l) = None.
Proof.
  unfold TTLCache.Map_delete.
  induction l as [ | [k e] l IH]; cbn; [ reflexivity | ].
  destruct (String.eqb k key) eqn:E; cbn; [ exact IH | rewrite E; exact IH ].
Qed.

Lemma Map_get_delete_other key k l :
  k <> key -> TTLCache.Map_get k (TTLCache.Map_delete key l) = TTLCache.Map_get k l.
Proof.
  intros Hne. unfold TTLCache.Map_delete.
  induction l as [ | [k' e] l IH]; cbn; [ reflexivity | ].
  destruct (String.eqb k' key) eqn:E; cbn.
  - apply String.eqb_eq in E. subst k'.
    destruct (String.eqb key k) eqn:E'; [ apply String.eqb_eq in E'; congruence | exact IH ].
  - destruct (String.eqb k' k); [ reflexivity | exact IH ].
Qed.

Lemma Map_get_None_keys key l :
  TTLCache.Map_get key l = None <-> ~ In key (map fst l).
Proof.
  induction l as [ | [k e] l IH]; cbn; [ tauto | ].
  destruct (String.eqb k key) eqn:E.
  - apply String.eqb_eq in E. split; [ discriminate | tauto ].
  - apply String.eqb_neq in E. rewrite IH. tauto.
Qed.

Lemma Map_get_In key e l :
  NoDup (map fst l) -> (TTLCache.Map_get key l = Some e <-> In (key, e) l).
Proof.
  induction l as [ | [k e'] l IH]; cbn; intros Hnd.
  - split; [ discriminate | contradiction ].
  - apply NoDup_cons_iff in Hnd. destruct Hnd as [Hnotin Hnd].
    destruct (String.eqb k key) eqn:E.
    + apply String.eqb_eq in E. subst k. split.
      * intros [= ->]. left. reflexivity.
      * intros [[= ->] | Hin]; [ reflexivity | ].
        exfalso. apply Hnotin. apply (in_map fst) in Hin. exact Hin.
    + apply String.eqb_neq in E. rewrite (IH Hnd). split; [ tauto | ].
      intros [[= -> _] | Hin]; [ congruence | exact Hin ].
Qed.

Lemma keys_Map_set key e l :
  map fst (TTLCache.Map_set key e l)
  = if includesIn (map fst l) key then map fst l else map fst l ++ [key].
Proof.
  unfold includesIn.
  induction l as [ | [k e'] l IH]; cbn; [ reflexivity | ].
  rewrite (String.eqb_sym key k).
  destruct (String.eqb k key) eqn:E; cbn; [ reflexivity | ].
  rewrite IH. destruct (existsb (String.eqb key) (map fst l)); reflexivity.
Qed.

Lemma includesIn_In (ks : list string) (key : string) :
  includesIn ks key = true <-> In key ks.
Proof.
  unfold includesIn. rewrite existsb_exists. split.
  - intros (x & Hx & E). apply String.eqb_eq in E. subst x. exact Hx.
  - intros H. exists key. split; [ exact H | apply String.eqb_refl ].
Qed.

Lemma NoDup_Map_set key e l : NoDup (map fst l) -> NoDup (map fst (TTLCache.Map_set key e l)).
Proof.
  intros Hnd. rewrite keys_Map_set.
  destruct (includesIn (map fst l) key) eqn:E; [ exact Hnd | ].
  apply NoDup_app; [ exact Hnd | constructor; [ intros [] | constructor ] | ].
  intros a Ha [<- | []].
  apply includesIn_In in Ha. congruence.
Qed.

Lemma length_Map_set key e l :
  List.length (TTLCache.Map_set key e l)
  = if includesIn (map fst l) key then List.length l else S (List.length l).
Proof.
  rewrite <- (length_map fst (TTLCache.Map_set key e l)), keys_Map_set.
  destruct (includesIn (map fst l) key); [ apply length_map | ].
  rewrite length_app, length_map. cbn. lia.
Qed.

Lemma keys_Map_delete key l :
  map fst (TTLCache.Map_delete key l) = filter (fun k => negb (String.eqb k key)) (map fst l).
Proof.
  unfold TTLCache.Map_delete.
  induction l as [ | [k e] l IH]; cbn; [ reflexivity | ].
  destruct (String.eqb k key); cbn; rewrite IH; reflexivity.
Qed.

Lemma NoDup_Map_delete key l : NoDup (map fst l) -> NoDup (map fst (TTLCache.Map_delete key l)).
Proof. intros H. rewrite keys_Map_delete. apply NoDup_filter, H. Qed.

Lemma Map_delete_fresh key l : ~ In key (map fst l) -> TTLCache.Map_delete key l = l.
Proof.
  unfold TTLCache.Map_delete.
  induction l as [ | [k e] l IH]; cbn; intros H; [ reflexivity | ].
  destruct (String.eqb k key) eqn:E.
  - apply String.eqb_eq in E. tauto.
  - cbn. rewrite IH; tauto.
Qed.

End CacheFacts.

Lemma TTLCache_get_set_same {V : Type} (now now' : Date) (key : string) (v : V)
  (c : TTLCache.t V) :
  let c' := TTLCache.set now key v c in
  (now' <= now + TTLCache.ttl c -> TTLCache.get now' key c' = (c', Some v))
  /\ (now + TTLCache.ttl c < now' -> snd (TTLCache.get now' key c') = None).
Proof.
  cbv zeta. unfold TTLCache.get, TTLCache.set, TTLCache.with_cache.
  cbn [TTLCache.cache TTLCache.ttl TTLCache.maxSize].
  rewrite Map_get_set_same. cbn [TTLCache.expiresAt TTLCache.value].
  split; intros H.
  - destruct (now + TTLCache.ttl c <? now') eqn:E; [ apply Z.ltb_lt in E; lia | reflexivity ].
  - apply Z.ltb_lt in H. rewrite H. reflexivity.
Qed.

(** X1.  A value written with [set] is read back under its key until its time to
    live has passed, and the read leaves the cache as it is; a read after
    that answers nothing and removes the key.  While the cache has room,
    the write does not change what any other key reads. *)
Theorem TTLCache_get_after_set {V : Type} (now now' : Date) (key : string) (v : V)
  (c : TTLCache.t V) :
  let c' := TTLCache.set now key v c in
  (now' <= now + TTLCache.ttl c -> TTLCache.get now' key c' = (c', Some v))
  /\ (now + TTLCache.ttl c < now' ->
      snd (TTLCache.get now' key c') = None
      /\ ~ In key (TTLCache.keys (fst (TTLCache.get now' key c'))))
  /\ ((TTLCache.size c < TTLCache.maxSize c)%nat ->
      forall k, k <> key ->
        snd (TTLCache.get now' k c') = snd (TTLCache.get now' k c)).
Proof.
  cbv zeta. unfold TTLCache.get, TTLCache.set, TTLCache.with_cache, TTLCache.keys, TTLCache.size.
  cbn [TTLCache.cache TTLCache.ttl TTLCache.maxSize].
  split; [ | split ].
  - intros Hle. rewrite Map_get_set_same. cbn [TTLCache.expiresAt TTLCache.value].
    destruct (now + TTLCache.ttl c <? now') eqn:E; [ apply Z.ltb_lt in E; lia | reflexivity ].
  - intros Hlt. rewrite Map_get_set_same. cbn [TTLCache.expiresAt TTLCache.value].
    apply Z.ltb_lt in Hlt. rewrite Hlt. cbn [fst snd TTLCache.cache].
    split; [ reflexivity | ].
    apply Map_get_None_keys, Map_get_delete_same.
  - intros Hroom k Hne.
    destruct (Nat.leb_spec (TTLCache.maxSize c) (List.length (TTLCache.cache c))) as [H | _];
      [ lia | ].
    rewrite (Map_get_set_other _ _ _ _ Hne).
    destruct (TTLCache.Map_get k (TTLCache.cache c)) as [e | ]; [ | reflexivity ].
    destruct (TTLCache.expiresAt e <? now'); reflexivity.
Qed.

(** X2.  A cache with a positive [maxSize] that holds no key twice and at most
    [maxSize] entries stays so under [set], [get], [delete] and
    [cleanup]: the cache never grows beyond its bound. *)
Theorem TTLCache_keeps_wellFormed {V : Type} (now : Date) (key : string) (v : V)
  (c : TTLCache.t V)
  (Hmax : (0 < TTLCache.maxSize c)%nat)
  (Hwf : wellFormedCache c) :
  wellFormedCache (TTLCache.set now key v c)
  /\ wellFormedCache (fst (TTLCache.get now key c))
  /\ wellFormedCache (TTLCache.delete key c)
  /\ wellFormedCache (TTLCache.cleanup now c).
Proof.
  destruct Hwf as [Hnd Hsize].
  unfold wellFormedCache, TTLCache.keys, TTLCache.size in *.
  assert (Hdel : forall k,
            NoDup (map fst (TTLCache.Map_delete k (TTLCache.cache c)))
            /\ (List.length (TTLCache.Map_delete k (TTLCache.cache c))
                <= TTLCache.maxSize c)%nat).
  { intros k. split; [ apply NoDup_Map_delete, Hnd | ].
    unfold TTLCache.Map_delete.
    pose proof (filter_length_le (fun ke => negb (String.eqb (fst ke) k)) (TTLCache.cache c)).
    lia. }
  split; [ | split; [ | split ] ].
  - unfold TTLCache.set, TTLCache.with_cache. cbn [TTLCache.cache TTLCache.maxSize].
    destruct (Nat.leb_spec (TTLCache.maxSize c) (List.length (TTLCache.cache c))) as [Hfull | Hroom].
    + destruct (TTLCache.cache c) as [ | [firstKey e0] rest] eqn:Ec; [ cbn in Hfull; lia | ].
      split; [ apply NoDup_Map_set, NoDup_Map_delete, Hnd | ].
      rewrite ?Ec in *.
      rewrite length_Map_set.
      assert (Hlen : (List.length (TTLCache.Map_delete firstKey ((firstKey, e0) :: rest))
                      <= List.length rest)%nat).
      { unfold TTLCache.Map_delete. cbn [filter fst]. rewrite String.eqb_refl. cbn [negb].
        apply filter_length_le. }
      cbn [List.length] in Hsize.
      destruct (includesIn _ key); lia.
    + split; [ apply NoDup_Map_set, Hnd | ].
      rewrite length_Map_set. destruct (includesIn _ key); lia.
  - unfold TTLCache.get.
    destruct (TTLCache.Map_get key (TTLCache.cache c)) as [e | ]; [ | split; assumption ].
    destruct (TTLCache.expiresAt e <? now); [ | split; assumption ].
    cbn [fst TTLCache.with_cache TTLCache.cache TTLCache.maxSize]. apply Hdel.
  - unfold TTLCache.delete. cbn [TTLCache.with_cache TTLCache.cache TTLCache.maxSize].
    apply Hdel.
  - unfold TTLCache.cleanup. cbn [TTLCache.with_cache TTLCache.cache TTLCache.maxSize].
    split.
    + apply NoDup_map_filter, Hnd.
    + pose proof (filter_length_le (fun ke : string * TTLCache.Entry V =>
                                      negb (TTLCache.expiresAt (snd ke) <? now))
                                   (TTLCache.cache c)).
      lia.
Qed.

Lemma TTLCache_keeps_wellFormed_witness :
  let c := TTLCache.set 10 "b" 2 (TTLCache.set 5 "a" 1 (TTLCache.new 100 2)) in
  (0 < TTLCache.maxSize c)%nat
  /\ wellFormedCache (TTLCache.set 20 "c" 3 c)
  /\ TTLCache.keys (TTLCache.set 20 "c" 3 c) = ["b"; "c"].
Proof.
  cbv zeta.
  set (c := TTLCache.set 10 "b" 2 (TTLCache.set 5 "a" 1 (TTLCache.new 100 2))).
  assert (Hmax : (0 < TTLCache.maxSize c)%nat) by (cbn; lia).
  assert (Hwf : wellFormedCache c).
  { split; [ | cbn; lia ].
    cbn. repeat constructor; cbn; intuition discriminate. }
  split; [ exact Hmax | ].
  split; [ | reflexivity ].
  exact (proj1 (TTLCache_keeps_wellFormed 20 "c" 3 c Hmax Hwf)).
Defined.

(** X3.  A [set] on a full cache first evicts the oldest key and then writes:
    the keys afterwards are the remaining ones followed by the written
    key, unless it is among them already.  The eviction also happens when
    the written key is itself in the cache, so an overwrite in a full
    cache costs the oldest entry; every key other than the two reads as
    before. *)
Theorem TTLCache_set_on_full_cache {V : Type} (now : Date) (key : string) (v : V)
  (c : TTLCache.t V) (firstKey : string) (firstEntry : TTLCache.Entry V)
  (rest : list (string * TTLCache.Entry V))
  (Hcache : TTLCache.cache c = (firstKey, firstEntry) :: rest)
  (Hfull : (TTLCache.maxSize c <= TTLCache.size c)%nat)
  (Hnd : NoDup (TTLCache.keys c)) :
  let c' := TTLCache.set now key v c in
  TTLCache.keys c'
  = (if includesIn (map fst rest) key then map fst rest else map fst rest ++ [key])
  /\ (firstKey <> key -> TTLCache.Map_get firstKey (TTLCache.cache c') = None)
  /\ TTLCache.Map_get key (TTLCache.cache c')
     = Some (TTLCache.mkEntry v (now + TTLCache.ttl c))
  /\ (forall k, k <> key -> k <> firstKey ->
        TTLCache.Map_get k (TTLCache.cache c') = TTLCache.Map_get k (TTLCache.cache c)).
Proof.
  cbv zeta. unfold TTLCache.keys, TTLCache.size in *.
  unfold TTLCache.set, TTLCache.with_cache. cbn [TTLCache.cache].
  destruct (Nat.leb_spec (TTLCache.maxSize c) (List.length (TTLCache.cache c))) as [_ | H];
    [ | lia ].
  rewrite Hcache in *. cbn [map fst] in Hnd.
  apply NoDup_cons_iff in Hnd. destruct Hnd as [Hnotin Hnd].
  assert (Hdel : TTLCache.Map_delete firstKey ((firstKey, firstEntry) :: rest) = rest).
  { unfold TTLCache.Map_delete. cbn [filter fst]. rewrite String.eqb_refl. cbn [negb].
    apply (Map_delete_fresh firstKey rest Hnotin). }
  rewrite Hdel.
  split; [ apply keys_Map_set | ].
  split; [ | split ].
  - intros Hne. rewrite (Map_get_set_other _ _ _ _ Hne).
    apply Map_get_None_keys, Hnotin.
  - apply Map_get_set_same.
  - intros k Hk Hk'. rewrite (Map_get_set_other _ _ _ _ Hk). cbn [TTLCache.Map_get].
    destruct (String.eqb firstKey k) eqn:E; [ apply String.eqb_eq in E; congruence | ].
    reflexivity.
Qed.

Lemma TTLCache_set_on_full_cache_witness :
  let c := TTLCache.set 10 "b" 2 (TTLCache.set 5 "a" 1 (TTLCache.new 100 2)) in
  TTLCache.cache c = [("a", TTLCache.mkEntry 1 105); ("b", TTLCache.mkEntry 2 110)]
  /\ (TTLCache.maxSize c <= TTLCache.size c)%nat
  /\ NoDup (TTLCache.keys c)
  /\ TTLCache.keys (TTLCache.set 20 "b" 3 c) = ["b"].
Proof.
  cbv zeta.
  set (c := TTLCache.set 10 "b" 2 (TTLCache.set 5 "a" 1 (TTLCache.new 100 2))).
  assert (Hcache : TTLCache.cache c
                   = [("a", TTLCache.mkEntry 1 105); ("b", TTLCache.mkEntry 2 110)])
    by reflexivity.
  assert (Hfull : (TTLCache.maxSize c <= TTLCache.size c)%nat) by (cbn; lia).
  assert (Hnd : NoDup (TTLCache.keys c))
    by (cbn; repeat constructor; cbn; intuition discriminate).
  split; [ exact Hcache | split; [ exact Hfull | split; [ exact Hnd | ] ] ].
  exact (proj1 (TTLCache_set_on_full_cache 20 "b" 3 c "a" _ _ Hcache Hfull Hnd)).
Defined.

(** X4.  [cleanup] keeps exactly the entries that have not expired; it changes
    the answer of no read, and after it a read removes nothing. *)
Theorem TTLCache_cleanup_drops_expired_only {V : Type} (now : Date) (c : TTLCache.t V)
  (Hnd : NoDup (TTLCache.keys c)) :
  let c' := TTLCache.cleanup now c in
  (forall key e, In (key, e) (TTLCache.cache c')
                 <-> In (key, e) (TTLCache.cache c) /\ now <= TTLCache.expiresAt e)
  /\ (forall key, snd (TTLCache.get now key c') = snd (TTLCache.get now key c))
  /\ (forall key, fst (TTLCache.get now key c') = c').
Proof.
  cbv zeta. unfold TTLCache.keys in Hnd.
  assert (Hin : forall key e,
            In (key, e) (TTLCache.cache (TTLCache.cleanup now c))
            <-> In (key, e) (TTLCache.cache c) /\ now <= TTLCache.expiresAt e).
  { intros key e. unfold TTLCache.cleanup. cbn [TTLCache.with_cache TTLCache.cache].
    rewrite filter_In. cbn [snd]. rewrite Bool.negb_true_iff, Z.ltb_ge. reflexivity. }
  assert (Hnd' : NoDup (map fst (TTLCache.cache (TTLCache.cleanup now c)))).
  { unfold TTLCache.cleanup. cbn [TTLCache.with_cache TTLCache.cache].
    apply NoDup_map_filter, Hnd. }
  assert (Hget : forall key,
            TTLCache.Map_get key (TTLCache.cache (TTLCache.cleanup now c))
            = match TTLCache.Map_get key (TTLCache.cache c) with
              | Some e => if TTLCache.expiresAt e <? now then None else Some e
              | None => None
              end).
  { intros key.
    destruct (TTLCache.Map_get key (TTLCache.cache c)) as [e | ] eqn:G.
    - apply (Map_get_In key e _ Hnd) in G.
      destruct (TTLCache.expiresAt e <? now) eqn:E.
      + apply Z.ltb_lt in E.
        destruct (TTLCache.Map_get key (TTLCache.cache (TTLCache.cleanup now c)))
          as [e' | ] eqn:G'; [ | reflexivity ].
        apply (Map_get_In key e' _ Hnd') in G'. apply Hin in G'. destruct G' as [G' Hle].
        apply (Map_get_In key e' _ Hnd) in G'. apply (Map_get_In key e _ Hnd) in G.
        assert (e' = e) by congruence. subst e'. lia.
      + apply Z.ltb_ge in E. apply (Map_get_In key e _ Hnd'). apply Hin. auto.
    - destruct (TTLCache.Map_get key (TTLCache.cache (TTLCache.cleanup now c)))
        as [e' | ] eqn:G'; [ | reflexivity ].
      apply (Map_get_In key e' _ Hnd') in G'. apply Hin in G'. destruct G' as [G' _].
      apply (Map_get_In key e' _ Hnd) in G'. congruence. }
  split; [ exact Hin | ].
  split; intros key; unfold TTLCache.get; rewrite Hget;
    destruct (TTLCache.Map_get key (TTLCache.cache c)) as [e | ]; try reflexivity;
    destruct (TTLCache.expiresAt e <? now) eqn:E; try reflexivity;
    rewrite E; reflexivity.
Qed.

Lemma TTLCache_cleanup_drops_expired_only_witness :
  let c := TTLCache.set 10 "b" 2 (TTLCache.set 5 "a" 1 (TTLCache.new 100 2)) in
  NoDup (TTLCache.keys c)
  /\ TTLCache.keys (TTLCache.cleanup 106 c) = ["b"]
  /\ forall key, fst (TTLCache.get 106 key (TTLCache.cleanup 106 c)) = TTLCache.cleanup 106 c.
Proof.
  cbv zeta.
  set (c := TTLCache.set 10 "b" 2 (TTLCache.set 5 "a" 1 (TTLCache.new 100 2))).
  assert (Hnd : NoDup (TTLCache.keys c))
    by (cbn; repeat constructor; cbn; intuition discriminate).
  split; [ exact Hnd | ].
  split; [ reflexivity | ].
  exact (proj2 (proj2 (TTLCache_cleanup_drops_expired_only 106 c Hnd))).
Defined.

(** ** Text *)

Lemma removeAngleBrackets_clean (s : string) (c : ascii) :
  In c (list_ascii_of_string (removeAngleBrackets s)) ->
  In c (list_ascii_of_string s) /\ c <> "<"%char /\ c <> ">"%char.
Proof.
  induction s as [ | a s IH]; cbn; [ contradiction | ].
  destruct (Ascii.eqb a "<") eqn:E1; cbn.
  - intros H. destruct (IH H) as (H1 & H2). auto.
  - destruct (Ascii.eqb a ">") eqn:E2; cbn.
    + intros H. destruct (IH H) as (H1 & H2). auto.
    + intros [<- | H].
      * apply Ascii.eqb_neq in E1, E2. auto.
      * destruct (IH H) as (H1 & H2). auto.
Qed.

Lemma removeAngleBrackets_fixed (s : string) :
  ~ In "<"%char (list_ascii_of_string s) ->
  ~ In ">"%char (list_ascii_of_string s) ->
  removeAngleBrackets s = s.
Proof.
  induction s as [ | a s IH]; cbn; intros H1 H2; [ reflexivity | ].
  destruct (Ascii.eqb a "<") eqn:E1; [ apply Ascii.eqb_eq in E1; tauto | ].
  destruct (Ascii.eqb a ">") eqn:E2; [ apply Ascii.eqb_eq in E2; tauto | ].
  cbn. rewrite IH; tauto.
Qed.

Lemma trimStart_In (s : string) (c : ascii) :
  In c (list_ascii_of_string (trimStart s)) -> In c (list_ascii_of_string s).
Proof.
  induction s as [ | a s IH]; cbn; [ tauto | ].
  destruct (isWhiteSpace a); cbn; tauto.
Qed.

Lemma trimEnd_In (s : string) (c : ascii) :
  In c (list_ascii_of_string (trimEnd s)) -> In c (list_ascii_of_string s).
Proof.
  induction s as [ | a s IH]; cbn; [ tauto | ].
  destruct (trimEnd s) as [ | b t]; cbn in *.
  - destruct (isWhiteSpace a); cbn; tauto.
  - tauto.
Qed.

Lemma trimEnd_cons (a : ascii) (s : string) :
  trimEnd (String a s)
  = match trimEnd s with
    | EmptyString => if isWhiteSpace a then EmptyString else String a EmptyString
    | t => String a t
    end.
Proof. reflexivity. Qed.

Lemma trimEnd_idempotent (s : string) : trimEnd (trimEnd s) = trimEnd s.
Proof.
  induction s as [ | a s IH]; [ reflexivity | ].
  rewrite trimEnd_cons.
  destruct (trimEnd s) as [ | b t] eqn:E.
  - destruct (isWhiteSpace a) eqn:W; [ reflexivity | ].
    rewrite trimEnd_cons. cbn [trimEnd]. rewrite W. reflexivity.
  - rewrite trimEnd_cons, IH. reflexivity.
Qed.

Lemma trimStart_startsClean (s : string) : startsClean (trimStart s).
Proof.
  induction s as [ | a s IH]; cbn; [ exact I | ].
  destruct (isWhiteSpace a) eqn:W; [ exact IH | exact W ].
Qed.

Lemma trimStart_fixed (s : string) : startsClean s -> trimStart s = s.
Proof. destruct s as [ | a s]; cbn; [ reflexivity | intros ->; reflexivity ]. Qed.

Lemma trimEnd_startsClean (s : string) : startsClean s -> startsClean (trimEnd s).
Proof.
  destruct s as [ | a s]; cbn; [ tauto | ]. intros W.
  destruct (trimEnd s); [ rewrite W | ]; exact W.
Qed.

Lemma trim_fixed (s : string) :
  trimStart (trim s) = trim s /\ trimEnd (trim s) = trim s.
Proof.
  unfold trim. split.
  - apply trimStart_fixed, trimEnd_startsClean, trimStart_startsClean.
  - apply trimEnd_idempotent.
Qed.

Lemma trimEnd_endsClean (s : string) : endsClean (trimEnd s).
Proof.
  induction s as [ | a s IH]; [ exact I | ].
  rewrite trimEnd_cons.
  destruct (trimEnd s) as [ | b t].
  - destruct (isWhiteSpace a) eqn:W; [ exact I | exact W ].
  - exact IH.
Qed.

Lemma endsClean_trimEnd_fixed (s : string) : endsClean s -> trimEnd s = s.
Proof.
  induction s as [ | a s IH]; [ reflexivity | ].
  intros H. rewrite trimEnd_cons.
  destruct s as [ | b t].
  - cbn in H |- *. rewrite H. reflexivity.
  - rewrite (IH H). reflexivity.
Qed.

(** X5.  For a text whose code units are below 256: a sanitized text holds
    neither [<] nor [>] and neither begins nor ends with white space,
    which is a tab, a line feed, a vertical tab, a form feed, a carriage
    return, a space or a no-break space; sanitizing twice is sanitizing
    once; and only a missing text is answered by a missing text. *)
Theorem sanitizeText_strips_and_settles (text : option string) :
  (forall s, sanitizeText text = Some s ->
     ~ In "<"%char (list_ascii_of_string s)
     /\ ~ In ">"%char (list_ascii_of_string s)
     /\ startsClean s /\ endsClean s)
  /\ (forall c, isWhiteSpace c = true
                <-> In (nat_of_ascii c) [9; 10; 11; 12; 13; 32; 160]%nat)
  /\ sanitizeText (sanitizeText text) = sanitizeText text
  /\ (sanitizeText text = None <-> text = None).
Proof.
  assert (Hclean : forall t c,
            In c (list_ascii_of_string (trim (removeAngleBrackets t))) ->
            c <> "<"%char /\ c <> ">"%char).
  { intros t c H. unfold trim in H. apply trimEnd_In, trimStart_In in H.
    apply removeAngleBrackets_clean in H. tauto. }
  assert (Hfirst : forall s, sanitizeText text = Some s ->
            ~ In "<"%char (list_ascii_of_string s)
            /\ ~ In ">"%char (list_ascii_of_string s)
            /\ startsClean s /\ endsClean s).
  { intros s H. destruct text as [[ | a t] | ]; cbn [sanitizeText] in H; try discriminate H.
    - injection H as <-. cbn. tauto.
    - injection H as <-.
      split; [ intros Hin; apply (Hclean (String a t)) in Hin; tauto | ].
      split; [ intros Hin; apply (Hclean (String a t)) in Hin; tauto | ].
      unfold trim. split.
      + apply trimEnd_startsClean, trimStart_startsClean.
      + apply trimEnd_endsClean. }
  split; [ exact Hfirst | ]. split; [ | split ].
  - intros c. unfold isWhiteSpace.
    pose proof (nat_ascii_bounded c) as Hc.
    set (n := nat_of_ascii c) in *. cbn [In].
    rewrite !Bool.orb_true_iff, Bool.andb_true_iff, !Nat.leb_le, !Nat.eqb_eq. lia.
  - destruct (sanitizeText text) as [s | ] eqn:E; [ | reflexivity ].
    destruct (Hfirst s eq_refl) as (H1 & H2 & H3 & H4).
    destruct s as [ | a s]; [ reflexivity | ].
    cbn [sanitizeText]. rewrite (removeAngleBrackets_fixed _ H1 H2).
    unfold trim. rewrite (trimStart_fixed _ H3), (endsClean_trimEnd_fixed _ H4). reflexivity.
  - destruct text as [[ | a t] | ]; cbn; split; intros H; try discriminate H; reflexivity.
Qed.

(** ** Pagination *)

Lemma leading_range (fuel : nat) (v p : Z) :
  1 <= v < 2 ^ (Z.of_nat fuel + 1) -> 1 <= fst (leading fuel v p) <= 9.
Proof.
  revert v p. induction fuel as [ | fuel IH]; intros v p Hv.
  - cbn in Hv |- *. lia.
  - cbn [leading]. destruct (Z.ltb_spec v 10) as [Hlt | Hge]; [ cbn; lia | ].
    apply IH. split.
    + apply Z.div_le_lower_bound; lia.
    + apply Z.div_lt_upper_bound; [ lia | ].
      replace (Z.of_nat (S fuel) + 1) with (Z.succ (Z.of_nat fuel + 1)) in Hv by lia.
      rewrite Z.pow_succ_r in Hv by lia. lia.
Qed.

Lemma leadingDigit_range (v : Z) : 1 <= v -> 1 <= leadingDigit v <= 9.
Proof.
  intros Hv. unfold leadingDigit.
  pose proof (leading_range (Z.to_nat (Z.log2 v)) v 1) as H.
  destruct (leading (Z.to_nat (Z.log2 v)) v 1) as [d p]. cbn [fst] in H.
  assert (Hd : 1 <= d <= 9).
  { apply H. split; [ exact Hv | ].
    rewrite Z2Nat.id by apply Z.log2_nonneg.
    replace (Z.log2 v + 1) with (Z.succ (Z.log2 v)) by lia.
    apply Z.log2_spec. lia. }
  destruct (if Z.even _ then _ else _); [ | exact Hd ].
  destruct (Z.eqb_spec d 9); lia.
Qed.

Lemma parseInt_cases (x : Z) :
  (Z.abs x < 10 ^ 21 /\ parseInt x = x)
  \/ (10 ^ 21 <= x /\ 1 <= parseInt x <= 9)
  \/ (x <= - 10 ^ 21 /\ -9 <= parseInt x <= -1).
Proof.
  unfold parseInt.
  destruct (Z.ltb_spec (Z.abs x) (10 ^ 21)) as [Hlt | Hge]; [ left; auto | ].
  assert (H21 : 0 < 10 ^ 21) by reflexivity.
  pose proof (leadingDigit_range (Z.abs x) ltac:(lia)) as Hd.
  destruct (Z.abs_spec x) as [[Hx E] | [Hx E]]; rewrite E in *.
  - right. left. rewrite Z.sgn_pos by lia. lia.
  - right. right. rewrite Z.sgn_neg by lia. lia.
Qed.

(** X6.  The validated page is at least 1 and the validated limit is
    between 1 and 100, whatever integer Number is asked for.  Below 10^21
    a page of at least 1 is kept and any other becomes 1; a limit between
    1 and 100 is kept, a greater one becomes 100, a negative one 1, and a
    missing one or 0 becomes 20.  From 10^21 on [parseInt] reads only the
    first digit of the exponent notation: the page and the limit are then
    between 1 and 9, and 10^21 itself gives page 1 and limit 1. *)
Theorem validatePagination_bounds (page limit : option Z) :
  let '(p, l) := BidService.validatePagination page limit in
  1 <= p /\ 1 <= l <= 100
  /\ (forall x, page = Some x -> 1 <= x < 10 ^ 21 -> p = x)
  /\ (forall x, page = Some x -> x <= 0 -> p = 1)
  /\ (forall x, page = Some x -> 10 ^ 21 <= x -> 1 <= p <= 9)
  /\ (page = None -> p = 1)
  /\ (forall x, limit = Some x -> 1 <= x <= 100 -> l = x)
  /\ (forall x, limit = Some x -> 100 < x < 10 ^ 21 -> l = 100)
  /\ (forall x, limit = Some x -> 10 ^ 21 <= x -> 1 <= l <= 9)
  /\ (forall x, limit = Some x -> x < 0 -> l = 1)
  /\ (limit = None \/ limit = Some 0 -> l = 20)
  /\ BidService.validatePagination (Some (10 ^ 21)) (Some (10 ^ 21)) = (1, 1).
Proof.
  assert (Hlast : BidService.validatePagination (Some (10 ^ 21)) (Some (10 ^ 21)) = (1, 1))
    by (vm_compute; reflexivity).
  revert Hlast.
  generalize (BidService.validatePagination (Some (10 ^ 21)) (Some (10 ^ 21))).
  intros last Hlast.
  unfold BidService.validatePagination, DEFAULT_PAGE, MAX_LIMIT, DEFAULT_LIMIT.
  assert (Hx : forall x, (Z.abs x < 1000000000000000000000 /\ parseInt x = x)
                         \/ (1000000000000000000000 <= x /\ 1 <= parseInt x <= 9)
                         \/ (x <= - 1000000000000000000000 /\ -9 <= parseInt x <= -1))
    by exact parseInt_cases.
  change (10 ^ 21) with 1000000000000000000000.
  destruct page as [x | ], limit as [y | ]; cbn [option_map];
    try (pose proof (Hx x) as Hpx; revert Hpx; generalize (parseInt x); intros px Hpx);
    try (pose proof (Hx y) as Hpy; revert Hpy; generalize (parseInt y); intros py Hpy);
    clear Hx;
    try destruct (Z.eqb_spec px 0); try destruct (Z.eqb_spec py 0);
    (split; [ lia | ]); (split; [ lia | ]);
    repeat (split; [ intros;
                     repeat match goal with
                            | H : Some _ = Some _ |- _ => injection H as H
                            | H : None = Some _ |- _ => discriminate H
                            | H : Some _ = None |- _ => discriminate H
                            | H : _ \/ _ |- _ => destruct H
                            end; try discriminate; lia | ]);
    exact Hlast.
Qed.

(** ** The team *)

(** X8.  The team [submitBid] builds for an integer [bidData.teamSize] is one
    project manager, supervisors and labor, each at least one.  From a
    team size of 3 the three counts add up to the team size; below it the
    team still has three people; and for a positive team size there is one
    supervisor for every five people, rounded up. *)
Theorem teamComposition_headcount (teamSize : Z) :
  let team := BidService.teamComposition teamSize in
  let headcount := fold_right Z.add 0 (map BidService.count team) in
  map BidService.role team = ["project_manager"; "supervisor"; "labor"]
  /\ Forall (fun m => 1 <= BidService.count m) team
  /\ (3 <= teamSize -> headcount = teamSize)
  /\ (teamSize <= 2 -> headcount = 3)
  /\ (1 <= teamSize ->
      exists supervisors labor,
        map BidService.count team = [1; supervisors; labor]
        /\ 5 * (supervisors - 1) < teamSize <= 5 * supervisors).
Proof.
  cbv zeta. unfold BidService.teamComposition, BidService.ceilDiv, BidService.SUPERVISOR_RATIO.
  cbn [map fold_right BidService.count BidService.role].
  pose proof (Z.div_mod (- teamSize) 5 ltac:(lia)) as Hdiv.
  pose proof (Z.mod_pos_bound (- teamSize) 5 ltac:(lia)) as Hmod.
  set (q := - teamSize / 5) in *.
  split; [ reflexivity | ].
  split; [ repeat (apply Forall_cons; [ cbn [BidService.count]; lia | ]); apply Forall_nil | ].
  split; [ lia | ].
  split; [ lia | ].
  intros Hpos. do 2 eexists. split; [ reflexivity | lia ].
Qed.

(** ** The answer of the selection endpoint *)

Lemma save_status_current (P : Persistence) (now : Date) (this : Bid.t) (d : Db) :
  Bid.status_current (fst (fst (BidModel.save P now this d))) = Bid.status_current this.
Proof.
  unfold BidModel.save.
  destruct (bid_write P this); [ reflexivity | ].
  destruct (Bid.isNew (Bid.preSave now this));
    [ destruct (violatesUniqueIndex _ _) | ]; cbn; apply preSave_status_current.
Qed.

Lemma updateStatus_Ok_status (P : Persistence) (now : Date) (s : Bid.Status)
  (reason : option string) (this : Bid.t) (d : Db) :
  isOk (snd (BidModel.updateStatus P now s reason this d)) = true ->
  Bid.status_current (fst (fst (BidModel.updateStatus P now s reason this d))) = s.
Proof.
  unfold BidModel.updateStatus.
  destruct (negb (Bid.includes (Bid.validTransitions (Bid.status_current this)) s));
    [ discriminate | ].
  intros _. rewrite save_status_current. destruct this; reflexivity.
Qed.

Lemma hoare_updateStatus_status (I : World -> Prop) (P : Persistence) (now : Date)
  (s : Bid.Status) (reason : option string) (this : Bid.t) :
  (forall w d, I w -> I (with_db d w)) ->
  hoare I (onDb (BidModel.updateStatus P now s reason this))
        (fun r => Bid.status_current (fst r) = s).
Proof.
  intros Hframe w Hw. unfold onDb.
  pose proof (updateStatus_Ok_status P now s reason this (db w)) as H.
  destruct (BidModel.updateStatus P now s reason this (db w)) as [[b d'] [e | a]]; cbn in *.
  - split; [ apply Hframe, Hw | ]. intros a Ha. discriminate Ha.
  - split; [ apply Hframe, Hw | ]. intros a' [= <-]. cbn. apply H. reflexivity.
Qed.

Lemma selectBid_returns_accepted (P : Persistence) (now : Date)
  (bidId projectId clientId : ObjectId) :
  hoare anyWorld (BidService.selectBid P now bidId projectId clientId)
        (fun r => Bid.status_current (fst r) = Bid.ACCEPTED).
Proof.
  assert (Hany : forall A (c : M A), hoare anyWorld c (fun _ => True)).
  { intros A c w _. split; [ exact I | intros; exact I ]. }
  unfold BidService.selectBid. apply hoare_transaction.
  eapply hoare_bind; [ apply Hany | intros cp _ ].
  eapply hoare_bind; [ apply Hany | intros bid _ ].
  eapply hoare_bind; [ apply Hany | intros project _ ].
  destruct bid as [bid | ]; [ | apply hoare_raiseApi ].
  destruct project as [project | ]; [ | apply hoare_raiseApi ].
  destruct (Bid.Status_eqb (Bid.status_current bid) Bid.ACCEPTED) eqn:E.
  { apply hoare_ret. cbn. destruct (Bid.status_current bid); try discriminate E; reflexivity. }
  destruct (negb _ && negb _); [ apply hoare_raiseApi | ].
  destruct (negb _ && negb _); [ apply hoare_raiseApi | ].
  eapply hoare_bind; [ apply Hany | intros [bid1 u1] _ ].
  eapply hoare_bind;
    [ apply hoare_updateStatus_status; intros; exact I | intros [bid2 u2] Hb2 ].
  eapply hoare_bind; [ apply Hany | intros session _ ].
  eapply hoare_bind; [ apply Hany | intros [project' session'] _ ].
  apply hoare_ret. split; [ apply Hany | ].
  eapply hoare_bind; [ apply Hany | intros _ _ ].
  apply hoare_ret. exact Hb2.
Qed.

(** X9.  Whenever the selection endpoint answers, it answers 200 with the
    message [Bid is already accepted]: the service returns the bid in
    state ACCEPTED after a fresh selection as well, so the message
    [Bid selected successfully] is never sent. *)
Theorem selectBid_response_always_says_already_accepted
  (P : Persistence) (now : Date) (bidId projectId clientId : ObjectId) (w : World)
  (response : ApiResponse.t (Bid.t * Project.t))
  (Hresponse : snd (BidController.selectBid P now bidId projectId clientId w) = inr response) :
  ApiResponse.code response = 200
  /\ ApiResponse.message response = "Bid is already accepted"
  /\ ApiResponse.message response <> "Bid selected successfully".
Proof.
  unfold BidController.selectBid, BidController.handle in Hresponse.
  destruct (selectBid_returns_accepted P now bidId projectId clientId w I) as [_ H].
  destruct (BidService.selectBid P now bidId projectId clientId w) as [w' [e | [bid project]]];
    cbn in Hresponse; [ discriminate Hresponse | ].
  injection Hresponse as <-.
  specialize (H _ eq_refl). cbn in H. cbn. rewrite H. cbn.
  split; [ reflexivity | ]. split; [ reflexivity | discriminate ].
Qed.

Lemma selectBid_response_always_says_already_accepted_witness :
  option_map Bid.status_current (Bid_findById "b1" (db Scenario.world2)) = Some Bid.PENDING
  /\ exists response,
       snd (BidController.selectBid healthy 20 "b1" "p1" "u1" Scenario.world2) = inr response
       /\ ApiResponse.message response = "Bid is already accepted".
Proof.
  split; [ reflexivity | ].
  destruct (snd (BidController.selectBid healthy 20 "b1" "p1" "u1" Scenario.world2))
    as [e | response] eqn:E; [ vm_compute in E; discriminate E | ].
  exists response. split; [ reflexivity | ].
  exact (proj1 (proj2 (selectBid_response_always_says_already_accepted
                         healthy 20 "b1" "p1" "u1" Scenario.world2 response E))).
Defined.

(** ** Selection, end to end *)

(** X10.  The run [selectBid] is written for: the client's profile and project
    are found, the bid is stored for that project and is pending or in
    review, the project is open or in review and has no accepted bid,
    identifiers are unique and every write is accepted.  Then [selectBid]
    returns the bid, accepted, and the project, in progress; afterwards
    the bid is stored so and is the only accepted bid of the project, none
    of the project's other bids is pending or in review, the collection
    holds the same bids in the same order, and the bids of other projects
    are as they were. *)
Theorem selectBid_accepts_the_bid_and_rejects_its_rivals
  (P : Persistence) (now : Date) (bidId projectId clientId : ObjectId) (w : World)
  (clientProfile : ClientProfile) (bid : Bid.t) (project : Project.t)
  (HP : acceptsAll P)
  (Hclient : ClientProfile_findByUser clientId (db w) = Some clientProfile)
  (Hbid : Bid_findById bidId (db w) = Some bid)
  (Hproject : Project_findOwned projectId (c_id clientProfile) (db w) = Some project)
  (Hstored : Bid.isNew bid = false)
  (Hstatus : Bid.status_current bid = Bid.PENDING
             \/ Bid.status_current bid = Bid.IN_REVIEW)
  (Hpstatus : Project.status_current project = Project.OPEN
              \/ Project.status_current project = Project.IN_REVIEW)
  (Hids : NoDup (map Bid._id (bids (db w))))
  (Hbelongs : Bid.project bid = projectId)
  (Hnone : acceptedBids projectId (db w) = []) :
  exists bid' project' w',
    BidService.selectBid P now bidId projectId clientId w = (w', Ok (bid', project'))
    /\ Bid._id bid' = bidId
    /\ Bid.status_current bid' = Bid.ACCEPTED
    /\ Project._id project' = Project._id project
    /\ Project.status_current project' = Project.IN_PROGRESS
    /\ Bid_findById bidId (db w') = Some bid'
    /\ map Bid._id (acceptedBids projectId (db w')) = [bidId]
    /\ Forall (fun b => Bid.project b = projectId -> Bid._id b <> bidId ->
                        Bid.status_current b <> Bid.PENDING
                        /\ Bid.status_current b <> Bid.IN_REVIEW)
              (bids (db w'))
    /\ map Bid._id (bids (db w')) = map Bid._id (bids (db w))
    /\ (forall x, In x (bids (db w)) -> Bid.project x <> projectId -> In x (bids (db w'))).
Proof.
  pose proof (selectBid_intended_run_single_acceptance P now bidId projectId clientId w
                clientProfile bid project HP Hclient Hbid Hproject Hstored Hstatus
                Hpstatus Hids Hbelongs Hnone) as Hsingle.
  destruct (selectBid_intended_run P now bidId projectId clientId w clientProfile bid
              project HP Hclient Hbid Hproject Hstored Hstatus Hpstatus Hids)
    as (bid' & project' & E & Hi & Hp & Hs & Hpi & Hps).
  cbv zeta in Hsingle. rewrite E in Hsingle |- *. cbn [fst] in Hsingle.
  destruct Hsingle as [Hacc Hrest].
  eexists bid', project', _. split; [ reflexivity | ].
  do 4 (split; [ assumption | ]).
  cbn [db with_db bids] in *.
  set (g := fun x : Bid.t =>
              if String.eqb (Bid._id x) bidId then bid'
              else if outbid projectId bidId x then BidService.rejectUpdate now x else x)
    in *.
  assert (Hg : forall x, Bid._id (g x) = Bid._id x).
  { intros x. unfold g. destruct (String.eqb (Bid._id x) bidId) eqn:E1.
    - apply String.eqb_eq in E1. congruence.
    - destruct (outbid projectId bidId x); reflexivity. }
  split; [ | split; [ exact Hacc | split; [ exact Hrest | split ] ] ].
  - unfold Bid_findById in *. cbn [bids].
    revert Hbid. generalize (bids (db w)) as l.
    induction l as [ | x l IH]; cbn; [ discriminate | ].
    rewrite Hg. destruct (String.eqb (Bid._id x) bidId) eqn:E1.
    + intros _. unfold g. rewrite E1. reflexivity.
    + exact IH.
  - rewrite map_map. apply map_ext. exact Hg.
  - intros x Hx Hother.
    replace x with (g x) at 1; [ apply in_map, Hx | ].
    unfold g. destruct (String.eqb (Bid._id x) bidId) eqn:E1.
    + exfalso. apply String.eqb_eq in E1.
      unfold Bid_findById in Hbid. apply find_some in Hbid.
      destruct Hbid as [Hin E2]. apply String.eqb_eq in E2.
      assert (x = bid); [ | congruence ].
      eapply NoDup_map_inj; eauto. congruence.
    + unfold outbid. destruct (String.eqb (Bid.project x) projectId) eqn:E2;
        [ apply String.eqb_eq in E2; contradiction | reflexivity ].
Qed.

Lemma selectBid_accepts_the_bid_and_rejects_its_rivals_witness :
  exists bid' project' w',
    BidService.selectBid healthy 20 "b1" "p1" "u1" Scenario.world2
    = (w', Ok (bid', project'))
    /\ Bid.status_current bid' = Bid.ACCEPTED
    /\ map Bid._id (acceptedBids "p1" (db w')) = ["b1"]
    /\ map Bid._id (bids (db w')) = ["b1"; "b2"].
Proof.
  destruct (Bid_findById "b1" (db Scenario.world2)) as [bid | ] eqn:Hb;
    [ | vm_compute in Hb; discriminate Hb ].
  destruct (Project_findOwned "p1" (c_id Scenario.client1) (db Scenario.world2))
    as [project | ] eqn:Hp; [ | vm_compute in Hp; discriminate Hp ].
  assert (HP : acceptsAll healthy) by (repeat split).
  assert (Hc : ClientProfile_findByUser "u1" (db Scenario.world2) = Some Scenario.client1)
    by (vm_compute; reflexivity).
  assert (Hstored : Bid.isNew bid = false)
    by (vm_compute in Hb; injection Hb as <-; reflexivity).
  assert (Hstatus : Bid.status_current bid = Bid.PENDING
                    \/ Bid.status_current bid = Bid.IN_REVIEW)
    by (left; vm_compute in Hb; injection Hb as <-; reflexivity).
  assert (Hpstatus : Project.status_current project = Project.OPEN
                     \/ Project.status_current project = Project.IN_REVIEW)
    by (left; vm_compute in Hp; injection Hp as <-; reflexivity).
  assert (Hids : NoDup (map Bid._id (bids (db Scenario.world2)))).
  { vm_compute. repeat constructor; cbn; intuition discriminate. }
  assert (Hbelongs : Bid.project bid = "p1")
    by (vm_compute in Hb; injection Hb as <-; reflexivity).
  assert (Hnone : acceptedBids "p1" (db Scenario.world2) = [])
    by (vm_compute; reflexivity).
  destruct (selectBid_accepts_the_bid_and_rejects_its_rivals healthy 20 "b1" "p1" "u1"
              Scenario.world2 Scenario.client1 bid project HP Hc Hb Hp Hstored Hstatus
              Hpstatus Hids Hbelongs Hnone)
    as (bid' & project' & w' & E & _ & Hs & _ & _ & _ & Hacc & _ & Hsame & _).
  exists bid', project', w'.
  split; [ exact E | split; [ exact Hs | split; [ exact Hacc | ] ] ].
  rewrite Hsame. vm_compute. reflexivity.
Defined.

(** ** Submission *)

Lemma violatesUniqueIndex_false (b : Bid.t) (l : list Bid.t) :
  violatesUniqueIndex b l = false
  <-> forall x, In x l -> Bid.project x = Bid.project b -> Bid.vendor x <> Bid.vendor b.
Proof.
  unfold violatesUniqueIndex. split.
  - intros H x Hx Hp Hv.
    assert (Ht : existsb (fun x0 => String.eqb (Bid.project x0) (Bid.project b)
                                    && String.eqb (Bid.vendor x0) (Bid.vendor b)) l = true).
    { apply existsb_exists. exists x. split; [ exact Hx | ].
      rewrite Hp, Hv, !String.eqb_refl. reflexivity. }
    congruence.
  - intros H. destruct (existsb _ l) eqn:E; [ | reflexivity ].
    apply existsb_exists in E. destruct E as (x & Hx & E).
    apply Bool.andb_true_iff in E. destruct E as [E1 E2].
    apply String.eqb_eq in E1, E2. exfalso. exact (H x Hx E1 E2).
Qed.

Ltac api_code := do 2 eexists; split; [ reflexivity | lia ].

Lemma submitBid_catch_EJs (e : JsError) :
  exists c m, BidService.submitBid_catch (EJs e) = EApi (mkApiError c m)
              /\ (c = 400 \/ c = 404 \/ c = 500).
Proof.
  unfold BidService.submitBid_catch.
  destruct (_ || _); [ api_code | ]. destruct (String.eqb _ _); api_code.
Qed.

(** X11.  [submitBid] succeeds exactly when the vendor's profile and the
    project are found, the project is open or in review, the vendor is
    eligible, the vendor has no bid on the project and the insert and the
    commit are accepted.  On success the database gains the returned bid
    and nothing else changes: the bid is pending, submitted now, for that
    project, and has no negotiation.  On failure the world is as before.
    A failure before the commit is an ApiError with code 400, 404 or 500.
    A refused commit is not: the [catch] block calls [abortTransaction]
    on the session that was committed, and the [MongoTransactionError] of
    that call is what [submitBid] throws. *)
Theorem submitBid_all_or_nothing
  (P : Persistence) (now : Date) (newId projectId vendorId : ObjectId)
  (bidData : BidService.BidData) (w : World) :
  let (w', r) := BidService.submitBid P now newId projectId vendorId bidData w in
  (isOk r = true <-> submittable P now newId projectId vendorId bidData (db w))
  /\ match r with
     | inr bid =>
       w' = with_db (set_bids (bids (db w) ++ [bid]) (db w)) w
       /\ Bid._id bid = newId
       /\ Bid.project bid = projectId
       /\ Bid.status_current bid = Bid.PENDING
       /\ Bid.submittedAt (Bid.metadata bid) = Some now
       /\ Bid.negotiations bid = []
     | inl e =>
       w' = w
       /\ ((exists c m, e = EApi (mkApiError c m) /\ (c = 400 \/ c = 404 \/ c = 500))
           \/ (e = EJs abortAfterCommitError
               /\ commit P <> None
               /\ submittable (committing P) now newId projectId vendorId bidData (db w)))
     end.
Proof.
  unfold BidService.submitBid, submittable. step_service.
  destruct (Project_findById projectId (db w)) as [project | ] eqn:Hp.
  2:{ step_service. cbn. split; [ | split; [ reflexivity | left; api_code ] ].
      split; [ discriminate | ]. intros (v & p & _ & H & _). discriminate H. }
  destruct (VendorProfile_findByUser vendorId (db w)) as [vendor | ] eqn:Hv.
  2:{ step_service. cbn. split; [ | split; [ reflexivity | left; api_code ] ].
      split; [ discriminate | ]. intros (v & p & H & _). discriminate H. }
  destruct (Project.Status_eqb (Project.status_current project) Project.OPEN
            || Project.Status_eqb (Project.status_current project) Project.IN_REVIEW) eqn:Hopen;
    cbn [negb].
  2:{ step_service. cbn. split; [ | split; [ reflexivity | left; api_code ] ].
      split; [ discriminate | ].
      intros (v & p & _ & [= <-] & [H | H] & _); rewrite H in Hopen; discriminate Hopen. }
  assert (Hopen' : Project.status_current project = Project.OPEN
                   \/ Project.status_current project = Project.IN_REVIEW).
  { destruct (Project.status_current project); try discriminate Hopen; auto. }
  destruct (BidService._validateVendorEligibility vendor project) as [e | ok] eqn:Hel.
  { step_service. cbn. split.
    - split; [ discriminate | ].
      intros (v & p & [= <-] & [= <-] & _ & H & _). rewrite Hel in H. discriminate H.
    - split; [ reflexivity | ].
      unfold BidService._validateVendorEligibility in Hel.
      repeat match type of Hel with
             | (if ?c then _ else _) = _ => destruct c
             end; unfold throwApi, Ok in Hel; try discriminate Hel;
        injection Hel as <-; cbn [BidService.submitBid_catch]; left; api_code. }
  step_service. unfold BidModel.saveInSession.
  set (new := BidService.simplifiedBidData now newId projectId vendor bidData).
  destruct (bid_write P new) as [e | ] eqn:Hw.
  { step_service. cbn [BidService.submitBid_catch fst snd isOk]. split.
    - split; [ discriminate | ].
      intros (v & p & [= <-] & _ & _ & _ & _ & H & _). fold new in H. congruence.
    - split; [ reflexivity | ]. left. apply submitBid_catch_EJs. }
  destruct (preSave_keeps_identity now new) as (Hi & Hpr & Hve & Hn & _).
  assert (Hnew : Bid.isNew (Bid.preSave now new) = true) by (rewrite Hn; reflexivity).
  rewrite Hnew. cbn [startTransaction stagedInserts flat_map app].
  rewrite app_nil_r.
  destruct (violatesUniqueIndex (Bid.preSave now new) (bids (db w))) eqn:Hu.
  { step_service. cbn. split.
    - split; [ discriminate | ].
      intros (v & p & [= <-] & _ & _ & _ & H & _).
      assert (Hf : violatesUniqueIndex (Bid.preSave now new) (bids (db w)) = false).
      { apply violatesUniqueIndex_false. intros x Hx Hxp Hxv.
        rewrite Hpr in Hxp. rewrite Hve in Hxv. exact (H x Hx Hxp Hxv). }
      congruence.
    - split; [ reflexivity | left; api_code ]. }
  step_service.
  assert (Hreached : forall P', bid_write P' new = None -> commit P' = None ->
            (Project.status_current project = Project.OPEN
             \/ Project.status_current project = Project.IN_REVIEW)
            /\ isOk (BidService._validateVendorEligibility vendor project) = true
            /\ (forall b, In b (bids (db w)) ->
                  Bid.project b = projectId -> Bid.vendor b <> v_id vendor)
            /\ bid_write P' (BidService.simplifiedBidData now newId projectId vendor
                               bidData) = None
            /\ commit P' = None).
  { intros P' Hw' Hc'. repeat split; try assumption.
    - rewrite Hel. reflexivity.
    - intros b Hb Hbp Hbv.
      pose proof (proj1 (violatesUniqueIndex_false _ _) Hu) as Hu'.
      apply (Hu' b Hb); [ rewrite Hpr; exact Hbp | rewrite Hve; exact Hbv ]. }
  destruct (commit P) as [e | ] eqn:Hc.
  { step_service. cbn [fst snd isOk]. split.
    - split; [ discriminate | ].
      intros (v & p & _ & _ & _ & _ & _ & _ & H). discriminate H.
    - split; [ reflexivity | ]. right.
      split; [ reflexivity | ]. split; [ discriminate | ].
      exists vendor, project. split; [ reflexivity | ]. split; [ reflexivity | ].
      exact (Hreached (committing P) Hw eq_refl). }
  step_service. cbn [fst snd isOk]. split.
  - split; [ intros _ | reflexivity ].
    exists vendor, project. split; [ reflexivity | ]. split; [ reflexivity | ].
    destruct (Hreached P Hw Hc) as (H1 & H2 & H3 & H4 & _). auto 10.
  - cbn [Bid.markSaved Bid._id Bid.project Bid.status_current Bid.metadata Bid.negotiations].
    rewrite Hi, Hpr. repeat split.
Qed.

(** ** What the updates leave in place *)

Section IdentityFrame.

Context (L : list (ObjectId * ObjectId * ObjectId * option Date)).
Hypothesis L_ids : NoDup (map (fun i => fst (fst (fst i))) L).

Lemma identity_id (l : list Bid.t) :
  map (fun i => fst (fst (fst i))) (map identity l) = map Bid._id l.
Proof. rewrite map_map. reflexivity. Qed.

Lemma replaceBid_identity (b : Bid.t) (l : list Bid.t) :
  map identity l = L -> In (identity b) L ->
  map identity (replaceBid b l) = L.
Proof.
  intros Hl Hb. rewrite <- Hl. unfold replaceBid. rewrite map_map.
  apply map_ext_in. intros x Hx.
  destruct (String.eqb (Bid._id x) (Bid._id b)) eqn:E; [ | reflexivity ].
  apply String.eqb_eq in E.
  assert (Hnd : NoDup (map (fun i : ObjectId * ObjectId * ObjectId * option Date =>
                              fst (fst (fst i))) (map identity l)))
    by (rewrite Hl; exact L_ids).
  rewrite <- Hl in Hb.
  apply (NoDup_map_inj (fun i : ObjectId * ObjectId * ObjectId * option Date =>
                          fst (fst (fst i))) (map identity l));
    [ exact Hnd | exact Hb | apply in_map, Hx | cbn; congruence ].
Qed.

Lemma applyWrite_sameBids (w : World) (wr : Write) :
  sameBids L w -> replacesOnly (standsIn L) [wr] ->
  sameBids L (with_db (applyWrite (db w) wr) w).
Proof.
  intros [Hl Ht] Hw. apply Forall_inv in Hw. rename Hw into Hg.
  destruct wr as [b | b | p]; cbn in Hg; [ contradiction | | split; cbn; assumption ].
  destruct Hg as [Hin Htr]. split; cbn.
  - apply replaceBid_identity; assumption.
  - apply replaceBid_Forall; assumption.
Qed.

Lemma commitTransaction_sameBids (s : Session) (w : World) :
  sameBids L w -> replacesOnly (standsIn L) s ->
  sameBids L (with_db (commitTransaction s (db w)) w).
Proof.
  unfold commitTransaction. revert w.
  induction s as [ | wr s IH]; intros w Hw Hs; cbn [fold_left].
  - destruct w; exact Hw.
  - pose proof (Forall_inv Hs) as Hwr. pose proof (Forall_inv_tail Hs) as Hs'.
    assert (H1 : sameBids L (with_db (applyWrite (db w) wr) w))
      by (apply applyWrite_sameBids; [ exact Hw | constructor; [ exact Hwr | constructor ] ]).
    specialize (IH _ H1 Hs'). exact IH.
Qed.

Lemma hoare_commitSession_sameBids (P : Persistence) (s : Session) :
  replacesOnly (standsIn L) s ->
  hoare (sameBids L) (BidService.commitSession P s) (fun _ => True).
Proof.
  intros Hs w Hw. unfold BidService.commitSession.
  destruct (commit P); cbn; (split; [ | intros; exact I ]).
  - exact Hw.
  - apply commitTransaction_sameBids; assumption.
Qed.

Lemma hoare_findById_sameBids (bidId : ObjectId) :
  hoare (sameBids L) (query (Bid_findById bidId))
        (fun r => match r with Some b => standsIn L b | None => True end).
Proof.
  eapply hoare_weaken; [ apply hoare_query | ].
  intros [b | ] (w & [Hl Ht] & E); [ | exact I ].
  symmetry in E. apply find_some in E. destruct E as [Hin _]. split.
  - rewrite <- Hl. apply in_map, Hin.
  - rewrite Forall_forall in Ht. apply Ht, Hin.
Qed.

Lemma preSave_submittedAt (now : Date) (this : Bid.t) :
  keepsSubmission this ->
  Bid.submittedAt (Bid.metadata (Bid.preSave now this))
  = Bid.submittedAt (Bid.metadata this).
Proof.
  unfold keepsSubmission, Bid.preSave.
  destruct this as [i p v c tl pr cur hist neg [[sub | ] lu] [ | ] new]; cbn;
    destruct cur; cbn; intros [H | H]; try discriminate H; try reflexivity;
    exfalso; apply H; reflexivity.
Qed.

Lemma hoare_save_sameBids (P : Persistence) (now : Date) (this : Bid.t) :
  In (identity this) L -> Bid.isNew this = false -> keepsSubmission this ->
  hoare (sameBids L) (onDb (BidModel.save P now this)) (fun r => standsIn L (fst r)).
Proof.
  intros Hin Hnew Hkeep w Hw. unfold onDb, BidModel.save.
  destruct (bid_write P this); cbn; [ split; [ exact Hw | intros a H; discriminate H ] | ].
  destruct (preSave_keeps_identity now this) as (Hi & Hp & Hv & Hn & _).
  rewrite Hn, Hnew. cbn.
  assert (Hstored : standsIn L (Bid.markSaved (Bid.preSave now this))).
  { split; [ | split; reflexivity ].
    unfold identity in *. cbn. rewrite Hi, Hp, Hv, (preSave_submittedAt now this Hkeep).
    exact Hin. }
  split.
  - apply (applyWrite_sameBids w (ReplaceBid _) Hw).
    constructor; [ exact Hstored | constructor ].
  - intros a [= <-]. exact Hstored.
Qed.

Lemma hoare_updateStatus_sameBids (P : Persistence) (now : Date) (s : Bid.Status)
  (reason : option string) (this : Bid.t) :
  standsIn L this -> s <> Bid.PENDING ->
  hoare (sameBids L) (onDb (BidModel.updateStatus P now s reason this))
        (fun r => standsIn L (fst r)).
Proof.
  intros [Hin [Hnew Hmod]] Hs. unfold BidModel.updateStatus.
  destruct (negb (Bid.includes (Bid.validTransitions (Bid.status_current this)) s)).
  - intros w Hw. cbn. split; [ exact Hw | ]. intros a H. discriminate H.
  - apply hoare_save_sameBids.
    + destruct this; exact Hin.
    + destruct this; exact Hnew.
    + right. destruct this; cbn. exact Hs.
Qed.

Lemma hoare_addNegotiation_sameBids (P : Persistence) (now : Date) (n : Bid.Negotiation)
  (this : Bid.t) :
  standsIn L this ->
  hoare (sameBids L) (onDb (BidModel.addNegotiation P now n this)) (fun _ => True).
Proof.
  intros [Hin [Hnew Hmod]] w Hw. unfold onDb, BidModel.addNegotiation.
  set (this' := Bid.push_negotiations _ this).
  assert (H : hoare (sameBids L) (onDb (BidModel.save P now this'))
                    (fun r => standsIn L (fst r))).
  { apply hoare_save_sameBids.
    - destruct this; exact Hin.
    - destruct this; exact Hnew.
    - left. destruct this; exact Hmod. }
  specialize (H w Hw). unfold onDb in H.
  destruct (BidModel.save P now this' (db w)) as [[b d'] [e | a]]; cbn in *;
    (split; [ apply H | intros; exact I ]).
Qed.

Lemma hoare_updateMany_sameBids (P : Persistence) (now : Date) (q : Bid.t -> bool)
  (s : Session) :
  replacesOnly (standsIn L) s ->
  hoare (sameBids L) (BidService.Bid_updateMany P q (BidService.rejectUpdate now) s)
        (replacesOnly (standsIn L)).
Proof.
  intros Hs w [Hl Ht]. unfold BidService.Bid_updateMany.
  destruct (bulk_write P); cbn; (split; [ split; assumption | ]); intros a H;
    [ discriminate H | ].
  injection H as <-. apply Forall_app. split; [ exact Hs | ].
  apply Forall_map. apply Forall_forall. intros b Hb.
  apply filter_In in Hb. destruct Hb as [Hb _]. split.
  - rewrite <- Hl. change (identity (BidService.rejectUpdate now b)) with (identity b).
    apply in_map, Hb.
  - rewrite Forall_forall in Ht. exact (Ht b Hb).
Qed.

Lemma hoare_project_saveInSession_sameBids (P : Persistence) (now : Date) (p : Project.t)
  (s : Session) :
  replacesOnly (standsIn L) s ->
  hoare (sameBids L) (staged (ProjectModel.saveInSession P now p s))
        (fun r => replacesOnly (standsIn L) (snd r)).
Proof.
  intros Hs w Hw. unfold staged, ProjectModel.saveInSession.
  destruct (project_write P p); cbn; (split; [ exact Hw | ]); intros a H;
    [ discriminate H | ].
  injection H as <-. cbn. apply Forall_app. split; [ exact Hs | ].
  constructor; [ exact I | constructor ].
Qed.

Lemma hoare_clear_sameBids (projectId : ObjectId) :
  hoare (sameBids L) (BidService._clearProjectBidCaches projectId) (fun _ => True).
Proof.
  intros w Hw. unfold BidService._clearProjectBidCaches. cbn.
  split; [ exact Hw | intros; exact I ].
Qed.

Lemma selectBid_sameBids (P : Persistence) (now : Date) (bidId projectId clientId : ObjectId) :
  hoare (sameBids L) (BidService.selectBid P now bidId projectId clientId) (fun _ => True).
Proof.
  unfold BidService.selectBid. apply hoare_transaction.
  eapply hoare_bind; [ apply hoare_getClientProfile | intros cp _ ].
  eapply hoare_bind; [ apply hoare_findById_sameBids | intros bid Hbid ].
  eapply hoare_bind; [ apply hoare_query | intros project _ ].
  destruct bid as [bid | ]; [ | apply hoare_raiseApi ].
  destruct project as [project | ]; [ | apply hoare_raiseApi ].
  destruct (Bid.Status_eqb (Bid.status_current bid) Bid.ACCEPTED);
    [ apply hoare_ret; exact I | ].
  destruct (negb _ && negb _); [ apply hoare_raiseApi | ].
  destruct (negb _ && negb _); [ apply hoare_raiseApi | ].
  eapply hoare_bind with (R1 := fun r => standsIn L (fst r)).
  { destruct (Bid.Status_eqb (Bid.status_current bid) Bid.PENDING);
      [ apply hoare_updateStatus_sameBids; [ exact Hbid | discriminate ]
      | apply hoare_ret; exact Hbid ]. }
  intros [bid1 u1] Hb1. cbn in Hb1.
  eapply hoare_bind;
    [ apply hoare_updateStatus_sameBids; [ exact Hb1 | discriminate ] | intros [bid2 u2] _ ].
  eapply hoare_bind; [ apply hoare_updateMany_sameBids; constructor | intros session Hs ].
  eapply hoare_bind;
    [ apply hoare_project_saveInSession_sameBids; exact Hs | intros [project' session'] Hs' ].
  apply hoare_ret. split; [ apply hoare_commitSession_sameBids; exact Hs' | ].
  eapply hoare_bind; [ apply hoare_clear_sameBids | intros _ _ ].
  apply hoare_ret. exact I.
Qed.

Lemma rejectBid_sameBids (P : Persistence) (now : Date) (bidId projectId clientId : ObjectId)
  (reason : option string) :
  hoare (sameBids L) (BidService.rejectBid P now bidId projectId clientId reason)
        (fun _ => True).
Proof.
  unfold BidService.rejectBid. apply hoare_tryCatch.
  eapply hoare_bind; [ apply hoare_getClientProfile | intros cp _ ].
  eapply hoare_bind; [ apply hoare_findById_sameBids | intros bid Hbid ].
  eapply hoare_bind; [ apply hoare_query | intros project _ ].
  destruct bid as [bid | ]; [ | apply hoare_raiseApi ].
  destruct project as [project | ]; [ | apply hoare_raiseApi ].
  destruct (Bid.Status_eqb (Bid.status_current bid) Bid.REJECTED);
    [ apply hoare_ret; exact I | ].
  destruct (Bid.Status_eqb (Bid.status_current bid) Bid.ACCEPTED);
    [ apply hoare_raiseApi | ].
  eapply hoare_bind;
    [ apply hoare_updateStatus_sameBids; [ exact Hbid | discriminate ] | intros [bid1 u1] _ ].
  apply hoare_ret. exact I.
Qed.

Lemma negotiateBid_sameBids (P : Persistence) (now : Date) (bidId : ObjectId)
  (negotiationData : BidService.NegotiationData) (initiatorType : string) :
  hoare (sameBids L) (BidService.negotiateBid P now bidId negotiationData initiatorType)
        (fun _ => True).
Proof.
  unfold BidService.negotiateBid. apply hoare_tryCatch.
  eapply hoare_bind; [ apply hoare_findById_sameBids | intros bid Hbid ].
  destruct bid as [bid | ]; [ | apply hoare_raiseApi ].
  destruct (negb _); [ apply hoare_raiseApi | ].
  eapply hoare_bind; [ apply hoare_addNegotiation_sameBids; exact Hbid | intros [bid1 n] _ ].
  apply hoare_ret. exact I.
Qed.

Lemma updateBid_sameBids (P : Persistence) (now : Date) (bidId vendorId : ObjectId)
  (updateData : BidService.UpdateData) :
  hoare (sameBids L) (BidService.updateBid P now bidId vendorId updateData) (fun _ => True).
Proof.
  unfold BidService.updateBid. apply hoare_tryCatch.
  eapply hoare_bind; [ apply hoare_query | intros vendor _ ].
  eapply hoare_bind; [ apply hoare_findById_sameBids | intros bid Hbid ].
  destruct vendor as [vendor | ]; [ | apply hoare_raiseApi ].
  destruct bid as [bid | ]; [ | apply hoare_raiseApi ].
  destruct (negb _); [ apply hoare_raiseApi | ].
  destruct (negb _); [ apply hoare_raiseApi | ].
  destruct Hbid as [Hin [Hnew Hmod]].
  eapply hoare_bind with (R1 := fun _ => True); [ | intros [bid1 u] _; apply hoare_ret; exact I ].
  eapply hoare_weaken; [ apply hoare_save_sameBids | intros; exact I ].
  - unfold BidService.assign, BidService._sanitizeUpdateData. cbn.
    destruct (BidService.u_proposedCost updateData), (BidService.u_timeline updateData);
      exact Hin.
  - unfold BidService.assign, BidService._sanitizeUpdateData. cbn.
    destruct (BidService.u_proposedCost updateData), (BidService.u_timeline updateData);
      exact Hnew.
  - left. unfold BidService.assign, BidService._sanitizeUpdateData. cbn.
    destruct (BidService.u_proposedCost updateData), (BidService.u_timeline updateData);
      exact Hmod.
Qed.

End IdentityFrame.

(** X12.  When identifiers are unique and the stored bids are untouched
    documents, [selectBid], [rejectBid], [negotiateBid] and [updateBid]
    neither add, remove nor reorder a bid, and no bid changes its
    identifier, project, vendor or time of submission, whether the
    operation succeeds or fails and whatever the persistence layer
    does. *)
Theorem updates_keep_the_bids_in_place
  (P : Persistence) (now : Date) (w : World)
  (Hids : NoDup (map Bid._id (bids (db w))))
  (Htracked : Forall tracked (bids (db w))) :
  (forall bidId projectId clientId,
     map identity (bids (db (fst (BidService.selectBid P now bidId projectId clientId w))))
     = map identity (bids (db w)))
  /\ (forall bidId projectId clientId reason,
        map identity
            (bids (db (fst (BidService.rejectBid P now bidId projectId clientId reason w))))
        = map identity (bids (db w)))
  /\ (forall bidId negotiationData initiatorType,
        map identity
            (bids (db (fst (BidService.negotiateBid P now bidId negotiationData
                              initiatorType w))))
        = map identity (bids (db w)))
  /\ (forall bidId vendorId updateData,
        map identity
            (bids (db (fst (BidService.updateBid P now bidId vendorId updateData w))))
        = map identity (bids (db w))).
Proof.
  set (L := map identity (bids (db w))).
  assert (HL : NoDup (map (fun i : ObjectId * ObjectId * ObjectId * option Date =>
                             fst (fst (fst i))) L))
    by (unfold L; rewrite identity_id; exact Hids).
  assert (Hw : sameBids L w) by (split; [ reflexivity | exact Htracked ]).
  split; [ | split; [ | split ] ]; intros.
  - apply (selectBid_sameBids L HL P now bidId projectId clientId w Hw).
  - apply (rejectBid_sameBids L HL P now bidId projectId clientId reason w Hw).
  - apply (negotiateBid_sameBids L HL P now bidId negotiationData initiatorType w Hw).
  - apply (updateBid_sameBids L HL P now bidId vendorId updateData w Hw).
Qed.

Lemma updates_keep_the_bids_in_place_witness :
  NoDup (map Bid._id (bids (db Scenario.world2)))
  /\ Forall tracked (bids (db Scenario.world2))
  /\ map identity (bids (db (fst (BidService.selectBid healthy 20 "b1" "p1" "u1"
                                     Scenario.world2))))
     = [("b1", "p1", "v1", Some 10); ("b2", "p1", "v2", Some 11)].
Proof.
  assert (Hids : NoDup (map Bid._id (bids (db Scenario.world2))))
    by (cbn; repeat constructor; cbn; intuition discriminate).
  assert (Htracked : Forall tracked (bids (db Scenario.world2)))
    by (cbn; repeat constructor).
  split; [ exact Hids | ]. split; [ exact Htracked | ].
  rewrite (proj1 (updates_keep_the_bids_in_place healthy 20 Scenario.world2 Hids Htracked)).
  reflexivity.
Defined.

(** ** Deletion, rejection, negotiation and update *)

Lemma find_filter_none {A} (p : A -> bool) (l : list A) :
  find p (filter (fun x => negb (p x)) l) = None.
Proof.
  induction l as [ | x l IH]; cbn; [ reflexivity | ].
  destruct (p x) eqn:E; cbn; [ exact IH | rewrite E; exact IH ].
Qed.

Lemma wrap500_EJs (msg : string) (e : JsError) :
  BidService.wrap500 msg (EJs e) = EApi (mkApiError 500 msg).
Proof. reflexivity. Qed.

(** X13.  [deleteBid] succeeds exactly when the vendor's profile and the bid are
    found, the bid is the vendor's, it is pending and the deletion is
    accepted.  On success the bid is gone, every other bid, the projects
    and the profiles are as before, and the caches are cleared as
    [_clearProjectBidCaches] clears them for the bid's project.  On
    failure the world is as before and the error is an ApiError with code
    400, 403, 404 or 500. *)
Theorem deleteBid_removes_one_pending_bid
  (P : Persistence) (bidId vendorId : ObjectId) (w : World) :
  let (w', r) := BidService.deleteBid P bidId vendorId w in
  (isOk r = true <-> deletable P bidId vendorId (db w))
  /\ match r with
     | inr deleted =>
       deleted = bidId
       /\ bids (db w')
          = filter (fun b => negb (String.eqb (Bid._id b) bidId)) (bids (db w))
       /\ Bid_findById bidId (db w') = None
       /\ projects (db w') = projects (db w)
       /\ vendorProfiles (db w') = vendorProfiles (db w)
       /\ clientProfiles (db w') = clientProfiles (db w)
       /\ (forall bid, Bid_findById bidId (db w) = Some bid ->
             let cleared := fst (BidService._clearProjectBidCaches (Bid.project bid) w) in
             bidCache w' = bidCache cleared
             /\ projectBidsCache w' = projectBidsCache cleared)
     | inl e =>
       w' = w
       /\ exists c m, e = EApi (mkApiError c m)
                      /\ (c = 400 \/ c = 403 \/ c = 404 \/ c = 500)
     end.
Proof.
  unfold BidService.deleteBid, deletable. step_service.
  destruct (VendorProfile_findByUser vendorId (db w)) as [vendor | ] eqn:Hv.
  2:{ step_service. cbn. split; [ | split; [ reflexivity | api_code ] ].
      split; [ discriminate | ]. intros (v & b & H & _). discriminate H. }
  destruct (Bid_findById bidId (db w)) as [bid | ] eqn:Hb.
  2:{ step_service. cbn. split; [ | split; [ reflexivity | api_code ] ].
      split; [ discriminate | ]. intros (v & b & _ & H & _). discriminate H. }
  destruct (String.eqb (Bid.vendor bid) (v_id vendor)) eqn:Hown; cbn [negb].
  2:{ step_service. cbn. split; [ | split; [ reflexivity | api_code ] ].
      split; [ discriminate | ].
      intros (v & b & [= <-] & [= <-] & H & _).
      apply String.eqb_neq in Hown. contradiction. }
  destruct (Bid.Status_eqb (Bid.status_current bid) Bid.PENDING) eqn:Hst; cbn [negb].
  2:{ step_service. cbn. split; [ | split; [ reflexivity | api_code ] ].
      split; [ discriminate | ].
      intros (v & b & _ & [= <-] & _ & H & _). rewrite H in Hst. discriminate Hst. }
  step_service.
  destruct (bid_delete P) as [e | ] eqn:Hd.
  { step_service. cbn. split; [ | split; [ reflexivity | api_code ] ].
    split; [ discriminate | ]. intros (v & b & _ & _ & _ & _ & H). discriminate H. }
  step_service. unfold BidService._clearProjectBidCaches. cbn [fst snd isOk].
  split.
  - split; [ intros _ | reflexivity ].
    exists vendor, bid. repeat split; try assumption.
    + apply String.eqb_eq, Hown.
    + destruct (Bid.status_current bid); try discriminate Hst; reflexivity.
  - cbn [db with_db bids set_bids projects vendorProfiles clientProfiles bidCache
           projectBidsCache].
    split; [ reflexivity | ]. split; [ reflexivity | ].
    split; [ apply (find_filter_none (fun b => String.eqb (Bid._id b) bidId)) | ].
    do 3 (split; [ reflexivity | ]).
    intros found [= <-]. cbn. split; reflexivity.
Qed.

(** ** Saves of a stored document *)

Lemma stored_after_transition (now : Date) (s : Bid.Status) (reason : option string)
  (this : Bid.t) :
  Bid.isNew this = false ->
  Bid.includes (Bid.validTransitions (Bid.status_current this)) s = true ->
  Bid.markSaved
    (Bid.preSave now
       (Bid.push_status_history (Bid.mkHistoryEntry s now reason)
          (Bid.set_status_current s this)))
  = Bid.mk (Bid._id this) (Bid.project this) (Bid.vendor this) (Bid.proposedCost this)
      (Bid.timeline this) (Bid.proposal this) s
      (Bid.status_history this
       ++ [Bid.mkHistoryEntry s now reason; Bid.mkHistoryEntry s now None])
      (Bid.negotiations this)
      (Bid.mkMetadata
         (match s, Bid.submittedAt (Bid.metadata this) with
          | Bid.PENDING, None => Some now
          | _, sub => sub
          end) now)
      false false.
Proof.
  intros Hnew Hvalid.
  destruct this as [i p v c tl pr cur hist neg [sub lu] md new].
  cbn [Bid.isNew] in Hnew. subst new.
  cbn [Bid.status_current] in Hvalid.
  destruct cur, s; try discriminate Hvalid; destruct md, sub;
    cbv beta iota zeta
        delta [Bid.preSave Bid.markSaved Bid.push_status_history Bid.set_metadata
               Bid.set_status_current Bid._id Bid.project Bid.vendor Bid.proposedCost
               Bid.timeline Bid.proposal Bid.status_current Bid.status_history
               Bid.negotiations Bid.metadata Bid.statusModified Bid.isNew Bid.submittedAt
               Bid.lastUpdated Bid.Status_eqb negb orb];
    rewrite <- app_assoc; reflexivity.
Qed.

Lemma updateStatus_stored_run (P : Persistence) (now : Date) (s : Bid.Status)
  (reason : option string) (this : Bid.t) (d : Db) :
  (forall b, bid_write P b = None) ->
  Bid.isNew this = false ->
  Bid.includes (Bid.validTransitions (Bid.status_current this)) s = true ->
  let this' :=
    Bid.mk (Bid._id this) (Bid.project this) (Bid.vendor this) (Bid.proposedCost this)
      (Bid.timeline this) (Bid.proposal this) s
      (Bid.status_history this
       ++ [Bid.mkHistoryEntry s now reason; Bid.mkHistoryEntry s now None])
      (Bid.negotiations this)
      (Bid.mkMetadata
         (match s, Bid.submittedAt (Bid.metadata this) with
          | Bid.PENDING, None => Some now
          | _, sub => sub
          end) now)
      false false in
  BidModel.updateStatus P now s reason this d
  = (this', set_bids (replaceBid this' (bids d)) d, Ok tt).
Proof.
  intros Hb Hnew Hvalid. cbv zeta.
  unfold BidModel.updateStatus, BidModel.save. rewrite Hvalid. cbn [negb].
  rewrite Hb.
  set (this1 := Bid.push_status_history _ (Bid.set_status_current s this)).
  destruct (preSave_keeps_identity now this1) as (_ & _ & _ & Hn & _).
  assert (Hn1 : Bid.isNew (Bid.preSave now this1) = false).
  { rewrite Hn. destruct this; exact Hnew. }
  rewrite Hn1. unfold this1.
  rewrite (stored_after_transition now s reason this Hnew Hvalid).
  reflexivity.
Qed.

Lemma with_db_same (w : World) : with_db (db w) w = w.
Proof. destruct w; reflexivity. Qed.

(** X14.  When the client's profile and project and the stored bid are found and
    writes are accepted, the outcome of [rejectBid] is decided by the
    bid's state alone: a rejected bid is returned as it is, an accepted
    bid gives the error 400, a pending or in-review bid is stored as
    rejected with the sanitized reason in its history, and a draft or
    withdrawn bid gives the error of the transition table.  The bid is
    never compared with the project that was named. *)
Theorem rejectBid_by_status
  (P : Persistence) (now : Date) (bidId projectId clientId : ObjectId)
  (reason : option string) (w : World)
  (clientProfile : ClientProfile) (bid : Bid.t) (project : Project.t)
  (Hclient : ClientProfile_findByUser clientId (db w) = Some clientProfile)
  (Hbid : Bid_findById bidId (db w) = Some bid)
  (Hproject : Project_findOwned projectId (c_id clientProfile) (db w) = Some project)
  (Hstored : Bid.isNew bid = false)
  (Hwrite : forall b, bid_write P b = None) :
  let recorded :=
    sanitizeText (Some (match reason with Some r => r | None => "Bid rejected by client" end)) in
  let run := BidService.rejectBid P now bidId projectId clientId reason w in
  match Bid.status_current bid with
  | Bid.REJECTED => run = (w, Ok (bid, "Bid is already rejected"))
  | Bid.ACCEPTED => run = (w, throwApi 400 "Cannot reject an accepted bid")
  | Bid.PENDING | Bid.IN_REVIEW =>
    exists bid',
      run = (with_db (set_bids (replaceBid bid' (bids (db w))) (db w)) w,
             Ok (bid', "Bid rejected successfully"))
      /\ Bid_findById bidId (db (fst run)) = Some bid'
      /\ Bid.status_current bid' = Bid.REJECTED
      /\ Bid.status_history bid'
         = Bid.status_history bid
           ++ [Bid.mkHistoryEntry Bid.REJECTED now recorded;
               Bid.mkHistoryEntry Bid.REJECTED now None]
      /\ Bid.project bid' = Bid.project bid
  | Bid.DRAFT | Bid.WITHDRAWN =>
    run = (w, inl (invalidTransition (Bid.status_current bid) Bid.REJECTED))
  end.
Proof.
  cbv zeta. unfold BidService.rejectBid. step_service.
  rewrite Hclient. step_service. rewrite Hbid, Hproject. step_service.
  assert (Hid : Bid._id bid = bidId).
  { unfold Bid_findById in Hbid. apply find_some in Hbid.
    apply String.eqb_eq, Hbid. }
  assert (Hreason : match reason with
                    | Some r => Some r
                    | None => Some "Bid rejected by client"
                    end
                    = Some (match reason with Some r => r | None => "Bid rejected by client" end))
    by (destruct reason; reflexivity).
  rewrite Hreason.
  destruct (Bid.status_current bid) eqn:Hs; cbn [Bid.Status_eqb]; step_service;
    try reflexivity.
  - unfold BidModel.updateStatus. rewrite Hs.
    cbn [Bid.validTransitions Bid.includes existsb Bid.Status_eqb orb negb fst snd].
    rewrite with_db_same. reflexivity.
  - rewrite (updateStatus_stored_run P now Bid.REJECTED _ bid (db w) Hwrite Hstored)
      by (rewrite Hs; reflexivity).
    eexists. split; [ reflexivity | ].
    cbn [fst db with_db Bid.status_current Bid.status_history Bid.project].
    split; [ | auto ].
    rewrite <- Hid at 1.
    apply (findById_replaceBid
             (Bid.mk (Bid._id bid) _ _ _ _ _ _ _ _ _ _ _) (db w)).
    cbn [Bid._id]. rewrite Hid, Hbid. discriminate.
  - rewrite (updateStatus_stored_run P now Bid.REJECTED _ bid (db w) Hwrite Hstored)
      by (rewrite Hs; reflexivity).
    eexists. split; [ reflexivity | ].
    cbn [fst db with_db Bid.status_current Bid.status_history Bid.project].
    split; [ | auto ].
    rewrite <- Hid at 1.
    apply (findById_replaceBid
             (Bid.mk (Bid._id bid) _ _ _ _ _ _ _ _ _ _ _) (db w)).
    cbn [Bid._id]. rewrite Hid, Hbid. discriminate.
  - unfold BidModel.updateStatus. rewrite Hs.
    cbn [Bid.validTransitions Bid.includes existsb Bid.Status_eqb orb negb fst snd].
    rewrite with_db_same. reflexivity.
Qed.

Lemma rejectBid_by_status_witness :
  exists bid bid',
    ClientProfile_findByUser "u1" (db Scenario.world4) = Some Scenario.client1
    /\ Bid_findById "b4" (db Scenario.world4) = Some bid
    /\ Project_findOwned "p1" (c_id Scenario.client1) (db Scenario.world4)
       = Some Scenario.project1
    /\ Bid.isNew bid = false
    /\ (forall b, bid_write healthy b = None)
    /\ Bid.project bid = "p2"
    /\ snd (BidService.rejectBid healthy 30 "b4" "p1" "u1" None Scenario.world4)
       = Ok (bid', "Bid rejected successfully")
    /\ Bid.status_current bid' = Bid.REJECTED.
Proof.
  destruct (Bid_findById "b4" (db Scenario.world4)) as [bid | ] eqn:Hbid;
    [ | vm_compute in Hbid; discriminate Hbid ].
  assert (Hclient : ClientProfile_findByUser "u1" (db Scenario.world4) = Some Scenario.client1)
    by reflexivity.
  assert (Hproject : Project_findOwned "p1" (c_id Scenario.client1) (db Scenario.world4)
                     = Some Scenario.project1) by reflexivity.
  assert (Hfacts : Bid.isNew bid = false /\ Bid.project bid = "p2"
                   /\ Bid.status_current bid = Bid.PENDING).
  { vm_compute in Hbid. injection Hbid as <-. repeat split. }
  destruct Hfacts as (Hstored & Hp2 & Hpending).
  assert (Hwrite : forall b, bid_write healthy b = None) by reflexivity.
  pose proof (rejectBid_by_status healthy 30 "b4" "p1" "u1" None Scenario.world4
                Scenario.client1 bid Scenario.project1 Hclient Hbid Hproject Hstored Hwrite)
    as H.
  cbv zeta in H. rewrite Hpending in H.
  destruct H as (bid' & Hrun & _ & Hrejected & _).
  exists bid, bid'. rewrite Hrun.
  repeat (split; [ assumption || reflexivity | ]). exact Hrejected.
Defined.

Lemma save_stored_unmodified (P : Persistence) (now : Date) (this : Bid.t) (d : Db) :
  (forall b, bid_write P b = None) ->
  tracked this ->
  let this' :=
    Bid.mk (Bid._id this) (Bid.project this) (Bid.vendor this) (Bid.proposedCost this)
      (Bid.timeline this) (Bid.proposal this) (Bid.status_current this)
      (Bid.status_history this) (Bid.negotiations this)
      (Bid.mkMetadata (Bid.submittedAt (Bid.metadata this)) now) false false in
  BidModel.save P now this d = (this', set_bids (replaceBid this' (bids d)) d, Ok tt).
Proof.
  intros Hb [Hnew Hmod]. cbv zeta. unfold BidModel.save. rewrite Hb.
  destruct this as [i p v c tl pr cur hist neg [sub lu] md new].
  cbn in Hnew, Hmod. subst new md. reflexivity.
Qed.

(** X15.  For a stored bid and accepted writes, [negotiateBid] on a pending
    or in-review bid appends exactly one negotiation and returns it: it
    has the type and the values of the body, the message of the body
    sanitized, the initiator the service is called with, the time of the
    call, and the status of the body, [pending] only where the body has
    none, so that a body can store a negotiation as accepted.  State,
    history, cost and timeline of the bid are as before.  In every other
    state it fails with the error 400 and changes nothing. *)
Theorem negotiateBid_records_one_negotiation
  (P : Persistence) (now : Date) (bidId : ObjectId)
  (negotiationData : BidService.NegotiationData) (initiatorType : string) (w : World)
  (bid : Bid.t)
  (Hbid : Bid_findById bidId (db w) = Some bid)
  (Htracked : tracked bid)
  (Hwrite : forall b, bid_write P b = None) :
  let run := BidService.negotiateBid P now bidId negotiationData initiatorType w in
  let negotiation :=
    Bid.mkNegotiation initiatorType (BidService.nd_type negotiationData)
      (BidService.nd_originalValue negotiationData)
      (BidService.nd_proposedValue negotiationData)
      (sanitizeText (BidService.nd_message negotiationData))
      (match BidService.nd_status negotiationData with
       | Some status => status
       | None => "pending"
       end) now in
  if Bid.includes [Bid.PENDING; Bid.IN_REVIEW] (Bid.status_current bid) then
    exists bid',
      run = (with_db (set_bids (replaceBid bid' (bids (db w))) (db w)) w,
             Ok (bid', negotiation))
      /\ Bid_findById bidId (db (fst run)) = Some bid'
      /\ Bid.negotiations bid' = Bid.negotiations bid ++ [negotiation]
      /\ Bid.status_current bid' = Bid.status_current bid
      /\ Bid.status_history bid' = Bid.status_history bid
      /\ Bid.proposedCost bid' = Bid.proposedCost bid
      /\ Bid.timeline bid' = Bid.timeline bid
      /\ Bid.lastUpdated (Bid.metadata bid') = now
  else run = (w, throwApi 400 "Bid cannot be negotiated in current status").
Proof.
  cbv zeta. unfold BidService.negotiateBid. step_service. rewrite Hbid.
  assert (Hid : Bid._id bid = bidId).
  { unfold Bid_findById in Hbid. apply find_some in Hbid. apply String.eqb_eq, Hbid. }
  destruct (Bid.includes [Bid.PENDING; Bid.IN_REVIEW] (Bid.status_current bid));
    cbn [negb]; [ | reflexivity ].
  assert (Hmsg : match BidService.nd_message negotiationData with
                 | None => None
                 | Some EmptyString => Some EmptyString
                 | Some m => sanitizeText (Some m)
                 end = sanitizeText (BidService.nd_message negotiationData)).
  { destruct (BidService.nd_message negotiationData) as [[ | a m] | ]; reflexivity. }
  rewrite Hmsg. step_service. unfold BidModel.addNegotiation.
  cbn [Bid.initiator Bid.n_type Bid.n_originalValue Bid.n_proposedValue Bid.n_message
         Bid.n_status].
  set (n := Bid.mkNegotiation initiatorType _ _ _ _ _ now).
  assert (Htr : tracked (Bid.push_negotiations n bid))
    by (destruct Htracked; destruct bid; split; assumption).
  rewrite (save_stored_unmodified P now _ (db w) Hwrite Htr).
  cbn [Bid.negotiations Bid.push_negotiations]. rewrite last_last.
  eexists. split; [ reflexivity | ].
  cbn [fst db with_db Bid.negotiations Bid.status_current Bid.status_history
         Bid.proposedCost Bid.timeline Bid.metadata Bid.lastUpdated Bid._id Bid.project
         Bid.vendor Bid.proposal].
  split; [ | repeat split ].
  rewrite <- Hid at 1.
  apply (findById_replaceBid (Bid.mk (Bid._id bid) _ _ _ _ _ _ _ _ _ _ _) (db w)).
  cbn [Bid._id]. rewrite Hid, Hbid. discriminate.
Qed.

Lemma negotiateBid_records_one_negotiation_witness :
  let body :=
    BidService.mkNegotiationData "cost" (Some "100000") (Some "95000")
      (Some " <b>5% less?</b> ") (Some "accepted") in
  exists bid bid',
    Bid_findById "b1" (db Scenario.world2) = Some bid
    /\ tracked bid
    /\ (forall b, bid_write healthy b = None)
    /\ snd (BidService.negotiateBid healthy 15 "b1" body "client" Scenario.world2)
       = Ok (bid', Bid.mkNegotiation "client" "cost" (Some "100000") (Some "95000")
                     (Some "b5% less?/b") "accepted" 15)
    /\ List.length (Bid.negotiations bid') = 1%nat.
Proof.
  cbv zeta.
  destruct (Bid_findById "b1" (db Scenario.world2)) as [bid | ] eqn:Hbid;
    [ | vm_compute in Hbid; discriminate Hbid ].
  assert (Hfacts : tracked bid /\ Bid.status_current bid = Bid.PENDING
                   /\ Bid.negotiations bid = []).
  { vm_compute in Hbid. injection Hbid as <-. repeat split. }
  destruct Hfacts as (Htracked & Hpending & Hnone).
  assert (Hwrite : forall b, bid_write healthy b = None) by reflexivity.
  pose proof (negotiateBid_records_one_negotiation healthy 15 "b1"
                (BidService.mkNegotiationData "cost" (Some "100000") (Some "95000")
                   (Some " <b>5% less?</b> ") (Some "accepted")) "client"
                Scenario.world2 bid Hbid Htracked Hwrite) as H.
  cbv zeta in H. rewrite Hpending in H. cbn [Bid.includes existsb Bid.Status_eqb orb] in H.
  destruct H as (bid' & Hrun & _ & Hneg & _).
  exists bid, bid'. rewrite Hrun, Hneg, Hnone.
  repeat (split; [ assumption || reflexivity | ]). reflexivity.
Defined.

Lemma updateBid_run
  (P : Persistence) (now : Date) (bidId vendorId : ObjectId)
  (updateData : BidService.UpdateData) (w : World)
  (vendor : VendorProfile) (bid : Bid.t)
  (Hvendor : VendorProfile_findByUser vendorId (db w) = Some vendor)
  (Hbid : Bid_findById bidId (db w) = Some bid)
  (Htracked : tracked bid)
  (Hwrite : forall b, bid_write P b = None) :
  let run := BidService.updateBid P now bidId vendorId updateData w in
  if negb (String.eqb (Bid.vendor bid) (v_id vendor)) then
    run = (w, throwApi 403 "Not authorized to access this bid")
  else if negb (Bid.includes [Bid.DRAFT; Bid.PENDING] (Bid.status_current bid)) then
    run = (w, throwApi 400 "Cannot update bid in current status")
  else
    let bid' :=
      Bid.mk (Bid._id bid) (Bid.project bid) (Bid.vendor bid)
        (match BidService.u_proposedCost updateData with
         | Some c => c
         | None => Bid.proposedCost bid
         end)
        (match BidService.u_timeline updateData with
         | Some tl => tl
         | None => Bid.timeline bid
         end)
        (Bid.proposal bid) (Bid.status_current bid) (Bid.status_history bid)
        (Bid.negotiations bid)
        (Bid.mkMetadata (Bid.submittedAt (Bid.metadata bid)) now) false false in
    run = (with_db (set_bids (replaceBid bid' (bids (db w))) (db w)) w, Ok bid')
    /\ Bid_findById bidId (db (fst run)) = Some bid'.
Proof.
  cbv zeta. unfold BidService.updateBid. step_service. rewrite Hvendor, Hbid.
  assert (Hid : Bid._id bid = bidId).
  { unfold Bid_findById in Hbid. apply find_some in Hbid. apply String.eqb_eq, Hbid. }
  destruct (negb (String.eqb (Bid.vendor bid) (v_id vendor))); [ reflexivity | ].
  destruct (negb (Bid.includes [Bid.DRAFT; Bid.PENDING] (Bid.status_current bid)));
    [ reflexivity | ].
  step_service.
  set (patched := BidService.assign (BidService._sanitizeUpdateData updateData) bid).
  assert (Hpatched : patched
            = Bid.mk (Bid._id bid) (Bid.project bid) (Bid.vendor bid)
                (match BidService.u_proposedCost updateData with
                 | Some c => c
                 | None => Bid.proposedCost bid
                 end)
                (match BidService.u_timeline updateData with
                 | Some tl => tl
                 | None => Bid.timeline bid
                 end)
                (Bid.proposal bid) (Bid.status_current bid) (Bid.status_history bid)
                (Bid.negotiations bid) (Bid.metadata bid) (Bid.statusModified bid)
                (Bid.isNew bid)).
  { unfold patched, BidService.assign, BidService._sanitizeUpdateData. cbn.
    destruct (BidService.u_proposedCost updateData), (BidService.u_timeline updateData);
      destruct bid; reflexivity. }
  assert (Htr : tracked patched) by (rewrite Hpatched; exact Htracked).
  rewrite (save_stored_unmodified P now patched (db w) Hwrite Htr).
  rewrite Hpatched.
  cbn [Bid._id Bid.project Bid.vendor Bid.proposedCost Bid.timeline Bid.proposal
         Bid.status_current Bid.status_history Bid.negotiations Bid.metadata].
  split; [ reflexivity | ].
  cbn [fst db with_db]. rewrite <- Hid at 1.
  apply (findById_replaceBid (Bid.mk (Bid._id bid) _ _ _ _ _ _ _ _ _ _ _) (db w)).
  cbn [Bid._id]. rewrite Hid, Hbid. discriminate.
Qed.

(** X16.  For a stored bid and accepted writes, [updateBid] fails with 403 for a
    bid of another vendor and with 400 for a bid that is neither draft
    nor pending, changing nothing.  Otherwise the stored bid takes the
    proposed cost and the timeline of the update, where it has them, and
    keeps its identifier, project, vendor, state, history and time of
    submission, whatever the update says of [project], [vendor],
    [status], [metadata] and [_id]. *)
Theorem updateBid_ignores_the_immutable_keys
  (P : Persistence) (now : Date) (bidId vendorId : ObjectId)
  (updateData : BidService.UpdateData) (w : World)
  (vendor : VendorProfile) (bid : Bid.t)
  (Hvendor : VendorProfile_findByUser vendorId (db w) = Some vendor)
  (Hbid : Bid_findById bidId (db w) = Some bid)
  (Htracked : tracked bid)
  (Hwrite : forall b, bid_write P b = None) :
  let run := BidService.updateBid P now bidId vendorId updateData w in
  if negb (String.eqb (Bid.vendor bid) (v_id vendor)) then
    run = (w, throwApi 403 "Not authorized to access this bid")
  else if negb (Bid.includes [Bid.DRAFT; Bid.PENDING] (Bid.status_current bid)) then
    run = (w, throwApi 400 "Cannot update bid in current status")
  else
    exists bid',
      run = (with_db (set_bids (replaceBid bid' (bids (db w))) (db w)) w, Ok bid')
      /\ Bid_findById bidId (db (fst run)) = Some bid'
      /\ identity bid' = identity bid
      /\ Bid.status_current bid' = Bid.status_current bid
      /\ Bid.status_history bid' = Bid.status_history bid
      /\ Bid.proposedCost bid'
         = match BidService.u_proposedCost updateData with
           | Some cost => cost
           | None => Bid.proposedCost bid
           end
      /\ Bid.timeline bid'
         = match BidService.u_timeline updateData with
           | Some timeline => timeline
           | None => Bid.timeline bid
           end
      /\ Bid.lastUpdated (Bid.metadata bid') = now.
Proof.
  pose proof (updateBid_run P now bidId vendorId updateData w vendor bid Hvendor Hbid
                Htracked Hwrite) as H.
  cbv zeta in H |- *.
  destruct (negb (String.eqb (Bid.vendor bid) (v_id vendor))); [ exact H | ].
  destruct (negb (Bid.includes [Bid.DRAFT; Bid.PENDING] (Bid.status_current bid)));
    [ exact H | ].
  destruct H as [Hrun Hfound].
  eexists. split; [ exact Hrun | ]. split; [ exact Hfound | ].
  unfold identity. cbn. repeat split.
Qed.

Lemma updateBid_ignores_the_immutable_keys_witness :
  let patch :=
    BidService.mkUpdateData (Some "p2") (Some "v2") (Some Bid.ACCEPTED) None (Some "b9")
      (Some (Bid.mkProposedCost (90000 # 1)%Q "INR" [])) None in
  VendorProfile_findByUser "uv1" (db Scenario.world2) = Some Scenario.vendor1
  /\ Bid_findById "b1" (db Scenario.world2) = Some Scenario.bid1
  /\ tracked Scenario.bid1
  /\ (forall b, bid_write healthy b = None)
  /\ exists bid',
       snd (BidService.updateBid healthy 15 "b1" "uv1" patch Scenario.world2) = Ok bid'
       /\ identity bid' = ("b1", "p1", "v1", Some 10)
       /\ Bid.status_current bid' = Bid.PENDING
       /\ Bid.total (Bid.proposedCost bid') = (90000 # 1)%Q.
Proof.
  cbv zeta.
  assert (Hvendor : VendorProfile_findByUser "uv1" (db Scenario.world2) = Some Scenario.vendor1)
    by reflexivity.
  assert (Hbid : Bid_findById "b1" (db Scenario.world2) = Some Scenario.bid1) by reflexivity.
  assert (Htracked : tracked Scenario.bid1) by (split; reflexivity).
  assert (Hwrite : forall b, bid_write healthy b = None) by reflexivity.
  split; [ exact Hvendor | ]. split; [ exact Hbid | ]. split; [ exact Htracked | ].
  split; [ exact Hwrite | ].
  pose proof (updateBid_ignores_the_immutable_keys healthy 15 "b1" "uv1"
                (BidService.mkUpdateData (Some "p2") (Some "v2") (Some Bid.ACCEPTED) None
                   (Some "b9") (Some (Bid.mkProposedCost (90000 # 1)%Q "INR" [])) None)
                Scenario.world2 Scenario.vendor1 Scenario.bid1 Hvendor Hbid Htracked Hwrite)
    as H.
  cbv zeta in H.
  change (negb (String.eqb (Bid.vendor Scenario.bid1) (v_id Scenario.vendor1)))
    with false in H.
  change (negb (Bid.includes [Bid.DRAFT; Bid.PENDING] (Bid.status_current Scenario.bid1)))
    with false in H.
  cbv iota in H. destruct H as (bid' & Hrun & _ & Hid & Hs & _ & Hcost & _).
  exists bid'. rewrite Hrun. cbn [snd]. split; [ reflexivity | ].
  split; [ rewrite Hid; reflexivity | ].
  split; [ rewrite Hs; reflexivity | ].
  rewrite Hcost. reflexivity.
Defined.

(** ** Listings *)

Lemma NoDup_of_ids (l : list Bid.t) : NoDup (map Bid._id l) -> NoDup l.
Proof. apply NoDup_map_inv. Qed.

Lemma NoDup_firstn {A} (n : nat) (l : list A) : NoDup l -> NoDup (firstn n l).
Proof.
  intros H. rewrite <- (firstn_skipn n l) in H. apply NoDup_app_remove_r in H. exact H.
Qed.

Lemma NoDup_skipn {A} (n : nat) (l : list A) : NoDup l -> NoDup (skipn n l).
Proof.
  intros H. rewrite <- (firstn_skipn n l) in H. apply NoDup_app_remove_l in H. exact H.
Qed.

Lemma In_firstn {A} (n : nat) (l : list A) (x : A) : In x (firstn n l) -> In x l.
Proof. intros H. rewrite <- (firstn_skipn n l). apply in_or_app. left. exact H. Qed.

Lemma In_skipn {A} (n : nat) (l : list A) (x : A) : In x (skipn n l) -> In x l.
Proof. intros H. rewrite <- (firstn_skipn n l). apply in_or_app. right. exact H. Qed.

(** The second query of a listing finds the bids of the page. *)
Lemma page_found_again (m : Bid.t -> bool) (l : list Bid.t) (skip limit : nat) :
  NoDup (map Bid._id l) ->
  let data := firstn limit (skipn skip (sortBy BidService.submittedAfter (filter m l))) in
  Permutation (filter (fun b => includesIn (map Bid._id data) (Bid._id b)) l) data.
Proof.
  intros Hids data.
  assert (Hnd : NoDup l) by (apply NoDup_of_ids, Hids).
  assert (Hsub : forall x, In x data -> In x l).
  { intros x Hx. unfold data in Hx. apply In_firstn, In_skipn in Hx.
    apply sortBy_In in Hx. apply filter_In in Hx. tauto. }
  apply NoDup_Permutation.
  - apply NoDup_filter, Hnd.
  - unfold data. apply NoDup_firstn, NoDup_skipn.
    eapply Permutation_NoDup; [ apply Permutation_sym, sortBy_Permutation | ].
    apply NoDup_filter, Hnd.
  - intros x. rewrite filter_In, includesIn_In, in_map_iff. split.
    + intros (Hx & y & Hy & Hin).
      rewrite (NoDup_map_inj Bid._id l x y Hids Hx (Hsub y Hin) (eq_sym Hy)). exact Hin.
    + intros Hx. split; [ apply Hsub, Hx | ]. exists x. split; [ reflexivity | exact Hx ].
Qed.

Lemma submittedAfter_total (a b : Bid.t) :
  BidService.submittedAfter a b = false -> BidService.submittedAfter b a = true.
Proof.
  unfold BidService.submittedAfter.
  destruct (Bid.submittedAt (Bid.metadata a)) as [x | ],
           (Bid.submittedAt (Bid.metadata b)) as [y | ]; try reflexivity; try discriminate.
  intros H. apply Z.leb_gt in H. apply Z.leb_le. lia.
Qed.

Lemma Sorted_map {A B} (R : A -> A -> Prop) (R' : B -> B -> Prop) (f : A -> B) (l : list A) :
  (forall a b, R a b -> R' (f a) (f b)) -> Sorted R l -> Sorted R' (map f l).
Proof.
  intros HR. induction 1 as [ | x l Hl IH Hhd]; cbn; constructor; [ exact IH | ].
  destruct Hhd; cbn; constructor. apply HR. assumption.
Qed.

(** The page a listing answers with: which bids, how many, in what
    order. *)
Lemma listing_page (m : Bid.t -> bool) (l : list Bid.t) (page limit : Z) :
  NoDup (map Bid._id l) -> 1 <= page -> 1 <= limit ->
  let matched := filter m l in
  let total := Z.of_nat (List.length matched) in
  let skip := (page - 1) * limit in
  let data := firstn (Z.to_nat limit)
                (skipn (Z.to_nat skip) (sortBy BidService.submittedAfter matched)) in
  let found := filter (fun b => includesIn (map Bid._id data) (Bid._id b)) l in
  let bids := map BidService.withoutNegotiations (sortBy BidService.submittedAfter found) in
  (forall b, In b bids ->
     exists stored, In stored l /\ m stored = true
                    /\ b = BidService.withoutNegotiations stored)
  /\ Z.of_nat (List.length bids) = Z.max 0 (Z.min limit (total - skip))
  /\ Sorted (fun a b => BidService.submittedAfter a b = true) bids
  /\ Forall (fun b => Bid.negotiations b = []) bids.
Proof.
  intros Hids Hpage Hlimit. cbv zeta.
  set (matched := filter m l).
  set (skip := (page - 1) * limit).
  set (data := firstn (Z.to_nat limit)
                 (skipn (Z.to_nat skip) (sortBy BidService.submittedAfter matched))).
  set (found := filter (fun b => includesIn (map Bid._id data) (Bid._id b)) l).
  pose proof (page_found_again m l (Z.to_nat skip) (Z.to_nat limit) Hids) as Hperm.
  cbv zeta in Hperm. fold matched data found in Hperm.
  split; [ | split; [ | split ] ].
  - intros b Hb. apply in_map_iff in Hb. destruct Hb as (stored & <- & Hin).
    exists stored. apply sortBy_In in Hin.
    apply (Permutation_in _ Hperm) in Hin. unfold data in Hin.
    apply In_firstn, In_skipn in Hin. apply sortBy_In in Hin.
    apply filter_In in Hin. tauto.
  - rewrite length_map, sortBy_length, (Permutation_length Hperm).
    unfold data. rewrite length_firstn, length_skipn, sortBy_length.
    assert (0 <= skip) by (unfold skip; nia). lia.
  - apply (Sorted_map (fun a b => BidService.submittedAfter a b = true)).
    + intros a b H. destruct a, b; exact H.
    + apply sortBy_Sorted. exact submittedAfter_total.
  - apply Forall_map. apply Forall_forall. intros b _. reflexivity.
Qed.

Lemma ceiling_pages (total limit : Z) :
  0 <= total -> 1 <= limit ->
  let pages := (total + limit - 1) / limit in
  (pages - 1) * limit < total <= pages * limit.
Proof.
  intros Ht Hl. cbv zeta.
  pose proof (Z.div_mod (total + limit - 1) limit ltac:(lia)) as Hdiv.
  pose proof (Z.mod_pos_bound (total + limit - 1) limit ltac:(lia)) as Hmod.
  nia.
Qed.

Lemma validatePagination_range (optPage optLimit : option Z) :
  1 <= fst (BidService.validatePagination optPage optLimit)
  /\ 1 <= snd (BidService.validatePagination optPage optLimit) <= 100.
Proof.
  unfold BidService.validatePagination, DEFAULT_PAGE, MAX_LIMIT, DEFAULT_LIMIT. cbn [fst snd].
  destruct optPage as [x | ], optLimit as [y | ];
    try destruct (x =? 0); try destruct (y =? 0); lia.
Qed.

(** X17.  For a vendor with a profile, [getVendorBids] changes nothing and
    answers with the validated page and limit, the number of the vendor's
    bids that match the status, the number of pages that holds them, and
    a page of these bids without their negotiations: as many as fit the
    page, latest submission first. *)
Theorem getVendorBids_answers_one_page_of_the_vendors_bids
  (vendorId : ObjectId) (status : option string) (optPage optLimit : option Z) (w : World)
  (vendor : VendorProfile)
  (Hvendor : VendorProfile_findByUser vendorId (db w) = Some vendor)
  (Hids : NoDup (map Bid._id (bids (db w)))) :
  let '(page, limit) := BidService.validatePagination optPage optLimit in
  let mine (b : Bid.t) :=
    String.eqb (Bid.vendor b) (v_id vendor) && BidService.matchesStatus status b in
  exists r,
    BidService.getVendorBids vendorId status optPage optLimit w = (w, Ok r)
    /\ BidService.vb_page r = page /\ BidService.vb_limit r = limit
    /\ BidService.vb_total r = Z.of_nat (List.length (filter mine (bids (db w))))
    /\ (BidService.vb_pages r - 1) * limit < BidService.vb_total r
       <= BidService.vb_pages r * limit
    /\ (forall b, In b (BidService.vb_bids r) ->
          exists stored, In stored (bids (db w)) /\ mine stored = true
                         /\ b = BidService.withoutNegotiations stored)
    /\ Z.of_nat (List.length (BidService.vb_bids r))
       = Z.max 0 (Z.min limit (BidService.vb_total r - (page - 1) * limit))
    /\ Sorted (fun a b => BidService.submittedAfter a b = true) (BidService.vb_bids r).
Proof.
  pose proof (validatePagination_range optPage optLimit) as [Hpage Hlimit].
  unfold BidService.getVendorBids.
  destruct (BidService.validatePagination optPage optLimit) as [page limit].
  cbn [fst snd] in Hpage, Hlimit. cbv zeta.
  step_service. rewrite Hvendor. step_service.
  set (mine := fun b : Bid.t =>
                 String.eqb (Bid.vendor b) (v_id vendor) && BidService.matchesStatus status b).
  destruct (listing_page mine (bids (db w)) page limit Hids Hpage ltac:(lia))
    as (Hin & Hlen & Hsorted & _).
  eexists. split; [ reflexivity | ].
  cbn [BidService.vb_page BidService.vb_limit BidService.vb_total BidService.vb_pages
         BidService.vb_bids].
  split; [ reflexivity | ]. split; [ reflexivity | ]. split; [ reflexivity | ].
  split; [ apply ceiling_pages; lia | ].
  split; [ exact Hin | ]. split; [ exact Hlen | exact Hsorted ].
Qed.

Lemma getVendorBids_answers_one_page_of_the_vendors_bids_witness :
  VendorProfile_findByUser "uv1" (db Scenario.world4) = Some Scenario.vendor1
  /\ NoDup (map Bid._id (bids (db Scenario.world4)))
  /\ exists r,
       BidService.getVendorBids "uv1" (Some "pending") None (Some 500) Scenario.world4
       = (Scenario.world4, Ok r)
       /\ BidService.vb_limit r = 100
       /\ BidService.vb_total r = 1
       /\ map Bid._id (BidService.vb_bids r) = ["b4"].
Proof.
  assert (Hvendor : VendorProfile_findByUser "uv1" (db Scenario.world4)
                    = Some Scenario.vendor1) by reflexivity.
  assert (Hids : NoDup (map Bid._id (bids (db Scenario.world4))))
    by (cbn; repeat constructor; cbn; intuition discriminate).
  split; [ exact Hvendor | ]. split; [ exact Hids | ].
  pose proof (getVendorBids_answers_one_page_of_the_vendors_bids "uv1" (Some "pending")
                None (Some 500) Scenario.world4 Scenario.vendor1 Hvendor Hids) as H.
  cbn [BidService.validatePagination] in H.
  destruct H as (r & Hrun & _).
  exists r. split; [ exact Hrun | ].
  vm_compute in Hrun. injection Hrun as <-. repeat split.
Defined.

(** ** The cached listing of a project *)

Lemma with_projectBidsCache_same (w : World) : with_projectBidsCache (projectBidsCache w) w = w.
Proof. destruct w; reflexivity. Qed.

Lemma with_bidCache_same (w : World) : with_bidCache (bidCache w) w = w.
Proof. destruct w; reflexivity. Qed.

Lemma TTLCache_get_hit {V} (now : Date) (key : string) (c : TTLCache.t V) (v : V) :
  snd (TTLCache.get now key c) = Some v -> TTLCache.get now key c = (c, Some v).
Proof.
  unfold TTLCache.get.
  destruct (TTLCache.Map_get key (TTLCache.cache c)) as [e | ]; [ | discriminate ].
  destruct (TTLCache.expiresAt e <? now); [ discriminate | ].
  cbn. intros [= <-]. reflexivity.
Qed.

Lemma getProjectBids_hit (now : Date) (projectId : ObjectId) (status : option string)
  (optPage optLimit : option Z) (w : World) (r : ProjectBids) :
  snd (TTLCache.get now (projectBidsKey projectId status optPage optLimit)
         (projectBidsCache w)) = Some r ->
  BidService.getProjectBids now projectId status optPage optLimit w = (w, Ok r).
Proof.
  unfold BidService.getProjectBids, projectBidsKey, BidService.projectBidsCache_get.
  destruct (BidService.validatePagination optPage optLimit) as [page limit].
  intros H. apply TTLCache_get_hit in H. step_service. rewrite H.
  rewrite with_projectBidsCache_same. reflexivity.
Qed.

(** On a miss the page is computed from the database alone and stored. *)
Lemma getProjectBids_miss (now : Date) (projectId : ObjectId) (status : option string)
  (optPage optLimit : option Z) (w : World) :
  let key := projectBidsKey projectId status optPage optLimit in
  snd (TTLCache.get now key (projectBidsCache w)) = None ->
  exists r,
    BidService.getProjectBids now projectId status optPage optLimit w
    = (with_projectBidsCache
         (TTLCache.set now key r (fst (TTLCache.get now key (projectBidsCache w)))) w,
       Ok r)
    /\ forall now' w',
         db w' = db w ->
         snd (TTLCache.get now' key (projectBidsCache w')) = None ->
         snd (BidService.getProjectBids now' projectId status optPage optLimit w') = Ok r.
Proof.
  cbv zeta.
  unfold BidService.getProjectBids, projectBidsKey, BidService.projectBidsCache_get,
    BidService.projectBidsCache_set.
  destruct (BidService.validatePagination optPage optLimit) as [page limit].
  intros H. step_service.
  destruct (TTLCache.get now _ (projectBidsCache w)) as [c v] eqn:G.
  cbn [snd] in H. subst v. cbn [fst db with_projectBidsCache].
  eexists. split; [ reflexivity | ].
  intros now' w' Hdb H'. step_service.
  destruct (TTLCache.get now' _ (projectBidsCache w')) as [c' v'] eqn:G'.
  cbn [snd] in H'. subst v'. cbn [fst snd db with_projectBidsCache]. rewrite Hdb.
  reflexivity.
Qed.

Lemma TTLCache_get_new {V} (now : Date) (key : string) (ttl : Z) (maxSize : nat) :
  TTLCache.get (V := V) now key (TTLCache.new ttl maxSize) = (TTLCache.new ttl maxSize, None).
Proof. reflexivity. Qed.

(** X18.  After a miss, [getProjectBids] computes the page and caches it: it
    changes no bid, and until the time to live has passed the same request
    is answered with that page whatever has become of the database in
    between; after that it is answered from the database again. *)
Theorem getProjectBids_serves_a_page_until_it_expires
  (now : Date) (projectId : ObjectId) (status : option string)
  (optPage optLimit : option Z) (w : World)
  (Hmiss : snd (TTLCache.get now (projectBidsKey projectId status optPage optLimit)
                  (projectBidsCache w)) = None) :
  let (w1, r1) := BidService.getProjectBids now projectId status optPage optLimit w in
  exists page,
    r1 = Ok page
    /\ db w1 = db w
    /\ (forall (later : Date) (d : Db),
          later <= now + TTLCache.ttl (projectBidsCache w) ->
          BidService.getProjectBids later projectId status optPage optLimit (with_db d w1)
          = (with_db d w1, Ok page))
    /\ (forall (later : Date) (d : Db),
          now + TTLCache.ttl (projectBidsCache w) < later ->
          snd (BidService.getProjectBids later projectId status optPage optLimit
                 (with_db d w1))
          = snd (BidService.getProjectBids later projectId status optPage optLimit
                   (BidService.new d))).
Proof.
  set (key := projectBidsKey projectId status optPage optLimit) in *.
  destruct (getProjectBids_miss now projectId status optPage optLimit w Hmiss)
    as (page & Hrun & _).
  fold key in Hrun. rewrite Hrun.
  set (c0 := fst (TTLCache.get now key (projectBidsCache w))).
  assert (Httl : TTLCache.ttl c0 = TTLCache.ttl (projectBidsCache w)).
  { unfold c0, TTLCache.get.
    destruct (TTLCache.Map_get key _) as [e | ]; [ | reflexivity ].
    destruct (TTLCache.expiresAt e <? now); reflexivity. }
  exists page. split; [ reflexivity | ]. split; [ destruct w; reflexivity | ].
  split.
  - intros later d Hle.
    destruct (TTLCache_get_set_same now later key page c0) as (Hfresh & _).
    apply getProjectBids_hit. fold key.
    cbn [projectBidsCache with_db with_projectBidsCache].
    rewrite Hfresh by (rewrite Httl; exact Hle). reflexivity.
  - intros later d Hlt.
    destruct (TTLCache_get_set_same now later key page c0) as (_ & Hexpired).
    destruct (getProjectBids_miss later projectId status optPage optLimit (BidService.new d))
      as (page' & Hrun' & Hsame).
    { apply (f_equal snd (TTLCache_get_new later _ CACHE_TTL CACHE_MAX_SIZE)). }
    rewrite Hrun'. cbn [snd].
    apply Hsame; [ reflexivity | ]. fold key.
    cbn [projectBidsCache with_db with_projectBidsCache].
    apply Hexpired. rewrite Httl. exact Hlt.
Qed.

Lemma getProjectBids_serves_a_page_until_it_expires_witness :
  snd (TTLCache.get 12 (projectBidsKey "p1" None None None)
         (projectBidsCache Scenario.world2)) = None
  /\ exists page,
       snd (BidService.getProjectBids 12 "p1" None None None Scenario.world2) = Ok page
       /\ map Bid._id (r_bids page) = []
       /\ snd (BidService.getProjectBids 300012 "p1" None None None
                 (with_db (mkDb [] [] [] [])
                    (fst (BidService.getProjectBids 12 "p1" None None None
                            Scenario.world2))))
          = Ok page.
Proof.
  assert (Hmiss : snd (TTLCache.get 12 (projectBidsKey "p1" None None None)
                         (projectBidsCache Scenario.world2)) = None) by reflexivity.
  split; [ exact Hmiss | ].
  pose proof (getProjectBids_serves_a_page_until_it_expires 12 "p1" None None None
                Scenario.world2 Hmiss) as H.
  destruct (BidService.getProjectBids 12 "p1" None None None Scenario.world2)
    as [w1 r1] eqn:Hrun.
  destruct H as (page & -> & _ & Hserved & _).
  exists page. split; [ reflexivity | ]. split.
  - vm_compute in Hrun. injection Hrun as _ <-. reflexivity.
  - cbn [fst]. rewrite (Hserved 300012 (mkDb [] [] [] [])); [ reflexivity | ].
    vm_compute. discriminate.
Defined.

Lemma filter_none {A} (l : list A) : filter (fun _ => false) l = [].
Proof. induction l as [ | a l IH]; [ reflexivity | exact IH ]. Qed.

(** X19.  The [$match] of the aggregation in [getProjectBids] compares the
    project of a bid, an ObjectId, with the string of the route as it is,
    and no bid matches.  So on a miss the answer is, whatever bids the
    project has: the validated page and limit, no bid, a total of 0, 0 pages
    and [hasMore] false; no bid is changed. *)
Theorem getProjectBids_lists_no_bid
  (now : Date) (projectId : ObjectId) (status : option string)
  (optPage optLimit : option Z) (w : World)
  (Hmiss : snd (TTLCache.get now (projectBidsKey projectId status optPage optLimit)
                  (projectBidsCache w)) = None) :
  let '(pageNo, perPage) := BidService.validatePagination optPage optLimit in
  let (w', r) := BidService.getProjectBids now projectId status optPage optLimit w in
  r = Ok (mkProjectBids [] (mkPagination pageNo perPage 0 0 false))
  /\ db w' = db w.
Proof.
  pose proof (validatePagination_range optPage optLimit) as [Hpage Hlimit].
  unfold BidService.getProjectBids, projectBidsKey, BidService.projectBidsCache_get,
    BidService.projectBidsCache_set in *.
  destruct (BidService.validatePagination optPage optLimit) as [pageNo perPage].
  cbn [fst snd] in Hpage, Hlimit. cbv zeta.
  step_service.
  destruct (TTLCache.get now _ (projectBidsCache w)) as [c v].
  cbn [snd] in Hmiss. subst v. cbn [fst snd db with_projectBidsCache].
  unfold BidService.aggregateMatchesId. cbn [andb].
  rewrite filter_none.
  change (sortBy BidService.submittedAfter (@nil Bid.t)) with (@nil Bid.t).
  rewrite skipn_nil, firstn_nil.
  cbn [map includesIn]. rewrite filter_none.
  change (sortBy BidService.submittedAfter (@nil Bid.t)) with (@nil Bid.t).
  cbn [List.length Z.of_nat map].
  replace ((0 + perPage - 1) / perPage) with 0
    by (symmetry; apply Z.div_small; lia).
  replace ((pageNo - 1) * perPage + 0 <? 0) with false
    by (symmetry; apply Z.ltb_ge; nia).
  split; reflexivity.
Qed.

(** ** Clearing the caches *)

Lemma cache_delete_all {V} (ks : list string) (c : TTLCache.t V) :
  TTLCache.cache (fold_left (fun c key => TTLCache.delete key c) ks c)
  = filter (fun ke => negb (includesIn ks (fst ke))) (TTLCache.cache c).
Proof.
  revert c. induction ks as [ | key ks IH]; intros c; cbn [fold_left].
  - induction (TTLCache.cache c) as [ | ke l IHl]; cbn; [ | f_equal; exact IHl ]; reflexivity.
  - rewrite IH. unfold TTLCache.delete, TTLCache.Map_delete. cbn [TTLCache.cache TTLCache.with_cache].
    rewrite filter_twice. apply filter_ext. intros ke. unfold includesIn. cbn [existsb].
    rewrite Bool.negb_orb, (String.eqb_sym (fst ke) key). reflexivity.
Qed.

Lemma fold_delete_settings {V} (ks : list string) (c : TTLCache.t V) :
  TTLCache.ttl (fold_left (fun c key => TTLCache.delete key c) ks c) = TTLCache.ttl c
  /\ TTLCache.maxSize (fold_left (fun c key => TTLCache.delete key c) ks c)
     = TTLCache.maxSize c.
Proof.
  revert c. induction ks as [ | key ks IH]; intros c; cbn [fold_left]; [ split; reflexivity | ].
  destruct (IH (TTLCache.delete key c)) as [H1 H2]. rewrite H1, H2. split; reflexivity.
Qed.

Lemma cache_delete_matching {V} (p : string -> bool) (c : TTLCache.t V) :
  TTLCache.cache (fold_left (fun c key => TTLCache.delete key c)
                            (filter p (TTLCache.keys c)) c)
  = filter (fun ke => negb (p (fst ke))) (TTLCache.cache c).
Proof.
  rewrite cache_delete_all. apply filter_ext_in. intros ke Hke. f_equal.
  destruct (p (fst ke)) eqn:E.
  - apply includesIn_In. apply filter_In. split; [ | exact E ].
    unfold TTLCache.keys. apply in_map, Hke.
  - destruct (includesIn _ (fst ke)) eqn:E'; [ | reflexivity ].
    apply includesIn_In in E'. apply filter_In in E'. destruct E' as [_ E']. congruence.
Qed.

Lemma prefix_append (p s : string) : String.prefix p (p ++ s)%string = true.
Proof.
  induction p as [ | a p IH]; cbn; [ destruct s; reflexivity | ].
  destruct (ascii_dec a a) as [_ | H]; [ exact IH | contradiction ].
Qed.

Lemma includesString_prefix (sub s : string) :
  String.prefix sub s = true -> includesString sub s = true.
Proof. destruct s; unfold includesString; intros ->; reflexivity. Qed.

Lemma includesString_append (p s : string) : includesString p (p ++ s)%string = true.
Proof. apply includesString_prefix, prefix_append. Qed.

Lemma append_assoc (a b c : string) : ((a ++ b) ++ c = a ++ (b ++ c))%string.
Proof. induction a as [ | x a IH]; cbn; [ reflexivity | rewrite IH; reflexivity ]. Qed.

Lemma Map_get_filter_out {V} (p : string -> bool) (key : string)
  (l : list (string * TTLCache.Entry V)) :
  p key = true ->
  TTLCache.Map_get key (filter (fun ke => negb (p (fst ke))) l) = None.
Proof.
  intros Hp. apply Map_get_None_keys. intros Hin.
  apply in_map_iff in Hin. destruct Hin as ([k e] & Hk & Hin). cbn in Hk. subst k.
  apply filter_In in Hin. destruct Hin as [_ Hin]. cbn in Hin. rewrite Hp in Hin.
  discriminate Hin.
Qed.

Lemma getCompetitiveAnalysis_miss (now now' : Date) (bidId : ObjectId) (w w' : World) :
  db w' = db w ->
  snd (TTLCache.get now (analysisKey bidId) (bidCache w)) = None ->
  snd (TTLCache.get now' (analysisKey bidId) (bidCache w')) = None ->
  snd (BidService.getCompetitiveAnalysis now' bidId w')
  = snd (BidService.getCompetitiveAnalysis now bidId w).
Proof.
  unfold BidService.getCompetitiveAnalysis, analysisKey, BidService.bidCache_get,
    BidService.bidCache_set.
  intros Hdb H H'. step_service.
  destruct (TTLCache.get now _ (bidCache w)) as [c v].
  destruct (TTLCache.get now' _ (bidCache w')) as [c' v'].
  cbn [snd] in H, H'. subst v v'. cbn [fst snd db with_bidCache]. rewrite Hdb.
  destruct (Bid_findById bidId (db w)); cbn [fst snd db with_bidCache]; rewrite ?Hdb;
    reflexivity.
Qed.

(** X20.  [_clearProjectBidCaches] leaves the database alone, removes from the
    cache of listings exactly the keys that contain [project_bids_]
    followed by the project's identifier, and from the cache of analyses
    every key that contains [competitive_analysis_]: no page of the
    project and no analysis of any bid, of any project, is cached
    afterwards. *)
Theorem clearProjectBidCaches_drops_the_projects_pages_and_every_analysis
  (projectId : ObjectId) (w : World) :
  let w' := fst (BidService._clearProjectBidCaches projectId w) in
  db w' = db w
  /\ TTLCache.cache (projectBidsCache w')
     = filter (fun ke => negb (includesString ("project_bids_" ++ projectId)%string (fst ke)))
              (TTLCache.cache (projectBidsCache w))
  /\ TTLCache.cache (bidCache w')
     = filter (fun ke => negb (includesString "competitive_analysis_" (fst ke)))
              (TTLCache.cache (bidCache w))
  /\ (forall status optPage optLimit,
        TTLCache.Map_get (projectBidsKey projectId status optPage optLimit)
                         (TTLCache.cache (projectBidsCache w')) = None)
  /\ (forall bidId,
        TTLCache.Map_get (analysisKey bidId) (TTLCache.cache (bidCache w')) = None).
Proof.
  cbv zeta. unfold BidService._clearProjectBidCaches.
  cbn [fst db projectBidsCache bidCache].
  rewrite !cache_delete_matching.
  split; [ reflexivity | ]. split; [ reflexivity | ]. split; [ reflexivity | ].
  split.
  - intros status optPage optLimit.
    apply (Map_get_filter_out (includesString ("project_bids_" ++ projectId)%string)).
    unfold projectBidsKey.
    destruct (BidService.validatePagination optPage optLimit) as [page limit].
    rewrite <- append_assoc. apply includesString_append.
  - intros bidId.
    apply (Map_get_filter_out (includesString "competitive_analysis_")).
    apply includesString_append.
Qed.

Lemma get_absent {V} (now : Date) (key : string) (c : TTLCache.t V) :
  TTLCache.Map_get key (TTLCache.cache c) = None -> snd (TTLCache.get now key c) = None.
Proof. unfold TTLCache.get. intros ->. reflexivity. Qed.

Lemma cleared_project_pages (projectId : ObjectId) (w : World)
  (status : option string) (optPage optLimit : option Z) :
  TTLCache.Map_get (projectBidsKey projectId status optPage optLimit)
    (TTLCache.cache (projectBidsCache (fst (BidService._clearProjectBidCaches projectId w))))
  = None.
Proof.
  unfold BidService._clearProjectBidCaches. cbn [fst projectBidsCache].
  rewrite cache_delete_matching.
  apply (Map_get_filter_out (includesString ("project_bids_" ++ projectId)%string)).
  unfold projectBidsKey.
  destruct (BidService.validatePagination optPage optLimit) as [page limit].
  rewrite <- append_assoc. apply includesString_append.
Qed.

Lemma cleared_analyses (projectId : ObjectId) (w : World) (bidId : ObjectId) :
  TTLCache.Map_get (analysisKey bidId)
    (TTLCache.cache (bidCache (fst (BidService._clearProjectBidCaches projectId w))))
  = None.
Proof.
  unfold BidService._clearProjectBidCaches. cbn [fst bidCache].
  rewrite cache_delete_matching.
  apply (Map_get_filter_out (includesString "competitive_analysis_")).
  apply includesString_append.
Qed.

(** X21.  After [_clearProjectBidCaches], every listing of the project and every
    competitive analysis is answered as with empty caches, from the
    database. *)
Theorem reads_after_clearProjectBidCaches_come_from_the_database
  (projectId : ObjectId) (w : World) :
  let w' := fst (BidService._clearProjectBidCaches projectId w) in
  (forall now status optPage optLimit,
     snd (BidService.getProjectBids now projectId status optPage optLimit w')
     = snd (BidService.getProjectBids now projectId status optPage optLimit
              (BidService.new (db w))))
  /\ (forall now bidId,
        snd (BidService.getCompetitiveAnalysis now bidId w')
        = snd (BidService.getCompetitiveAnalysis now bidId (BidService.new (db w)))).
Proof.
  cbv zeta. split.
  - intros now status optPage optLimit.
    destruct (getProjectBids_miss now projectId status optPage optLimit
                (BidService.new (db w))) as (r & Hrun & Hsame); [ reflexivity | ].
    rewrite Hrun. cbn [snd]. apply Hsame; [ reflexivity | ].
    apply get_absent, cleared_project_pages.
  - intros now bidId.
    apply getCompetitiveAnalysis_miss; [ reflexivity | reflexivity | ].
    apply get_absent, cleared_analyses.
Qed.

(** ** The batch listing *)

Section Grouping.

Implicit Types (groups : list (ObjectId * list Bid.t)).

Lemma keys_setEmpty (id : ObjectId) groups :
  map fst (BidService.setEmpty id groups)
  = if includesIn (map fst groups) id then map fst groups else map fst groups ++ [id].
Proof.
  unfold includesIn.
  induction groups as [ | [k l] groups IH]; cbn; [ reflexivity | ].
  rewrite (String.eqb_sym id k).
  destruct (String.eqb k id); cbn; [ reflexivity | ].
  rewrite IH. destruct (existsb (String.eqb id) (map fst groups)); reflexivity.
Qed.

Lemma values_setEmpty (id : ObjectId) groups :
  Forall (fun g => snd g = []) groups ->
  Forall (fun g => snd g = []) (BidService.setEmpty id groups).
Proof.
  induction 1 as [ | [k l] groups Hg Hgs IH]; cbn.
  - repeat constructor.
  - destruct (String.eqb k id); constructor; auto.
Qed.

Lemma emptyGroups (projectIds : list ObjectId) groups :
  NoDup (map fst groups) -> Forall (fun g => snd g = []) groups ->
  let result := fold_left (fun groups id => BidService.setEmpty id groups) projectIds groups in
  NoDup (map fst result)
  /\ Forall (fun g => snd g = []) result
  /\ forall id, In id (map fst result) <-> In id (map fst groups) \/ In id projectIds.
Proof.
  revert groups. induction projectIds as [ | id ids IH]; intros groups Hnd Hempty; cbn.
  - split; [ exact Hnd | ]. split; [ exact Hempty | ]. tauto.
  - assert (Hnd' : NoDup (map fst (BidService.setEmpty id groups))).
    { rewrite keys_setEmpty. destruct (includesIn (map fst groups) id) eqn:E; [ exact Hnd | ].
      apply NoDup_app; [ exact Hnd | constructor; [ intros [] | constructor ] | ].
      intros a Ha [<- | []]. apply includesIn_In in Ha. congruence. }
    destruct (IH _ Hnd' (values_setEmpty id groups Hempty)) as (H1 & H2 & H3).
    split; [ exact H1 | ]. split; [ exact H2 | ].
    intros x. rewrite H3, keys_setEmpty.
    destruct (includesIn (map fst groups) id) eqn:E.
    + apply includesIn_In in E. split; [ tauto | ].
      intros [H | [<- | H]]; tauto.
    + rewrite in_app_iff. cbn. tauto.
Qed.

Lemma pushTo_spec (b : Bid.t) (keys : list ObjectId) (done : list Bid.t) :
  NoDup keys ->
  BidService.pushTo (Bid.project b) b
    (map (fun k => (k, filter (fun x => String.eqb (Bid.project x) k) done)) keys)
  = map (fun k => (k, filter (fun x => String.eqb (Bid.project x) k) (done ++ [b]))) keys.
Proof.
  intros Hnd. induction keys as [ | k keys IH]; cbn [map BidService.pushTo]; [ reflexivity | ].
  apply NoDup_cons_iff in Hnd. destruct Hnd as [Hnotin Hnd].
  rewrite filter_app. cbn [filter].
  destruct (String.eqb k (Bid.project b)) eqn:E.
  - apply String.eqb_eq in E. subst k. rewrite String.eqb_refl. f_equal.
    apply map_ext_in. intros k Hk. rewrite filter_app. cbn [filter].
    destruct (String.eqb (Bid.project b) k) eqn:E; [ | rewrite app_nil_r; reflexivity ].
    apply String.eqb_eq in E. subst k. contradiction.
  - rewrite (String.eqb_sym (Bid.project b) k), E, app_nil_r. f_equal.
    apply (IH Hnd).
Qed.

Lemma groupStep_failed (l : list (Bid.t * option Project.t)) (e : Exn) :
  fold_left groupStep l (inl e) = inl e.
Proof. induction l as [ | [b p] l IH]; cbn; [ reflexivity | exact IH ]. Qed.

Lemma groupStep_all_found (d : Db) (keys : list ObjectId) (todo done : list Bid.t) :
  NoDup keys ->
  (forall b, In b todo -> Project_findById (Bid.project b) d <> None) ->
  fold_left groupStep (map (fun b => (b, Project_findById (Bid.project b) d)) todo)
    (Ok (map (fun k => (k, filter (fun x => String.eqb (Bid.project x) k) done)) keys))
  = Ok (map (fun k => (k, filter (fun x => String.eqb (Bid.project x) k) (done ++ todo)))
            keys).
Proof.
  intros Hnd. revert done. induction todo as [ | b todo IH]; intros done Hall; cbn.
  - rewrite app_nil_r. reflexivity.
  - destruct (Project_findById (Bid.project b) d) as [p | ] eqn:E;
      [ | exfalso; apply (Hall b (or_introl eq_refl)); exact E ].
    assert (Hid : Project._id p = Bid.project b).
    { unfold Project_findById in E. apply find_some in E. apply String.eqb_eq, E. }
    cbn. unfold Ok. rewrite Hid, (pushTo_spec b keys done Hnd).
    change (inr (B := ?T) ?x) with (Ok x).
    rewrite IH by (intros x Hx; apply Hall; right; exact Hx).
    rewrite <- app_assoc. reflexivity.
Qed.

Lemma groupStep_orphan (d : Db) (todo : list Bid.t) (b : Bid.t) groups :
  In b todo -> Project_findById (Bid.project b) d = None ->
  fold_left groupStep (map (fun b => (b, Project_findById (Bid.project b) d)) todo)
    (Ok groups)
  = throw (EJs BidService.typeError).
Proof.
  revert groups. induction todo as [ | x todo IH]; intros groups Hin Hnone; [ contradiction | ].
  cbn [map fold_left].
  destruct (Project_findById (Bid.project x) d) as [p | ] eqn:E.
  - cbn [groupStep Ok]. destruct Hin as [-> | Hin]; [ congruence | ].
    apply (IH _ Hin Hnone).
  - cbn [groupStep Ok]. apply groupStep_failed.
Qed.

End Grouping.

Lemma getMultipleProjectBids_run (projectIds : list ObjectId) (status : option string)
  (w : World) :
  Z.of_nat (List.length projectIds) <= 50 ->
  BidService.getMultipleProjectBids projectIds status w
  = (w,
     match fold_left groupStep
             (map (fun b => (b, Project_findById (Bid.project b) (db w)))
                  (batchListing projectIds status (db w)))
             (Ok (fold_left (fun groups id => BidService.setEmpty id groups) projectIds []))
     with
     | inl e => inl (BidService.wrap500 "Error retrieving multiple project bids" e)
     | inr groups =>
       Ok (BidService.mkBatchBids groups
             (List.length (batchListing projectIds status (db w))))
     end).
Proof.
  intros Hsize. unfold BidService.getMultipleProjectBids, BidService.MAX_BATCH_SIZE.
  destruct (Z.ltb_spec 50 (Z.of_nat (List.length projectIds))) as [H | _]; [ lia | ].
  step_service. unfold batchListing.
  match goal with
  | |- context [fold_left ?f ?l (inr ?a)] =>
    change (fold_left f l (inr a)) with (fold_left groupStep l (Ok a))
  end.
  rewrite length_map.
  destruct (fold_left groupStep _ _) as [e | groups]; reflexivity.
Qed.

(** X22.  [getMultipleProjectBids] refuses more than 50 projects with the error
    400.  Otherwise, when the project of every listed bid is stored, it
    changes nothing and answers with one group for each requested project
    and no other, each group holding the listed bids of its project in
    the order of the listing, and with the number of listed bids.  The
    listed bids are the stored bids of the requested projects that match
    the status, without their negotiations. *)
Theorem getMultipleProjectBids_groups_the_bids_by_project
  (projectIds : list ObjectId) (status : option string) (w : World) :
  let listed := batchListing projectIds status (db w) in
  (50 < Z.of_nat (List.length projectIds) ->
   BidService.getMultipleProjectBids projectIds status w
   = (w, throwApi 400 "Cannot request more than 50 projects at once"))
  /\ (Z.of_nat (List.length projectIds) <= 50 ->
      (forall b, In b listed -> Project_findById (Bid.project b) (db w) <> None) ->
      exists r,
        BidService.getMultipleProjectBids projectIds status w = (w, Ok r)
        /\ BidService.bb_total r = List.length listed
        /\ NoDup (map fst (BidService.bidsByProject r))
        /\ (forall id, In id (map fst (BidService.bidsByProject r)) <-> In id projectIds)
        /\ (forall id group,
              In (id, group) (BidService.bidsByProject r) ->
              group = filter (fun b => String.eqb (Bid.project b) id) listed)
        /\ (forall b, In b listed ->
              exists group, In (Bid.project b, group) (BidService.bidsByProject r)
                            /\ In b group))
  /\ (forall b, In b listed
                <-> exists stored,
                      In stored (bids (db w))
                      /\ In (Bid.project stored) projectIds
                      /\ BidService.matchesStatus status stored = true
                      /\ b = BidService.withoutNegotiations stored).
Proof.
  cbv zeta. split; [ | split ].
  3:{ intros b. unfold batchListing. rewrite in_map_iff. split.
      - intros (x & <- & Hx). apply sortBy_In in Hx. apply filter_In in Hx.
        destruct Hx as [Hx Hq]. apply Bool.andb_true_iff in Hq. destruct Hq as [Hq1 Hq2].
        apply includesIn_In in Hq1. exists x. auto.
      - intros (x & Hx & Hq1 & Hq2 & ->). exists x. split; [ reflexivity | ].
        apply sortBy_In. apply filter_In. split; [ exact Hx | ].
        apply Bool.andb_true_iff. split; [ apply includesIn_In, Hq1 | exact Hq2 ]. }
  - intros Hmany. unfold BidService.getMultipleProjectBids, BidService.MAX_BATCH_SIZE.
    apply Z.ltb_lt in Hmany. rewrite Hmany. reflexivity.
  - intros Hsize Hall. rewrite (getMultipleProjectBids_run projectIds status w Hsize).
    destruct (emptyGroups projectIds [] (NoDup_nil _) (Forall_nil _)) as (Hnd & Hempty & Hkeys).
    cbv zeta in Hnd, Hempty, Hkeys.
    set (groups0 := fold_left (fun groups id => BidService.setEmpty id groups) projectIds [])
      in *.
    assert (Hshape : groups0
                     = map (fun k => (k, filter (fun x : Bid.t => String.eqb (Bid.project x) k)
                                                []))
                           (map fst groups0)).
    { clear - Hempty. induction Hempty as [ | [k l] gs Hg _ IH]; cbn; [ reflexivity | ].
      cbn in Hg. subst l. f_equal. exact IH. }
    assert (Hfold : fold_left groupStep
                      (map (fun b => (b, Project_findById (Bid.project b) (db w)))
                           (batchListing projectIds status (db w)))
                      (Ok groups0)
                    = Ok (map (fun k => (k, filter (fun x : Bid.t =>
                                                      String.eqb (Bid.project x) k)
                                                   (batchListing projectIds status (db w))))
                              (map fst groups0))).
    { rewrite Hshape at 1.
      apply (groupStep_all_found (db w) (map fst groups0) _ [] Hnd Hall). }
    rewrite Hfold.
    eexists. split; [ reflexivity | ].
    cbn [BidService.bb_total BidService.bidsByProject].
    split; [ reflexivity | ].
    rewrite map_map. cbn [fst]. rewrite map_id.
    split; [ exact Hnd | ].
    split; [ intros id; rewrite Hkeys; cbn; tauto | ].
    split.
    + intros id group Hin. apply in_map_iff in Hin. destruct Hin as (k & [= <- <-] & _).
      reflexivity.
    + intros b Hb. eexists. split.
      * apply in_map_iff. exists (Bid.project b). split; [ reflexivity | ].
        apply Hkeys. right.
        unfold batchListing in Hb. apply in_map_iff in Hb. destruct Hb as (x & <- & Hx).
        apply sortBy_In in Hx. apply filter_In in Hx. destruct Hx as [_ Hx].
        apply Bool.andb_true_iff in Hx. destruct Hx as [Hx _].
        apply includesIn_In in Hx. exact Hx.
      * apply filter_In. split; [ exact Hb | apply String.eqb_refl ].
Qed.

(** ** getBidDetails *)

(** X23.  [getBidDetails] changes nothing.  It answers with a bid only if the
    bid is stored under the identifier and its project belongs to the
    client who asks; for a stored bid of another client's project it fails
    with 403, without a client profile with 404, and for a missing bid
    with 404. *)
Theorem getBidDetails_is_authorised_by_the_bids_own_project
  (bidId clientId : ObjectId) (w : World) :
  let (w', r) := BidService.getBidDetails bidId clientId w in
  w' = w
  /\ (forall found, r = Ok found ->
        exists bid clientProfile project,
          found = Some bid
          /\ Bid_findById bidId (db w) = Some bid
          /\ ClientProfile_findByUser clientId (db w) = Some clientProfile
          /\ Project_findOwned (Bid.project bid) (c_id clientProfile) (db w) = Some project
          /\ Project._id project = Bid.project bid
          /\ Project.client project = c_id clientProfile)
  /\ (forall bid clientProfile,
        Bid_findById bidId (db w) = Some bid ->
        ClientProfile_findByUser clientId (db w) = Some clientProfile ->
        r = match Project_findOwned (Bid.project bid) (c_id clientProfile) (db w) with
            | Some _ => Ok (Some bid)
            | None => throwApi 403 "Unauthorized to view this bid"
            end)
  /\ (ClientProfile_findByUser clientId (db w) = None ->
      r = throwApi 404 "Client profile not found")
  /\ (ClientProfile_findByUser clientId (db w) <> None ->
      Bid_findById bidId (db w) = None ->
      r = throwApi 404 "Bid not found").
Proof.
  unfold BidService.getBidDetails. step_service.
  destruct (ClientProfile_findByUser clientId (db w)) as [cp | ] eqn:Hc; step_service.
  2:{ cbn. split; [ reflexivity | ]. split; [ intros f H; discriminate H | ].
      split; [ intros b c _ H; discriminate H | ].
      split; [ reflexivity | intros H; contradiction ]. }
  destruct (Bid_findById bidId (db w)) as [bid | ] eqn:Hb; step_service.
  2:{ cbn. split; [ reflexivity | ]. split; [ intros f H; discriminate H | ].
      split; [ intros b c H; discriminate H | ].
      split; [ intros H; discriminate H | reflexivity ]. }
  destruct (Project_findOwned (Bid.project bid) (c_id cp) (db w)) as [project | ] eqn:Hp;
    step_service; rewrite ?Hb; cbn [fst snd].
  - split; [ reflexivity | ]. split.
    + intros f [= <-]. exists bid, cp, project. repeat split; try assumption.
      * unfold Project_findOwned in Hp. apply find_some in Hp. destruct Hp as [_ Hp].
        apply Bool.andb_true_iff in Hp. apply String.eqb_eq, Hp.
      * unfold Project_findOwned in Hp. apply find_some in Hp. destruct Hp as [_ Hp].
        apply Bool.andb_true_iff in Hp. apply String.eqb_eq, Hp.
    + split; [ intros b c [= <-] [= <-]; rewrite Hp; reflexivity | ].
      split; [ intros H; discriminate H | intros _ H; discriminate H ].
  - split; [ reflexivity | ]. split; [ intros f H; discriminate H | ].
    split; [ intros b c [= <-] [= <-]; rewrite Hp; reflexivity | ].
    split; [ intros H; discriminate H | intros _ H; discriminate H ].
Qed.

(** ** deleteProject *)

Lemma deleteProject_run (P : Persistence) (projectId clientId : ObjectId) (w : World)
  (project : Project.t) :
  Project_findOwned projectId clientId (db w) = Some project ->
  project_delete P = None ->
  let remaining :=
    filter (fun p => negb (String.eqb (Project._id p) projectId)) (projects (db w)) in
  ProjectService.deleteProject P projectId clientId w
  = match bid_delete P with
    | None =>
      (with_db (mkDb (filter (fun b => negb (String.eqb (Bid.project b) projectId))
                             (bids (db w)))
                     remaining (vendorProfiles (db w)) (clientProfiles (db w))) w,
       Ok "Project deleted successfully")
    | Some _ =>
      (with_db (mkDb (bids (db w)) remaining (vendorProfiles (db w)) (clientProfiles (db w)))
               w,
       throwApi 500 "Error deleting project")
    end.
Proof.
  intros Hproject Hdelete. cbv zeta.
  assert (Hid : Project._id project = projectId).
  { unfold Project_findOwned in Hproject. apply find_some in Hproject.
    destruct Hproject as [_ H]. apply Bool.andb_true_iff in H. apply String.eqb_eq, H. }
  unfold ProjectService.deleteProject, ProjectService.Project_findOneAndDelete,
    ProjectService.Bid_deleteMany.
  step_service. rewrite Hdelete, Hproject, Hid.
  destruct (bid_delete P) as [e | ]; reflexivity.
Qed.

(** X24.  When the project is found for the client and its deletion is accepted,
    [deleteProject] removes the project first and then the bids of the
    project.  If the deletion of the bids is accepted, none of its bids is
    left; if it is refused, the operation fails with the error 500 and
    the project is gone all the same, with all its bids still stored. *)
Theorem deleteProject_cascades_but_not_atomically
  (P : Persistence) (projectId clientId : ObjectId) (w : World) (project : Project.t)
  (Hproject : Project_findOwned projectId clientId (db w) = Some project)
  (Hdelete : project_delete P = None) :
  let (w', r) := ProjectService.deleteProject P projectId clientId w in
  projects (db w')
  = filter (fun p => negb (String.eqb (Project._id p) projectId)) (projects (db w))
  /\ Project_findById projectId (db w') = None
  /\ match bid_delete P with
     | None =>
       r = Ok "Project deleted successfully"
       /\ bids (db w')
          = filter (fun b => negb (String.eqb (Bid.project b) projectId)) (bids (db w))
     | Some _ =>
       r = throwApi 500 "Error deleting project"
       /\ bids (db w') = bids (db w)
     end.
Proof.
  rewrite (deleteProject_run P projectId clientId w project Hproject Hdelete).
  destruct (bid_delete P) as [e | ]; cbn [db with_db projects bids];
    (split; [ reflexivity | ]);
    (split; [ apply (find_filter_none (fun p => String.eqb (Project._id p) projectId)) | ]);
    split; reflexivity.
Qed.

Lemma deleteProject_cascades_but_not_atomically_witness :
  Project_findOwned "p1" "c1" (db Scenario.world2) = Some Scenario.project1
  /\ project_delete healthy = None
  /\ bids (db (fst (ProjectService.deleteProject healthy "p1" "c1" Scenario.world2))) = [].
Proof.
  assert (Hproject : Project_findOwned "p1" "c1" (db Scenario.world2) = Some Scenario.project1)
    by reflexivity.
  split; [ exact Hproject | ]. split; [ reflexivity | ].
  pose proof (deleteProject_cascades_but_not_atomically healthy "p1" "c1" Scenario.world2
                Scenario.project1 Hproject eq_refl) as H.
  destruct (ProjectService.deleteProject healthy "p1" "c1" Scenario.world2) as [w' r].
  destruct H as (_ & _ & H). cbn [bid_delete healthy] in H. destruct H as [_ H].
  cbn [fst]. rewrite H. reflexivity.
Defined.

Lemma getMultipleProjectBids_orphan (projectIds : list ObjectId) (status : option string)
  (w : World) (b : Bid.t) :
  Z.of_nat (List.length projectIds) <= 50 ->
  In b (bids (db w)) ->
  includesIn projectIds (Bid.project b) = true ->
  BidService.matchesStatus status b = true ->
  Project_findById (Bid.project b) (db w) = None ->
  BidService.getMultipleProjectBids projectIds status w
  = (w, throwApi 500 "Error retrieving multiple project bids").
Proof.
  intros Hsize Hin Hp Hs Hnone.
  rewrite (getMultipleProjectBids_run projectIds status w Hsize).
  rewrite (groupStep_orphan (db w) _ (BidService.withoutNegotiations b)).
  - reflexivity.
  - unfold batchListing. apply in_map. apply sortBy_In. apply filter_In.
    split; [ exact Hin | ]. rewrite Hp, Hs. reflexivity.
  - exact Hnone.
Qed.

(** X25.  When [deleteProject] has removed a project and failed to remove its
    bids, a batch listing that asks for that project and matches one of
    the bids left behind fails with the error 500. *)
Theorem a_half_deleted_project_breaks_the_batch_listing
  (P : Persistence) (projectId clientId : ObjectId) (w : World) (project : Project.t)
  (b : Bid.t) (status : option string) (projectIds : list ObjectId)
  (Hproject : Project_findOwned projectId clientId (db w) = Some project)
  (HP : keepsBids P)
  (Hbid : In b (bids (db w)))
  (Hof : Bid.project b = projectId)
  (Hstatus : BidService.matchesStatus status b = true)
  (Hasked : In projectId projectIds)
  (Hsize : Z.of_nat (List.length projectIds) <= 50) :
  let (w', r) := ProjectService.deleteProject P projectId clientId w in
  r = throwApi 500 "Error deleting project"
  /\ Project_findById projectId (db w') = None
  /\ In b (bids (db w'))
  /\ BidService.getMultipleProjectBids projectIds status w'
     = (w', throwApi 500 "Error retrieving multiple project bids").
Proof.
  destruct HP as [Hdelete Hkeeps].
  rewrite (deleteProject_run P projectId clientId w project Hproject Hdelete).
  destruct (bid_delete P) as [e | ]; [ | contradiction ].
  set (w' := with_db _ w).
  assert (Hgone : Project_findById projectId (db w') = None)
    by apply (find_filter_none (fun p => String.eqb (Project._id p) projectId)).
  split; [ reflexivity | ]. split; [ exact Hgone | ]. split; [ exact Hbid | ].
  apply (getMultipleProjectBids_orphan projectIds status w' b Hsize Hbid).
  - rewrite Hof. apply includesIn_In, Hasked.
  - exact Hstatus.
  - rewrite Hof. exact Hgone.
Qed.

Lemma a_half_deleted_project_breaks_the_batch_listing_witness :
  exists b,
    Project_findOwned "p1" "c1" (db Scenario.world2) = Some Scenario.project1
    /\ keepsBids bidsReadOnly
    /\ In b (bids (db Scenario.world2))
    /\ Bid.project b = "p1"
    /\ BidService.matchesStatus None b = true
    /\ In "p1" ["p1"; "p2"]
    /\ Z.of_nat (List.length ["p1"; "p2"]) <= 50
    /\ snd (BidService.getMultipleProjectBids ["p1"; "p2"] None
              (fst (ProjectService.deleteProject bidsReadOnly "p1" "c1" Scenario.world2)))
       = throwApi 500 "Error retrieving multiple project bids".
Proof.
  exists Scenario.bid1.
  assert (Hproject : Project_findOwned "p1" "c1" (db Scenario.world2) = Some Scenario.project1)
    by reflexivity.
  assert (HP : keepsBids bidsReadOnly) by (split; [ reflexivity | discriminate ]).
  assert (Hbid : In Scenario.bid1 (bids (db Scenario.world2))) by (left; reflexivity).
  assert (Hof : Bid.project Scenario.bid1 = "p1") by reflexivity.
  assert (Hstatus : BidService.matchesStatus None Scenario.bid1 = true) by reflexivity.
  assert (Hasked : In "p1" ["p1"; "p2"]) by (left; reflexivity).
  assert (Hsize : Z.of_nat (List.length ["p1"; "p2"]) <= 50) by (cbn; lia).
  repeat (split; [ assumption | ]).
  pose proof (a_half_deleted_project_breaks_the_batch_listing bidsReadOnly "p1" "c1"
                Scenario.world2 Scenario.project1 Scenario.bid1 None ["p1"; "p2"]
                Hproject HP Hbid Hof Hstatus Hasked Hsize) as H.
  destruct (ProjectService.deleteProject bidsReadOnly "p1" "c1" Scenario.world2) as [w' r].
  destruct H as (_ & _ & _ & H). cbn [fst]. rewrite H. reflexivity.
Defined.

(** ** The competitiveness score *)

Lemma score_bounds (bid : Bid.t) (stats : Stats) :
  (0 <= BidService._calculateCompetitivenessScore bid stats
   /\ BidService._calculateCompetitivenessScore bid stats <= 100)%Q.
Proof.
  unfold BidService._calculateCompetitivenessScore. split.
  - apply Q.le_max_l.
  - apply Q.max_lub; [ discriminate | apply Q.le_min_l ].
Qed.

Lemma score_at_the_average (bid : Bid.t) (stats : Stats) :
  ~ (averageCost stats == 0)%Q -> ~ (averageDuration stats == 0)%Q ->
  (Bid.total (Bid.proposedCost bid) == averageCost stats)%Q ->
  (Bid.estimatedDuration_value (Bid.timeline bid) == averageDuration stats)%Q ->
  (BidService._calculateCompetitivenessScore bid stats == 100)%Q.
Proof.
  intros Hc Hd Ec Ed. apply Qle_antisym; [ apply score_bounds | ].
  unfold BidService._calculateCompetitivenessScore.
  eapply Qle_trans; [ | apply Q.le_max_r ].
  apply Q.min_glb; [ apply Qle_refl | ].
  unfold BidService._calculateTeamScore, BidService._calculatePreviousWorkScore.
  rewrite Ec, Ed.
  setoid_replace ((averageCost stats - averageCost stats) / averageCost stats)%Q
    with 0%Q by (field; exact Hc).
  setoid_replace ((averageDuration stats - averageDuration stats) / averageDuration stats)%Q
    with 0%Q by (field; exact Hd).
  cbn. discriminate.
Qed.

(** X26.  For statistics whose averages are not zero the competitiveness score
    is between 0 and 100, and it is 100 for a bid whose cost and duration
    are the averages; so the only bidder of a project scores 100. *)
Theorem competitiveness_score_is_clamped_and_full_at_the_average
  (bid : Bid.t) (stats : Stats)
  (Hcost : ~ (averageCost stats == 0)%Q)
  (Hduration : ~ (averageDuration stats == 0)%Q) :
  let score := BidService._calculateCompetitivenessScore bid stats in
  (0 <= score)%Q /\ (score <= 100)%Q
  /\ ((Bid.total (Bid.proposedCost bid) == averageCost stats)%Q ->
      (Bid.estimatedDuration_value (Bid.timeline bid) == averageDuration stats)%Q ->
      (score == 100)%Q)
  /\ (stats = BidService._calculateBidStatistics bid [] -> (score == 100)%Q).
Proof.
  cbv zeta. destruct (score_bounds bid stats) as [H0 H100].
  split; [ exact H0 | ]. split; [ exact H100 | ]. split.
  - apply score_at_the_average; assumption.
  - intros ->. cbn [BidService._calculateBidStatistics averageCost averageDuration] in *.
    apply score_at_the_average; try assumption; apply Qeq_refl.
Qed.

Lemma competitiveness_score_is_clamped_and_full_at_the_average_witness :
  let stats := BidService._calculateBidStatistics Scenario.bid1 [] in
  ~ (averageCost stats == 0)%Q
  /\ ~ (averageDuration stats == 0)%Q
  /\ (BidService._calculateCompetitivenessScore Scenario.bid1 stats == 100)%Q.
Proof.
  cbv zeta.
  assert (Hc : ~ (averageCost (BidService._calculateBidStatistics Scenario.bid1 []) == 0)%Q)
    by (vm_compute; discriminate).
  assert (Hd : ~ (averageDuration (BidService._calculateBidStatistics Scenario.bid1 []) == 0)%Q)
    by (vm_compute; discriminate).
  split; [ exact Hc | ]. split; [ exact Hd | ].
  exact (proj2 (proj2 (proj2 (competitiveness_score_is_clamped_and_full_at_the_average
                                Scenario.bid1 _ Hc Hd))) eq_refl).
Defined.

(** ** The order of [findCompetingBids] *)

Lemma insertBy_sorted_head {A} (leb : A -> A -> bool) (x : A) (l : list A) :
  (forall y, In y l -> leb x y = true) -> insertBy leb x l = x :: l.
Proof.
  destruct l as [ | y l]; cbn; [ reflexivity | ].
  intros H. rewrite (H y (or_introl eq_refl)). reflexivity.
Qed.

Lemma sortBy_sorted {A} (leb : A -> A -> bool) (l : list A) :
  (forall a b c, leb a b = true -> leb b c = true -> leb a c = true) ->
  Sorted (fun a b => leb a b = true) l -> sortBy leb l = l.
Proof.
  intros Htrans Hs. apply Sorted_StronglySorted in Hs.
  2:{ intros a b c. apply Htrans. }
  induction Hs as [ | x l Hl IH Hx]; [ reflexivity | ].
  change (sortBy leb (x :: l)) with (insertBy leb x (sortBy leb l)).
  rewrite IH. apply insertBy_sorted_head.
  rewrite Forall_forall in Hx. exact Hx.
Qed.

Lemma Qle_bool_trans (a b c : Q) :
  Qle_bool a b = true -> Qle_bool b c = true -> Qle_bool a c = true.
Proof.
  rewrite !Qle_bool_iff. apply Qle_trans.
Qed.

(** X27.  [findCompetingBids] lists the competing bids by ascending cost, so the
    sort in [_calculateBidStatistics] leaves their costs in place and the
    median is the cost of the bid in the middle of the list; without an
    excluded bid the list holds exactly the pending and in-review bids of
    the project. *)
Theorem findCompetingBids_lists_cheapest_first
  (projectId : ObjectId) (excludeBidId : option ObjectId) (d : Db) :
  let competing := findCompetingBids projectId excludeBidId d in
  let costs := map (fun b => Bid.total (Bid.proposedCost b)) competing in
  Sorted (fun a b => (Bid.total (Bid.proposedCost a) <= Bid.total (Bid.proposedCost b))%Q)
         competing
  /\ sortBy Qle_bool costs = costs
  /\ (forall bid, competing <> [] ->
        medianCost (BidService._calculateBidStatistics bid competing)
        = nth (List.length competing / 2) costs (0 # 1)%Q)
  /\ (excludeBidId = None ->
      forall x, In x competing
                <-> In x (bids d) /\ Bid.project x = projectId
                    /\ (Bid.status_current x = Bid.PENDING
                        \/ Bid.status_current x = Bid.IN_REVIEW)).
Proof.
  cbv zeta.
  set (byCost := fun a b : Bid.t =>
                   Qle_bool (Bid.total (Bid.proposedCost a)) (Bid.total (Bid.proposedCost b))).
  assert (Hsorted : Sorted (fun a b => byCost a b = true)
                           (findCompetingBids projectId excludeBidId d)).
  { unfold findCompetingBids. apply sortBy_Sorted.
    intros a b H. apply Qle_bool_total, H. }
  assert (Hcosts : Sorted (fun a b => Qle_bool a b = true)
                     (map (fun b => Bid.total (Bid.proposedCost b))
                          (findCompetingBids projectId excludeBidId d))).
  { induction Hsorted as [ | x l Hl IH Hhd]; cbn; constructor; [ exact IH | ].
    destruct Hhd; cbn; constructor. assumption. }
  assert (Hfixed : sortBy Qle_bool
                     (map (fun b => Bid.total (Bid.proposedCost b))
                          (findCompetingBids projectId excludeBidId d))
                   = map (fun b => Bid.total (Bid.proposedCost b))
                         (findCompetingBids projectId excludeBidId d))
    by (apply sortBy_sorted; [ exact Qle_bool_trans | exact Hcosts ]).
  split.
  { clear - Hsorted. induction Hsorted as [ | x l Hl IH Hhd]; constructor; [ exact IH | ].
    destruct Hhd; constructor. apply Qle_bool_iff. assumption. }
  split; [ exact Hfixed | ]. split.
  - intros bid Hne. unfold BidService._calculateBidStatistics.
    destruct (findCompetingBids projectId excludeBidId d) as [ | x l] eqn:E;
      [ contradiction | ].
    cbn [medianCost]. rewrite Hfixed, length_map. reflexivity.
  - intros ->. intros x. unfold findCompetingBids. rewrite sortBy_In, filter_In.
    rewrite Bool.andb_true_r, Bool.andb_true_iff, String.eqb_eq.
    unfold Bid.includes. cbn [existsb].
    destruct (Bid.status_current x); cbn; intuition discriminate.
Qed.

(** ** Sequences of transitions *)

Lemma last_default {A} (x : A) (l : list A) (d1 d2 : A) :
  last (x :: l) d1 = last (x :: l) d2.
Proof.
  revert x. induction l as [ | y l IH]; intros x; [ reflexivity | ].
  change (last (y :: l) d1 = last (y :: l) d2). apply IH.
Qed.

Lemma updateStatuses_allowed (P : Persistence) (now : Date) (path : list Bid.Status)
  (this : Bid.t) (d : Db) :
  (forall b, bid_write P b = None) ->
  Bid.isNew this = false ->
  allowed (Bid.status_current this) path = true ->
  exists this' d',
    updateStatuses P now path this d = (this', d', Ok tt)
    /\ Bid.status_current this' = last path (Bid.status_current this)
    /\ Bid._id this' = Bid._id this.
Proof.
  intros Hwrite. revert this d.
  induction path as [ | s rest IH]; intros this d Hstored Hallowed.
  - exists this, d. repeat split.
  - cbn [allowed] in Hallowed. apply Bool.andb_true_iff in Hallowed.
    destruct Hallowed as [Hstep Hrest].
    cbn [updateStatuses].
    rewrite (updateStatus_stored_run P now s None this d Hwrite Hstored Hstep).
    match goal with
    | |- context [updateStatuses P now rest ?b ?d'] =>
      destruct (IH b d' eq_refl Hrest) as (this' & d'' & Hrun & Hlast & Hid)
    end.
    exists this', d''. split; [ exact Hrun | ]. split; [ | exact Hid ].
    rewrite Hlast. cbn [Bid.status_current].
    destruct rest as [ | s' rest']; [ reflexivity | ].
    change (last (s :: s' :: rest') (Bid.status_current this))
      with (last (s' :: rest') (Bid.status_current this)).
    apply last_default.
Qed.

Lemma never_to_draft (from : Bid.Status) :
  Bid.includes (Bid.validTransitions from) Bid.DRAFT = false.
Proof. destruct from; reflexivity. Qed.

Lemma updateStatus_Ok_valid (P : Persistence) (now : Date) (s : Bid.Status)
  (reason : option string) (this : Bid.t) (d : Db) :
  isOk (snd (BidModel.updateStatus P now s reason this d)) = true ->
  Bid.includes (Bid.validTransitions (Bid.status_current this)) s = true.
Proof.
  unfold BidModel.updateStatus.
  destruct (Bid.includes (Bid.validTransitions (Bid.status_current this)) s);
    [ reflexivity | discriminate ].
Qed.

(** X28.  For a stored bid and accepted writes, every state other than DRAFT is
    reached from every state by at most three calls of [updateStatus], so
    neither ACCEPTED nor REJECTED nor WITHDRAWN is final; and no sequence
    of calls ends in DRAFT. *)
Theorem no_bid_status_is_final_and_none_leads_back_to_draft
  (P : Persistence) (now : Date) (this : Bid.t) (d : Db)
  (Hstored : Bid.isNew this = false)
  (Hwrite : forall b, bid_write P b = None) :
  (forall target, target <> Bid.DRAFT ->
     exists path this' d',
       (List.length path <= 3)%nat
       /\ updateStatuses P now path this d = (this', d', Ok tt)
       /\ Bid.status_current this' = target)
  /\ (forall path this' d',
        path <> [] ->
        updateStatuses P now path this d = (this', d', Ok tt) ->
        Bid.status_current this' <> Bid.DRAFT).
Proof.
  split.
  - intros target Htarget.
    destruct (updateStatuses_allowed P now (route (Bid.status_current this) target) this d
                Hwrite Hstored) as (this' & d' & Hrun & Hlast & _).
    { destruct (Bid.status_current this), target; reflexivity. }
    exists (route (Bid.status_current this) target), this', d'.
    split; [ destruct (Bid.status_current this), target; cbn; lia | ].
    split; [ exact Hrun | ].
    rewrite Hlast. destruct (Bid.status_current this), target; try reflexivity;
      contradiction.
  - intros path. clear Hstored. revert this d.
    induction path as [ | s rest IH]; intros this d this' d' Hne Hrun; [ contradiction | ].
    cbn [updateStatuses] in Hrun.
    pose proof (updateStatus_Ok_status P now s None this d) as Hstatus.
    pose proof (updateStatus_Ok_valid P now s None this d) as Hvalid.
    destruct (BidModel.updateStatus P now s None this d) as [[this1 d1] [e | u]];
      [ discriminate Hrun | ].
    cbn [fst snd isOk] in Hstatus, Hvalid.
    destruct rest as [ | s' rest'].
    + cbn [updateStatuses] in Hrun. injection Hrun as <- _.
      rewrite (Hstatus eq_refl). intros ->.
      rewrite never_to_draft in Hvalid. discriminate (Hvalid eq_refl).
    + apply (IH this1 d1 this' d'); [ discriminate | exact Hrun ].
Qed.

Lemma no_bid_status_is_final_and_none_leads_back_to_draft_witness :
  exists accepted,
    Bid_findById "b1" (db Scenario.world3) = Some accepted
    /\ Bid.status_current accepted = Bid.ACCEPTED
    /\ Bid.isNew accepted = false
    /\ (forall b, bid_write healthy b = None)
    /\ exists path this' d',
         (List.length path <= 3)%nat
         /\ updateStatuses healthy 40 path accepted (db Scenario.world3) = (this', d', Ok tt)
         /\ Bid.status_current this' = Bid.WITHDRAWN.
Proof.
  destruct (Bid_findById "b1" (db Scenario.world3)) as [accepted | ] eqn:Hbid;
    [ | vm_compute in Hbid; discriminate Hbid ].
  assert (Hfacts : Bid.status_current accepted = Bid.ACCEPTED /\ Bid.isNew accepted = false).
  { vm_compute in Hbid. injection Hbid as <-. split; reflexivity. }
  destruct Hfacts as [Haccepted Hstored].
  assert (Hwrite : forall b, bid_write healthy b = None) by reflexivity.
  exists accepted. repeat (split; [ assumption || reflexivity | ]).
  apply (proj1 (no_bid_status_is_final_and_none_leads_back_to_draft healthy 40 accepted
                  (db Scenario.world3) Hstored Hwrite)).
  discriminate.
Defined.

(** ** A run of the cached listing *)

Lemma getProjectBids_lists_no_bid_witness :
  snd (TTLCache.get 12 (projectBidsKey "p1" (Some "pending") (Some 2) (Some 1))
         (projectBidsCache Scenario.world2)) = None
  /\ map Bid._id (filter (fun b => String.eqb (Bid.project b) "p1")
                    (bids (db Scenario.world2))) = ["b1"; "b2"]
  /\ snd (BidService.getProjectBids 12 "p1" (Some "pending") (Some 2) (Some 1)
            Scenario.world2)
     = Ok (mkProjectBids [] (mkPagination 2 1 0 0 false)).
Proof.
  assert (Hmiss : snd (TTLCache.get 12 (projectBidsKey "p1" (Some "pending") (Some 2) (Some 1))
                         (projectBidsCache Scenario.world2)) = None) by reflexivity.
  split; [ exact Hmiss | ]. split; [ reflexivity | ].
  pose proof (getProjectBids_lists_no_bid 12 "p1" (Some "pending") (Some 2)
                (Some 1) Scenario.world2 Hmiss) as H.
  cbn [BidService.validatePagination] in H.
  destruct (BidService.getProjectBids 12 "p1" (Some "pending") (Some 2) (Some 1)
              Scenario.world2) as [w' r].
  destruct H as [-> _]. reflexivity.
Defined.

(** ** Projects have no table of transitions *)

Lemma findById_replaceProject (p : Project.t) (d : Db) :
  Project_findById (Project._id p) d <> None ->
  Project_findById (Project._id p) (applyWrite d (ReplaceProject p)) = Some p.
Proof.
  unfold Project_findById. cbn [applyWrite set_projects projects]. unfold replaceProject.
  induction (projects d) as [ | x l IH]; cbn [find map]; intros H; [ contradiction | ].
  destruct (String.eqb (Project._id x) (Project._id p)) eqn:E.
  - rewrite String.eqb_refl. reflexivity.
  - rewrite E. apply IH. exact H.
Qed.

Lemma project_preSave_keeps (now : Date) (p : Project.t) :
  Project._id (Project.markSaved (Project.preSave now p)) = Project._id p
  /\ Project.status_current (Project.markSaved (Project.preSave now p))
     = Project.status_current p
  /\ Project.client (Project.markSaved (Project.preSave now p)) = Project.client p.
Proof.
  unfold Project.preSave. destruct p as [i c ty me mr cur hist md [ | ]]; cbn; auto.
Qed.

(** X29.  The project's [updateStatus] has no table of transitions.  A call that
    names the current status does nothing: no write is attempted, the
    document and the database are as before.  A call that names any other
    status is a save: when the write is accepted the project has the new
    status, the same identifier and owner, and a stored project is read
    back with it; when the write is refused the error of the persistence
    layer is thrown and the database is as before. *)
Theorem project_updateStatus_accepts_any_change
  (P : Persistence) (now : Date) (newStatus : Project.Status) (reason : option string)
  (this : Project.t) (d : Db) :
  let '(this', d', r) := ProjectModel.updateStatus P now newStatus reason this d in
  let changed :=
    Project.push_status_history (Project.mkHistoryEntry newStatus now reason)
      (Project.set_status_current newStatus this) in
  (Project.status_current this = newStatus -> this' = this /\ d' = d /\ r = Ok tt)
  /\ (Project.status_current this <> newStatus ->
      match project_write P changed with
      | None =>
        r = Ok tt
        /\ Project.status_current this' = newStatus
        /\ Project._id this' = Project._id this
        /\ Project.client this' = Project.client this
        /\ (Project_findById (Project._id this) d <> None ->
            Project_findById (Project._id this) d' = Some this')
        /\ bids d' = bids d
      | Some e => r = throw (EJs e) /\ d' = d
      end).
Proof.
  unfold ProjectModel.updateStatus.
  destruct (Project.Status_eqb (Project.status_current this) newStatus) eqn:E; cbn [negb].
  - split; [ auto | ]. intros Hne.
    destruct (Project.status_current this), newStatus; try discriminate E;
      exfalso; apply Hne; reflexivity.
  - unfold ProjectModel.save. cbv zeta.
    set (changed := Project.push_status_history _ _).
    assert (Hc : Project._id changed = Project._id this
                 /\ Project.status_current changed = newStatus
                 /\ Project.client changed = Project.client this).
    { unfold changed. destruct this; cbn. auto. }
    destruct Hc as (Hc1 & Hc2 & Hc3).
    destruct (project_write P changed) as [e | ] eqn:Hw.
    + split; [ | intros _; split; reflexivity ].
      intros H. rewrite H in E. destruct newStatus; discriminate E.
    + split.
      * intros H. rewrite H in E. destruct newStatus; discriminate E.
      * intros _.
        destruct (project_preSave_keeps now changed) as (H1 & H2 & H3).
        rewrite H1, H2, H3, Hc1, Hc2, Hc3.
        split; [ reflexivity | ]. do 3 (split; [ reflexivity | ]).
        split; [ | reflexivity ].
        intros Hstored. rewrite <- Hc1, <- H1.
        apply findById_replaceProject. rewrite H1, Hc1. exact Hstored.
Qed.

(** ** Errors on their way to the client *)

Lemma tryCatch_throws_ApiError {A} (body : M A) (handler : Exn -> Exn) (w : World) (e : Exn) :
  (forall x, exists a, handler x = EApi a) ->
  snd (tryCatch body handler w) = inl e -> exists a, e = EApi a.
Proof.
  intros Hh. unfold tryCatch. destruct (body w) as [w' [x | a]]; cbn; [ | discriminate ].
  intros [= <-]. apply Hh.
Qed.

Lemma wrap500_ApiError (msg : string) (x : Exn) : exists a, BidService.wrap500 msg x = EApi a.
Proof. destruct x as [a | e]; cbn; eauto. Qed.

Lemma submitBid_catch_ApiError (x : Exn) : exists a, BidService.submitBid_catch x = EApi a.
Proof.
  destruct x as [a | e]; cbn; [ eauto | ].
  destruct (_ || _); [ eauto | ]. destruct (String.eqb _ _); eauto.
Qed.

Lemma handle_passes_ApiError {A D} (call : M A) (respond : A -> ApiResponse.t D)
  (w : World) (e : Exn) :
  (forall x, snd (call w) = inl x -> exists a, x = EApi a) ->
  snd (BidController.handle call respond w) = inl e ->
  exists a, e = EApi a
            /\ forall development err_message,
                 BidController.respond development err_message (inl e)
                 = ApiResponse.error (D := D) (statusCode a) (message a).
Proof.
  intros Hcall. unfold BidController.handle.
  destruct (call w) as [w' [x | a]]; cbn; [ | discriminate ].
  intros [= <-]. destruct (Hcall x eq_refl) as (a & ->).
  exists a. split; reflexivity.
Qed.

Lemma commitsSafely_bind {A B} (c : M B) (k : B -> M (BidService.Tx A)) :
  (forall b, commitsSafely (k b)) -> commitsSafely (bind c k).
Proof.
  intros Hk w w' session rest. unfold bind.
  destruct (c w) as [w1 [e | b]]; [ discriminate | ]. apply Hk.
Qed.

Lemma commitsSafely_raise {A} (e : Exn) : commitsSafely (A := A) (raise e).
Proof. intros w w' session rest. discriminate. Qed.

Lemma commitsSafely_raiseApi {A} (c : Z) (m : string) :
  commitsSafely (A := A) (raiseApi c m).
Proof. intros w w' session rest. discriminate. Qed.

Lemma commitsSafely_Returns {A} (a : A) : commitsSafely (ret (BidService.Returns a)).
Proof. intros w w' session rest. discriminate. Qed.

Lemma commitsSafely_Commits {A} (session : Session) (rest : M A) :
  (forall w, exists a, snd (rest w) = inr a) ->
  commitsSafely (ret (BidService.Commits session rest)).
Proof. intros H w w' session' rest' [= _ _ <-]. exact H. Qed.

Lemma transaction_throws {A} (P : Persistence) (body : M (BidService.Tx A))
  (handler : Exn -> Exn) (w : World) (e : Exn) :
  (forall x, exists a, handler x = EApi a) ->
  commitsSafely body ->
  snd (BidService.transaction P body handler w) = inl e ->
  (exists a, e = EApi a) \/ (commit P <> None /\ e = EJs abortAfterCommitError).
Proof.
  intros Hh Hsafe. unfold BidService.transaction.
  destruct (body w) as [w1 [x | [a | session rest]]] eqn:Hbody; cbn [snd].
  - intros [= <-]. left. apply Hh.
  - discriminate.
  - unfold BidService.commitSession.
    destruct (commit P) as [err | ] eqn:Hcommit; cbn [throw].
    + intros [= <-]. right. split; [ discriminate | reflexivity ].
    + destruct (Hsafe _ _ _ _ Hbody (with_db (commitTransaction session (db w1)) w1))
        as (a & Ha).
      destruct (rest _) as [w2 [x | a']]; cbn [snd] in *; discriminate.
Qed.

Lemma submitBid_throws (P : Persistence) (now : Date) (newId projectId vendorId : ObjectId)
  (bidData : BidService.BidData) (w : World) (e : Exn) :
  snd (BidService.submitBid P now newId projectId vendorId bidData w) = inl e ->
  (exists a, e = EApi a) \/ (commit P <> None /\ e = EJs abortAfterCommitError).
Proof.
  unfold BidService.submitBid.
  apply transaction_throws; [ apply submitBid_catch_ApiError | ].
  apply commitsSafely_bind; intros vendor. apply commitsSafely_bind; intros project.
  destruct project as [project | ]; [ | apply commitsSafely_raiseApi ].
  destruct vendor as [vendor | ]; [ | apply commitsSafely_raiseApi ].
  destruct (negb _); [ apply commitsSafely_raiseApi | ].
  destruct (BidService._validateVendorEligibility vendor project);
    [ apply commitsSafely_raise | ].
  apply commitsSafely_bind; intros [bid session].
  apply commitsSafely_Commits. intros w2. exists bid. reflexivity.
Qed.

Lemma selectBid_throws (P : Persistence) (now : Date) (bidId projectId clientId : ObjectId)
  (w : World) (e : Exn) :
  snd (BidService.selectBid P now bidId projectId clientId w) = inl e ->
  (exists a, e = EApi a) \/ (commit P <> None /\ e = EJs abortAfterCommitError).
Proof.
  unfold BidService.selectBid.
  apply transaction_throws; [ apply wrap500_ApiError | ].
  apply commitsSafely_bind; intros cp. apply commitsSafely_bind; intros bid.
  apply commitsSafely_bind; intros project.
  destruct bid as [bid | ]; [ | apply commitsSafely_raiseApi ].
  destruct project as [project | ]; [ | apply commitsSafely_raiseApi ].
  destruct (Bid.Status_eqb (Bid.status_current bid) Bid.ACCEPTED);
    [ apply commitsSafely_Returns | ].
  destruct (negb _ && negb _); [ apply commitsSafely_raiseApi | ].
  destruct (negb _ && negb _); [ apply commitsSafely_raiseApi | ].
  apply commitsSafely_bind; intros [bid1 u1].
  apply commitsSafely_bind; intros [bid2 u2].
  apply commitsSafely_bind; intros session.
  apply commitsSafely_bind; intros [project' session'].
  apply commitsSafely_Commits. intros w2. eexists.
  unfold bind, BidService._clearProjectBidCaches, ret. reflexivity.
Qed.

Lemma handle_passes_failure {A D} (call : M A) (respond : A -> ApiResponse.t D)
  (w : World) (e : Exn) :
  snd (BidController.handle call respond w) = inl e -> snd (call w) = inl e.
Proof.
  unfold BidController.handle. destruct (call w) as [w' [x | a]]; cbn; [ | discriminate ].
  intros [= <-]. reflexivity.
Qed.

(** X30.  A failure of the handlers that reject and delete a bid is an ApiError
    of the service, and the error handler answers it with the code and the
    message of that error, in development and in production alike.  A
    failure of the handlers that submit and select a bid is such an
    ApiError too, unless the commit of the transaction is refused: the
    [catch] block then calls [abortTransaction] on the committed session,
    the error of the driver replaces the one caught, and the error handler
    answers it through its last branch, with status 500 and, outside
    development, the message "Internal server error".  A selection whose
    commit is refused is answered so. *)
Theorem bid_endpoints_answer_failures_by_their_kind (w : World) :
  let answered D (e : Exn) :=
    exists a, e = EApi a
              /\ forall development err_message,
                   BidController.respond development err_message (inl e)
                   = ApiResponse.error (D := D) (statusCode a) (message a) in
  let unanswered D (P : Persistence) (e : Exn) :=
    commit P <> None
    /\ e = EJs abortAfterCommitError
    /\ forall development err_message,
         BidController.respond development err_message (inl e)
         = ApiResponse.error (D := D) 500
             (if development then err_message abortAfterCommitError
              else "Internal server error") in
  (forall P now newId projectId vendorId body e,
     snd (BidController.submitBid P now newId projectId vendorId body w) = inl e ->
     answered Bid.t e \/ unanswered Bid.t P e)
  /\ (forall P now bidId projectId clientId e,
        snd (BidController.selectBid P now bidId projectId clientId w) = inl e ->
        answered (Bid.t * Project.t)%type e \/ unanswered (Bid.t * Project.t)%type P e)
  /\ (forall P now bidId projectId clientId reason e,
        snd (BidController.rejectBid P now bidId projectId clientId reason w) = inl e ->
        answered Bid.t e)
  /\ (forall P bidId vendorId e,
        snd (BidController.deleteBid P bidId vendorId w) = inl e ->
        answered ObjectId e)
  /\ (forall development err_message,
        BidController.respond development err_message
          (snd (BidController.selectBid commitRefused 20 "b1" "p1" "u1" Scenario.world2))
        = ApiResponse.error 500
            (if development then err_message abortAfterCommitError
             else "Internal server error")).
Proof.
  cbv zeta.
  split; [ | split; [ | split; [ | split ] ] ].
  - intros P now newId projectId vendorId body e H.
    apply handle_passes_failure in H.
    destruct (submitBid_throws _ _ _ _ _ _ _ _ H) as [(a & ->) | (Hc & ->)].
    + left. exists a. split; reflexivity.
    + right. split; [ exact Hc | ]. split; reflexivity.
  - intros P now bidId projectId clientId e H.
    apply handle_passes_failure in H.
    destruct (selectBid_throws _ _ _ _ _ _ _ H) as [(a & ->) | (Hc & ->)].
    + left. exists a. split; reflexivity.
    + right. split; [ exact Hc | ]. split; reflexivity.
  - intros; eapply handle_passes_ApiError; try eassumption. intros x Hx.
    unfold BidService.rejectBid in Hx.
    eapply tryCatch_throws_ApiError; [ | exact Hx ]. apply wrap500_ApiError.
  - intros; eapply handle_passes_ApiError; try eassumption. intros x Hx.
    unfold BidService.deleteBid in Hx.
    eapply tryCatch_throws_ApiError; [ | exact Hx ]. apply wrap500_ApiError.
  - intros development err_message.
    assert (H : snd (BidController.selectBid commitRefused 20 "b1" "p1" "u1" Scenario.world2)
                = inl (EJs abortAfterCommitError)) by (vm_compute; reflexivity).
    rewrite H. reflexivity.
Qed.
